(** * Recipe ingestion scripts: a shallow embedding

    The development follows three scripts of the repository:

    - [scripts/ingest-serious-eats-top50.py]  (module [SeriousEats]),
    - [scripts/ingest-lidia-bastianich.py]    (module [Lidia]),
    - [scripts/extract-foodandwine-chef-urls.py] (module [FoodAndWine]).

    Python dictionaries with a fixed key set are records, [None] is
    [option], the network is an oracle indexed by the number of requests
    already sent, and every effect the scripts have on the outside
    (requests, sleeps, pushed and popped frames of [scrape_recipe]) is
    appended to a trace carried by the state. *)

From Stdlib Require Import String Ascii List ZArith NArith Floats Lia Bool Arith.
From Stdlib Require Import DecimalString Permutation.
From Stdlib Require DecimalNat DecimalFacts.
Import ListNotations.

Local Open Scope string_scope.
Local Open Scope list_scope.
Local Open Scope nat_scope.

(** ** Python [str] primitives

    Strings are sequences of code points below 256, which is what
    [ascii] offers; on that range the functions below agree with
    Python's. *)
Module PyStr.

(** [c.isspace()], also the class [\s] of [re]. *)
Definition isspace (c : ascii) : bool :=
  let n := N_of_ascii c in
  (((9 <=? n) && (n <=? 13)) || ((28 <=? n) && (n <=? 32))
   || (n =? 133) || (n =? 160))%N.

(** [c.isdigit()] restricted to what [\d] matches below 256. *)
Definition isdigit (c : ascii) : bool :=
  let n := N_of_ascii c in ((48 <=? n) && (n <=? 57))%N.

Definition lower_char (c : ascii) : ascii :=
  let n := N_of_ascii c in
  if (((65 <=? n) && (n <=? 90))
      || ((192 <=? n) && (n <=? 222) && negb (n =? 215)))%N
  then ascii_of_N (n + 32) else c.

(** [s.lower()] *)
Fixpoint lower (s : string) : string :=
  match s with
  | EmptyString => EmptyString
  | String c t => String (lower_char c) (lower t)
  end.

(** [s.startswith(p)] *)
Fixpoint startswith (p s : string) : bool :=
  match p, s with
  | EmptyString, _ => true
  | String _ _, EmptyString => false
  | String a p', String b s' => Ascii.eqb a b && startswith p' s'
  end.

(** [sub in s] *)
Fixpoint contains (sub s : string) : bool :=
  startswith sub s
  || match s with
     | EmptyString => false
     | String _ t => contains sub t
     end.

Fixpoint lstrip (s : string) : string :=
  match s with
  | EmptyString => EmptyString
  | String c t => if isspace c then lstrip t else s
  end.

Definition reverse (s : string) : string :=
  string_of_list_ascii (rev (list_ascii_of_string s)).

Definition rstrip (s : string) : string := reverse (lstrip (reverse s)).

(** [s.strip()] *)
Definition strip (s : string) : string := rstrip (lstrip s).

(** [s.endswith(p)] *)
Definition endswith (p s : string) : bool :=
  startswith (reverse p) (reverse s).

(** [s.count(c)] for a one-character needle. *)
Fixpoint count_char (c : ascii) (s : string) : nat :=
  match s with
  | EmptyString => 0
  | String d t => (if Ascii.eqb c d then 1 else 0) + count_char c t
  end.

(** [sep.join(parts)] *)
Fixpoint join (sep : string) (parts : list string) : string :=
  match parts with
  | [] => EmptyString
  | [p] => p
  | p :: rest => p ++ sep ++ join sep rest
  end.

(** Value of the leading digit run of [s], continuing from [acc]. *)
Fixpoint digit_run (acc : Z) (s : string) : Z :=
  match s with
  | EmptyString => acc
  | String c t =>
      if isdigit c
      then digit_run (10 * acc + Z.of_N (N_of_ascii c - 48)) t
      else acc
  end.

(** [m = re.search(r'(\d+)', s)] followed by [int(m.group(1))]:
    the first maximal run of digits, read in base 10. *)
Fixpoint search_int (s : string) : option Z :=
  match s with
  | EmptyString => None
  | String c t => if isdigit c then Some (digit_run 0 s) else search_int t
  end.

(** [re.sub(r'\s+', ' ', s)]; [in_run] tells that the previous
    character was white space and has already been replaced. *)
Fixpoint squeeze (in_run : bool) (s : string) : string :=
  match s with
  | EmptyString => EmptyString
  | String c t =>
      if isspace c
      then (if in_run then squeeze true t else String " " (squeeze true t))
      else String c (squeeze false t)
  end.

(** [any(p in s for p in patterns)] *)
Definition any_in (patterns : list string) (s : string) : bool :=
  existsb (fun p => contains p s) patterns.

(** [list(dict.fromkeys(l))]: first occurrences, in order. *)
Fixpoint fromkeys_from (seen l : list string) : list string :=
  match l with
  | [] => []
  | x :: rest =>
      if existsb (String.eqb x) seen then fromkeys_from seen rest
      else x :: fromkeys_from (x :: seen) rest
  end.

Definition fromkeys (l : list string) : list string := fromkeys_from [] l.

End PyStr.

(** ** The outside world *)

(** What a run does that can be observed from outside. *)
Inductive event : Type :=
| Call (url : string) (attempt : nat)  (* a frame of [scrape_recipe] is pushed *)
| Return_                              (* ... and popped *)
| Get (url : string)                   (* one outbound request *)
| Backoff (secs : Z)                   (* [time.sleep(wait_time)] *)
| RateLimit (secs : Z).                (* [time.sleep(RATE_LIMIT_SECONDS)] *)

Record World : Type := mkWorld {
  sent : nat;            (* requests sent so far *)
  minted : nat;          (* [uuid.uuid4()] calls so far *)
  ticks : nat;           (* [datetime.now()] calls so far *)
  trace : list event     (* oldest first *)
}.

Definition M (A : Type) : Type := World -> A * World.

Definition ret {A} (a : A) : M A := fun w => (a, w).

Definition bind {A B} (m : M A) (k : A -> M B) : M B :=
  fun w => let (a, w') := m w in k a w'.

Declare Scope run_scope.
Delimit Scope run_scope with run.
Notation "x <- m ;; k" := (bind m (fun x => k))
  (at level 61, m at next level, right associativity) : run_scope.
Notation "m ;; k" := (bind m (fun _ => k))
  (at level 61, right associativity) : run_scope.
Local Open Scope run_scope.

Definition emit (e : event) : M unit :=
  fun w => (tt, mkWorld (sent w) (minted w) (ticks w) (trace w ++ [e])).

(** One request to [url]; the reply is the oracle's answer for this
    URL at this point of the run. *)
Definition request {R} (oracle : string -> nat -> R) (url : string) : M R :=
  fun w => (oracle url (sent w),
            mkWorld (S (sent w)) (minted w) (ticks w) (trace w ++ [Get url])).

(** [datetime.now().isoformat()], as the index of the clock reading. *)
Definition now : M nat :=
  fun w => (ticks w, mkWorld (sent w) (minted w) (S (ticks w)) (trace w)).

(** [str(uuid.uuid4())], as the index of the draw. *)
Definition uuid4 : M nat :=
  fun w => (minted w, mkWorld (sent w) (S (minted w)) (ticks w) (trace w)).

Definition world0 : World := mkWorld 0 0 0 [].

(** Readings of a trace. *)
Definition is_get (e : event) : bool :=
  match e with Get _ => true | _ => false end.

Definition is_rate_limit (e : event) : bool :=
  match e with RateLimit _ => true | _ => false end.

(** Number of requests, i.e. of attempts when the trace is that of one
    [scrape_recipe] call. *)
Definition attempts (t : list event) : nat := length (filter is_get t).

(** The back-off sleeps, in order. *)
Fixpoint waits (t : list event) : list Z :=
  match t with
  | [] => []
  | Backoff s :: rest => s :: waits rest
  | _ :: rest => waits rest
  end.

Definition rate_limits (t : list event) : nat :=
  length (filter is_rate_limit t).

(** Live frames of [scrape_recipe] after [t], starting from [d], and
    the largest number of them live at once. *)
Fixpoint depth_after (d : nat) (t : list event) : nat :=
  match t with
  | [] => d
  | Call _ _ :: rest => depth_after (S d) rest
  | Return_ :: rest => depth_after (pred d) rest
  | _ :: rest => depth_after d rest
  end.

Fixpoint peak_from (d : nat) (t : list event) : nat :=
  match t with
  | [] => d
  | Call _ _ :: rest => Nat.max d (peak_from (S d) rest)
  | Return_ :: rest => Nat.max d (peak_from (pred d) rest)
  | _ :: rest => peak_from d rest
  end.

Definition stack_depth (t : list event) : nat := peak_from 0 t.

(** [segs] laid out with one [sep] between consecutive segments. *)
Fixpoint separated (sep : event) (segs : list (list event)) : list event :=
  match segs with
  | [] => []
  | [s] => s
  | s :: rest => s ++ sep :: separated sep rest
  end.

(** [success_count / total_count * 100 if total_count > 0 else 0], in
    binary64 as Python computes it (list lengths are far below 2^53,
    where the conversion of an [int] to [float] is exact). *)
Definition to_float (n : nat) : float :=
  PrimFloat.of_uint63 (Uint63.of_Z (Z.of_nat n)).

Definition success_rate (success_count total_count : nat) : float :=
  if 0 <? total_count
  then PrimFloat.mul (PrimFloat.div (to_float success_count) (to_float total_count))
                     (to_float 100)
  else to_float 0.

(** [success_rate >= threshold] *)
Definition meets (threshold : nat) (rate : float) : bool :=
  PrimFloat.leb (to_float threshold) rate.

(** Truthiness of a [str]. *)
Definition truthy (s : string) : bool := negb (String.eqb s "").

Definition truthy_opt (s : option string) : bool :=
  match s with Some s => truthy s | None => false end.

(** A text column holding JSON: what [json.dumps] wrote for a list of
    strings, or something [json.loads] rejects. *)
Inductive JsonText : Type :=
| Dumps (items : list string)
| NotJson.

(** [json.loads], [None] standing for [json.JSONDecodeError]. *)
Definition json_loads (t : JsonText) : option (list string) :=
  match t with
  | Dumps items => Some items
  | NotJson => None
  end.

(** ** scripts/ingest-serious-eats-top50.py

    Logger calls write to the console and to the log files only and
    are left out; keys of the transformed record whose value is a
    constant ([None], [False], [True], [0]) are left out too. *)
Module SeriousEats.

Definition RATE_LIMIT_SECONDS : Z := 2.
Definition MAX_RETRIES : nat := 3.
Definition RETRY_BACKOFF : Z := 2.

Record Metadata : Type := mkMetadata {
  md_author : option string;
  md_category : option string;
  md_notes : option string
}.

(** What the accessors of the object returned by [scrape_me] give. *)
Record Scraper : Type := mkScraper {
  sc_title : string;
  sc_author : option string;
  sc_description : option string;
  sc_prep_time : option Z;
  sc_cook_time : option Z;
  sc_total_time : option Z;
  sc_yields : option string;
  sc_ingredients : list string;
  sc_instructions : string;
  sc_image : option string;
  sc_cuisine : option string;
  sc_category : option string;
  sc_ratings : option string
}.

(** Outcome of the [try] block of [scrape_recipe]: [scrape_me(url)]
    and the accessor calls either raise [e] (with [type(e).__name__]
    and [str(e)]) or deliver every field. *)
Inductive Outcome : Type :=
| Raises (error_type error_msg : string)
| Scraped (s : Scraper).

Record RawData : Type := mkRawData {
  url : string;
  metadata : Metadata;
  scraped_at : nat;
  title : string;
  author : option string;
  description : option string;
  prep_time : option Z;
  cook_time : option Z;
  total_time : option Z;
  yields : option string;
  ingredients : list string;
  instructions : string;
  image : option string;
  cuisine : option string;
  category : option string;
  ratings : option string
}.

Record RecipeMetadata : Type := mkRecipeMetadata {
  rm_author : option string;
  rm_category : option string;
  rm_notes : option string;
  rm_scraped_author : option string;
  rm_scraped_ratings : option string;
  rm_scraped_at : nat
}.

(** The transformed record; [r_validation_issues] is the key
    ["_validation_issues"], absent ([None]) until [main] sets it. *)
Record Recipe : Type := mkRecipe {
  r_id : nat;
  r_user_id : string;
  r_name : string;
  r_description : option string;
  r_ingredients : JsonText;
  r_instructions : string;
  r_prep_time : option Z;
  r_cook_time : option Z;
  r_servings : option Z;
  r_cuisine : option string;
  r_tags : JsonText;
  r_images : JsonText;
  r_source : string;
  r_created_at : nat;
  r_updated_at : nat;
  r_discovery_date : nat;
  r_metadata : RecipeMetadata;
  r_validation_issues : option (list string)
}.

Definition set_validation_issues (r : Recipe) (issues : list string) : Recipe :=
  mkRecipe (r_id r) (r_user_id r) (r_name r) (r_description r)
    (r_ingredients r) (r_instructions r) (r_prep_time r) (r_cook_time r)
    (r_servings r) (r_cuisine r) (r_tags r) (r_images r) (r_source r)
    (r_created_at r) (r_updated_at r) (r_discovery_date r) (r_metadata r)
    (Some issues).

Definition parse_servings (yields_str : option string) : option Z :=
  match yields_str with
  | None => None
  | Some s => if truthy s then PyStr.search_int s else None
  end.

Definition parse_instructions (instructions : string) : string :=
  if truthy instructions
  then PyStr.strip (PyStr.squeeze false instructions)
  else "".

Section Network.

(** [scrape_me url k]: what the [try] block does for [url] when
    [k] requests have been sent before. *)
Variable scrape_me : string -> nat -> Outcome.

(** The body of [scrape_recipe]; [left] is [max_retries - attempt],
    so that [left] is a successor exactly when
    [attempt < MAX_RETRIES] (see [se_scrape_recipe_unfold]). *)
Fixpoint scrape_from (left : nat) (url : string) (metadata : Metadata)
    (attempt : nat) : M (option RawData) :=
  emit (Call url attempt) ;;
  out <- request scrape_me url ;;
  match out with
  | Scraped s =>
      t <- now ;;
      emit Return_ ;;
      ret (Some (mkRawData url metadata t (sc_title s) (sc_author s)
                   (sc_description s) (sc_prep_time s) (sc_cook_time s)
                   (sc_total_time s) (sc_yields s) (sc_ingredients s)
                   (sc_instructions s) (sc_image s) (sc_cuisine s)
                   (sc_category s) (sc_ratings s)))
  | Raises error_type error_msg =>
      if PyStr.contains "404" error_msg || PyStr.contains "Not Found" error_msg
      then emit Return_ ;; ret None
      else
        match left with
        | S left' =>
            let wait_time := (RETRY_BACKOFF ^ Z.of_nat attempt)%Z in
            emit (Backoff wait_time) ;;
            r <- scrape_from left' url metadata (S attempt) ;;
            emit Return_ ;;
            ret r
        | O => emit Return_ ;; ret None
        end
  end.

Definition scrape_recipe_upto (max_retries : nat) (url : string)
    (metadata : Metadata) (attempt : nat) : M (option RawData) :=
  scrape_from (max_retries - attempt) url metadata attempt.

(** [scrape_recipe(url, metadata, attempt)] *)
Definition scrape_recipe : string -> Metadata -> nat -> M (option RawData) :=
  scrape_recipe_upto MAX_RETRIES.

Definition transform_to_schema (raw_data : RawData) : M Recipe :=
  let servings := parse_servings (yields raw_data) in
  let instructions := parse_instructions (instructions raw_data) in
  let tags := [] in
  let tags := if truthy_opt (category raw_data)
              then tags ++ [match category raw_data with Some c => c | None => "" end]
              else tags in
  let tags := if truthy_opt (md_category (metadata raw_data))
              then tags ++ [match md_category (metadata raw_data) with
                            | Some c => c | None => "" end]
              else tags in
  let tags := PyStr.fromkeys tags in
  let images := [] in
  let images := if truthy_opt (image raw_data)
                then images ++ [match image raw_data with Some i => i | None => "" end]
                else images in
  id <- uuid4 ;;
  created_at <- now ;;
  updated_at <- now ;;
  discovery_date <- now ;;
  ret (mkRecipe id "system" (title raw_data) (description raw_data)
         (Dumps (ingredients raw_data)) instructions
         (prep_time raw_data) (cook_time raw_data) servings
         (cuisine raw_data) (Dumps tags) (Dumps images) (url raw_data)
         created_at updated_at discovery_date
         (mkRecipeMetadata (md_author (metadata raw_data))
            (md_category (metadata raw_data)) (md_notes (metadata raw_data))
            (author raw_data) (ratings raw_data) (scraped_at raw_data))
         None).

Definition validate_recipe (recipe : Recipe) : bool * list string :=
  let issues := [] in
  let issues := if negb (truthy (r_name recipe))
                then issues ++ ["Missing name"] else issues in
  let issues :=
    match json_loads (r_ingredients recipe) with
    | Some ingredients =>
        if match ingredients with [] => true | _ => false end
           || (length ingredients =? 0)
        then issues ++ ["No ingredients"] else issues
    | None => issues ++ ["Invalid ingredients JSON"]
    end in
  let issues :=
    if negb (truthy (r_instructions recipe))
    then issues ++ ["No instructions"]
    else if String.length (r_instructions recipe) <? 50
         then issues ++ ["Instructions too short (< 50 chars)"]
         else issues in
  let issues :=
    match json_loads (r_images recipe) with
    | Some images =>
        if match images with [] => true | _ => false end
           || (length images =? 0)
        then issues ++ ["No images"] else issues
    | None => issues ++ ["Invalid images JSON"]
    end in
  let issues := if negb (truthy (r_source recipe))
                then issues ++ ["Missing source URL"] else issues in
  let is_valid := length issues =? 0 in
  (is_valid, issues).

(** One entry of the URL file; the key ["url"] is taken to be
    there ([recipe_info['url']]). *)
Record RecipeInfo : Type := mkRecipeInfo {
  ri_url : string;
  ri_author : option string;
  ri_category : option string;
  ri_notes : option string
}.

(** What opening and decoding [URLS_FILE] gives. *)
Inductive UrlsFile : Type :=
| FileNotFoundError
| JSONDecodeError
| Loaded (url_data : list RecipeInfo).

Record ValidationFailure : Type := mkValidationFailure {
  vf_recipe : string;
  vf_url : string;
  vf_issues : list string
}.

(** What a run leaves: the value returned by [main] (the process
    exit status) and the two snapshots, [None] when the run ended
    before writing them. *)
Record Run : Type := mkRun {
  exit_status : Z;
  raw_snapshot : option (list RawData);
  transformed_snapshot : option (list Recipe);
  failed : list string;
  validation_failures : list ValidationFailure
}.

(** [for i, recipe_info in enumerate(url_data, 1)], from entry [i]
    on, [total] being [len(url_data)]. *)
Fixpoint scrape_loop (total i : nat) (url_data : list RecipeInfo)
    (raw_recipes : list RawData) (failed_urls : list string)
    : M (list RawData * list string) :=
  match url_data with
  | [] => ret (raw_recipes, failed_urls)
  | recipe_info :: rest =>
      let url := ri_url recipe_info in
      let metadata := mkMetadata (ri_author recipe_info)
                        (ri_category recipe_info) (ri_notes recipe_info) in
      raw_data <- scrape_recipe url metadata 1 ;;
      let '(raw_recipes, failed_urls) :=
        match raw_data with
        | Some d => (raw_recipes ++ [d], failed_urls)
        | None => (raw_recipes, failed_urls ++ [url])
        end in
      (if i <? total then emit (RateLimit RATE_LIMIT_SECONDS) else ret tt) ;;
      scrape_loop total (S i) rest raw_recipes failed_urls
  end.

(** [for raw_data in raw_recipes] of the transformation stage. *)
Fixpoint transform_loop (raw_recipes : list RawData)
    (transformed_recipes : list Recipe)
    (failures : list ValidationFailure)
    : M (list Recipe * list ValidationFailure) :=
  match raw_recipes with
  | [] => ret (transformed_recipes, failures)
  | raw_data :: rest =>
      transformed <- transform_to_schema raw_data ;;
      let '(is_valid, issues) := validate_recipe transformed in
      if is_valid
      then transform_loop rest (transformed_recipes ++ [transformed]) failures
      else
        let failures := failures ++ [mkValidationFailure (r_name transformed)
                                       (r_source transformed) issues] in
        let transformed := set_validation_issues transformed issues in
        transform_loop rest (transformed_recipes ++ [transformed]) failures
  end.

Definition main (urls_file : UrlsFile) : M Run :=
  match urls_file with
  | FileNotFoundError => ret (mkRun 1 None None [] [])
  | JSONDecodeError => ret (mkRun 1 None None [] [])
  | Loaded url_data =>
      scraped <- scrape_loop (length url_data) 1 url_data [] [] ;;
      let '(raw_recipes, failed_urls) := scraped in
      transformed <- transform_loop raw_recipes [] [] ;;
      let '(transformed_recipes, failures) := transformed in
      let success_count := length raw_recipes in
      let total_count := length url_data in
      let rate := success_rate success_count total_count in
      ret (mkRun (if meets 90 rate then 0 else 1)
             (Some raw_recipes) (Some transformed_recipes)
             failed_urls failures)
  end.

End Network.

End SeriousEats.

(** ** scripts/ingest-lidia-bastianich.py *)
Module Lidia.

Definition RATE_LIMIT_SECONDS : Z := 2.
Definition MAX_RETRIES : nat := 3.
Definition RETRY_BACKOFF : Z := 2.
Definition TARGET_RECIPE_COUNT : nat := 30.

Definition CATEGORY_URLS : list string :=
  [ "https://lidiasitaly.com/recipes-categories/pastas-polenta-risottos/";
    "https://lidiasitaly.com/recipes-categories/main-courses/";
    "https://lidiasitaly.com/recipes-categories/chicken-turkey/";
    "https://lidiasitaly.com/recipes-categories/soups/";
    "https://lidiasitaly.com/recipes-categories/sides-vegetable/";
    "https://lidiasitaly.com/recipes-categories/salads/" ].

(** What the queries the script makes on the parsed page return. *)
Record Soup : Type := mkSoup {
  (* [link['href']] for [soup.find_all('a', href=True)] *)
  a_hrefs : list string;
  (* [.text] of [soup.find('h1')] *)
  h1 : option string;
  (* [.text] of the first [h3] whose string matches [Serves] *)
  servings_h3 : option string;
  (* the [h2] matching [Ingredients], then its [find_next(['ul', 'ol'])],
     then [li.text] for each of its [li] *)
  ingredients_h2 : option (option (list string));
  (* the [h2] matching [Directions], then its
     [find_next('div', class_='recipe-text')], then [p.text] for each
     of its [p] *)
  directions_h2 : option (option (list string));
  (* the [h2] matching [Notes], then [.text] of its
     [find_next(['p', 'div'])] *)
  notes_h2 : option (option string);
  (* [img.get('src')] and [img.get('data-src')] for every [img] *)
  imgs : list (option string * option string)
}.

(** Outcome of [requests.get]: an exception (with
    [type(e).__name__] and [str(e)]) or a response. *)
Inductive Reply : Type :=
| Raises (error_type error_msg : string)
| Response (status_code : Z) (content : Soup).

Record RawData : Type := mkRawData {
  url : string;
  scraped_at : nat;
  title : string;
  author : string;
  description : option string;
  servings_text : option string;
  ingredients : list string;
  instructions : string;
  notes : option string;
  images : list string;
  cuisine : string
}.

Record RecipeMetadata : Type := mkRecipeMetadata {
  rm_chef : string;
  rm_scraped_at : nat;
  rm_servings_text : option string;
  rm_notes : option string
}.

(** The transformed record; [r_validation_issues] is the key
    ["_validation_issues"], absent ([None]) until [main] sets it. *)
Record Recipe : Type := mkRecipe {
  r_id : nat;
  r_user_id : string;
  r_name : string;
  r_description : option string;
  r_ingredients : JsonText;
  r_instructions : string;
  r_servings : option Z;
  r_cuisine : string;
  r_tags : JsonText;
  r_images : JsonText;
  r_source : string;
  r_created_at : nat;
  r_updated_at : nat;
  r_metadata : RecipeMetadata;
  r_validation_issues : option (list string)
}.

Definition set_validation_issues (r : Recipe) (issues : list string) : Recipe :=
  mkRecipe (r_id r) (r_user_id r) (r_name r) (r_description r)
    (r_ingredients r) (r_instructions r) (r_servings r) (r_cuisine r)
    (r_tags r) (r_images r) (r_source r) (r_created_at r) (r_updated_at r)
    (r_metadata r) (Some issues).

Definition parse_servings (servings_text : option string) : option Z :=
  match servings_text with
  | None => None
  | Some s => if truthy s then PyStr.search_int s else None
  end.

(** Two line feeds: the separator ["\n\n"]. *)
Definition blank_line : string := String "010" (String "010" EmptyString).

Definition skip_patterns : list string :=
  [ "facebook"; "twitter"; "pinterest"; "email"; "copyright";
    "excerpted from"; "all rights reserved" ].

(** The test under which a paragraph text is appended to
    [instruction_parts]. *)
Definition keeps (text : string) : bool :=
  truthy text
  && negb (PyStr.any_in skip_patterns (PyStr.lower text))
  && (20 <? String.length text).

(** [for p in paragraphs] *)
Fixpoint paragraphs_loop (paragraphs : list string)
    (instruction_parts : list string) : list string :=
  match paragraphs with
  | [] => instruction_parts
  | p :: rest =>
      let text := PyStr.strip p in
      if keeps text
      then paragraphs_loop rest (instruction_parts ++ [text])
      else paragraphs_loop rest instruction_parts
  end.

(** The value of [instructions_text] once the directions have been
    looked for. *)
Definition extract_instructions (soup : Soup) : string :=
  match directions_h2 soup with
  | Some (Some paragraphs) => PyStr.join blank_line (paragraphs_loop paragraphs [])
  | _ => ""
  end.

Definition extract_ingredients (soup : Soup) : list string :=
  match ingredients_h2 soup with
  | Some (Some items) =>
      filter truthy (map PyStr.strip items)
  | _ => []
  end.

Definition extract_notes (soup : Soup) : option string :=
  match notes_h2 soup with
  | Some (Some text) => Some (PyStr.strip text)
  | _ => None
  end.

(** [for img in images] *)
Fixpoint images_loop (images : list (option string * option string))
    (image_urls : list string) : list string :=
  match images with
  | [] => image_urls
  | (src_attr, data_src) :: rest =>
      let src := if truthy_opt src_attr
                 then match src_attr with Some s => s | None => "" end
                 else match data_src with Some s => s | None => "" end in
      if truthy src
         && PyStr.any_in ["upload"; "wp-content/uploads"] (PyStr.lower src)
         && negb (PyStr.any_in ["logo"; "icon"; "button"] (PyStr.lower src))
      then if existsb (String.eqb src) image_urls
           then images_loop rest image_urls
           else images_loop rest (image_urls ++ [src])
      else images_loop rest image_urls
  end.

(** [for link in soup.find_all('a', href=True)] of [fetch_recipe_urls] *)
Fixpoint links_loop (hrefs : list string) (recipe_links : list string)
    : list string :=
  match hrefs with
  | [] => recipe_links
  | href :: rest =>
      if PyStr.contains "/recipes/" href && PyStr.endswith "/" href
         && (4 <=? PyStr.count_char "/" href)
      then
        let href := if negb (PyStr.startswith "http" href)
                    then ("https://lidiasitaly.com" ++ href)%string else href in
        if existsb (String.eqb href) recipe_links
        then links_loop rest recipe_links
        else links_loop rest (recipe_links ++ [href])
      else links_loop rest recipe_links
  end.

Section Network.

(** [requests_get url k]: the outcome of [requests.get(url, ...)]
    when [k] requests have been sent before. *)
Variable requests_get : string -> nat -> Reply.

Definition fetch_recipe_urls (category_url : string) (limit : nat)
    : M (list string) :=
  response <- request requests_get category_url ;;
  match response with
  | Raises _ _ => ret []
  | Response status_code soup =>
      if negb (status_code =? 200)%Z then ret []
      else ret (firstn limit (links_loop (a_hrefs soup) []))
  end.

(** The body of [scrape_recipe]; [left] is [max_retries - attempt],
    so that [left] is a successor exactly when
    [attempt < MAX_RETRIES] (see [lidia_scrape_recipe_unfold]). *)
Fixpoint scrape_from (left : nat) (url : string) (attempt : nat)
    : M (option RawData) :=
  emit (Call url attempt) ;;
  response <- request requests_get url ;;
  match response with
  | Response status_code soup =>
      if negb (status_code =? 200)%Z
      then emit Return_ ;; ret None
      else
        let title := match h1 soup with
                     | Some text => Some (PyStr.strip text)
                     | None => None
                     end in
        if negb (truthy_opt title)
        then emit Return_ ;; ret None
        else
          let servings_text :=
            match servings_h3 soup with
            | Some text => Some (PyStr.strip text)
            | None => None
            end in
          let ingredients := extract_ingredients soup in
          let instructions_text := extract_instructions soup in
          let notes := extract_notes soup in
          let description := notes in
          let image_urls := images_loop (imgs soup) [] in
          t <- now ;;
          emit Return_ ;;
          ret (Some (mkRawData url t
                       (match title with Some s => s | None => "" end)
                       "Lidia Bastianich" description servings_text
                       ingredients instructions_text notes image_urls
                       "Italian"))
  | Raises error_type error_msg =>
      match left with
      | S left' =>
          let wait_time := (RETRY_BACKOFF ^ Z.of_nat attempt)%Z in
          emit (Backoff wait_time) ;;
          r <- scrape_from left' url (S attempt) ;;
          emit Return_ ;;
          ret r
      | O => emit Return_ ;; ret None
      end
  end.

Definition scrape_recipe_upto (max_retries : nat) (url : string)
    (attempt : nat) : M (option RawData) :=
  scrape_from (max_retries - attempt) url attempt.

(** [scrape_recipe(url, attempt)] *)
Definition scrape_recipe : string -> nat -> M (option RawData) :=
  scrape_recipe_upto MAX_RETRIES.

Definition transform_to_schema (raw_data : RawData) : M Recipe :=
  let servings := parse_servings (servings_text raw_data) in
  let tags := ["Italian"; "Lidia Bastianich"] in
  id <- uuid4 ;;
  created_at <- now ;;
  updated_at <- now ;;
  ret (mkRecipe id "system" (title raw_data) (description raw_data)
         (Dumps (ingredients raw_data)) (instructions raw_data) servings
         "Italian" (Dumps tags) (Dumps (images raw_data)) (url raw_data)
         created_at updated_at
         (mkRecipeMetadata "Lidia Bastianich" (scraped_at raw_data)
            (servings_text raw_data) (notes raw_data))
         None).

(** [str(n)] *)
Definition str_of_nat (n : nat) : string :=
  DecimalString.NilEmpty.string_of_uint (Nat.to_uint n).

Definition validate_recipe (recipe : Recipe) : bool * list string :=
  let issues := [] in
  let issues := if negb (truthy (r_name recipe))
                then issues ++ ["Missing name"] else issues in
  let issues :=
    match json_loads (r_ingredients recipe) with
    | Some ingredients =>
        if match ingredients with [] => true | _ => false end
           || (length ingredients =? 0)
        then issues ++ ["No ingredients"]
        else if length ingredients <? 3
             then issues ++ [("Too few ingredients ("
                              ++ str_of_nat (length ingredients) ++ ")")%string]
             else issues
    | None => issues ++ ["Invalid ingredients JSON"]
    end in
  let issues :=
    if negb (truthy (r_instructions recipe))
    then issues ++ ["No instructions"]
    else if String.length (r_instructions recipe) <? 50
         then issues ++ ["Instructions too short"]
         else issues in
  let issues := if negb (truthy (r_source recipe))
                then issues ++ ["Missing source URL"] else issues in
  let is_valid := length issues =? 0 in
  (is_valid, issues).

Record ValidationFailure : Type := mkValidationFailure {
  vf_recipe : string;
  vf_url : string;
  vf_issues : list string
}.

Record Run : Type := mkRun {
  exit_status : Z;
  recipe_urls : list string;
  raw_snapshot : list RawData;
  transformed_snapshot : list Recipe;
  failed : list string;
  validation_failures : list ValidationFailure
}.

(** [for category_url in CATEGORY_URLS] *)
Fixpoint discover_loop (category_urls : list string)
    (all_recipe_urls : list string) : M (list string) :=
  match category_urls with
  | [] => ret all_recipe_urls
  | category_url :: rest =>
      urls <- fetch_recipe_urls category_url 10 ;;
      let all_recipe_urls := all_recipe_urls ++ urls in
      emit (RateLimit RATE_LIMIT_SECONDS) ;;
      if TARGET_RECIPE_COUNT <=? length all_recipe_urls
      then ret all_recipe_urls
      else discover_loop rest all_recipe_urls
  end.

(** [for url in all_recipe_urls], with the set [seen] *)
Fixpoint unique_loop (all_recipe_urls seen unique_urls : list string)
    : list string :=
  match all_recipe_urls with
  | [] => unique_urls
  | url :: rest =>
      if negb (existsb (String.eqb url) seen)
      then unique_loop rest (url :: seen) (unique_urls ++ [url])
      else unique_loop rest seen unique_urls
  end.

(** [for i, url in enumerate(recipe_urls, 1)], from entry [i] on,
    [total] being [len(recipe_urls)]. *)
Fixpoint scrape_loop (total i : nat) (urls : list string)
    (raw_recipes : list RawData) (failed_urls : list string)
    : M (list RawData * list string) :=
  match urls with
  | [] => ret (raw_recipes, failed_urls)
  | url :: rest =>
      raw_data <- scrape_recipe url 1 ;;
      let '(raw_recipes, failed_urls) :=
        match raw_data with
        | Some d => (raw_recipes ++ [d], failed_urls)
        | None => (raw_recipes, failed_urls ++ [url])
        end in
      (if i <? total then emit (RateLimit RATE_LIMIT_SECONDS) else ret tt) ;;
      scrape_loop total (S i) rest raw_recipes failed_urls
  end.

(** [for raw_data in raw_recipes] of the transformation stage. *)
Fixpoint transform_loop (raw_recipes : list RawData)
    (transformed_recipes : list Recipe)
    (failures : list ValidationFailure)
    : M (list Recipe * list ValidationFailure) :=
  match raw_recipes with
  | [] => ret (transformed_recipes, failures)
  | raw_data :: rest =>
      transformed <- transform_to_schema raw_data ;;
      let '(is_valid, issues) := validate_recipe transformed in
      if is_valid
      then transform_loop rest (transformed_recipes ++ [transformed]) failures
      else
        let failures := failures ++ [mkValidationFailure (r_name transformed)
                                       (r_source transformed) issues] in
        let transformed := set_validation_issues transformed issues in
        transform_loop rest (transformed_recipes ++ [transformed]) failures
  end.

Definition main : M Run :=
  all_recipe_urls <- discover_loop CATEGORY_URLS [] ;;
  let unique_urls := unique_loop all_recipe_urls [] [] in
  let recipe_urls := firstn TARGET_RECIPE_COUNT unique_urls in
  scraped <- scrape_loop (length recipe_urls) 1 recipe_urls [] [] ;;
  let '(raw_recipes, failed_urls) := scraped in
  transformed <- transform_loop raw_recipes [] [] ;;
  let '(transformed_recipes, failures) := transformed in
  let success_count := length raw_recipes in
  let total_count := length recipe_urls in
  let rate := success_rate success_count total_count in
  ret (mkRun (if meets 80 rate then 0 else 1)
         recipe_urls raw_recipes transformed_recipes failed_urls failures).

End Network.

End Lidia.

(** ** scripts/extract-foodandwine-chef-urls.py *)
Module FoodAndWine.

(** An [a] element as the script looks at it. *)
Record Anchor : Type := mkAnchor {
  href : option string;      (* the attribute [href], if any *)
  rel : list string;         (* the values of [rel] *)
  text : option string;      (* [.string] *)
  classes : list string      (* the values of [class] *)
}.

(** Outcome of [requests.get]: a [RequestException] or a response
    with its status and the [a] elements of its document, in order. *)
Inductive Reply : Type :=
| RequestException (error_type error_msg : string)
| Response (status_code : Z) (anchors : list Anchor).

(** [response.raise_for_status()] raises for 4xx and 5xx. *)
Definition raises_for_status (status_code : Z) : bool :=
  ((400 <=? status_code) && (status_code <? 600))%Z.

(** [str(n)] *)
Definition str_of_nat (n : nat) : string :=
  DecimalString.NilEmpty.string_of_uint (Nat.to_uint n).

(** The URL requested for page [page_num]. *)
Definition page_url (chef_url : string) (page_num : nat) : string :=
  if page_num =? 1 then chef_url
  else (chef_url ++ "?page=" ++ str_of_nat page_num)%string.

(** [soup.find('a', {'rel': 'next'}) or soup.find('a', string='Next')
     or soup.find('a', class_=lambda c: c and 'next' in c.lower() if c else False)],
    as the truth value of the result. *)
Definition next_page (anchors : list Anchor) : bool :=
  existsb (fun a => existsb (String.eqb "next") (rel a)) anchors
  || existsb (fun a => match text a with
                       | Some s => String.eqb s "Next"
                       | None => false
                       end) anchors
  || existsb (fun a => existsb (fun c => truthy c
                                         && PyStr.contains "next" (PyStr.lower c))
                         (classes a)) anchors.

Section Network.

Variable requests_get : string -> nat -> Reply.

(** [urllib.parse.urljoin] *)
Variable urljoin : string -> string -> string.

(** [for link in soup.find_all('a', href=True)] *)
Fixpoint links_loop (chef_url : string) (anchors : list Anchor)
    (recipe_links : list string) : list string :=
  match anchors with
  | [] => recipe_links
  | link :: rest =>
      match href link with
      | None => links_loop chef_url rest recipe_links
      | Some href =>
          let absolute_url := urljoin chef_url href in
          if PyStr.contains "/recipes/" absolute_url
             && PyStr.contains "foodandwine.com" absolute_url
          then
            if negb (PyStr.contains "/gallery/" absolute_url)
               && negb (PyStr.contains "/collection/" absolute_url)
            then links_loop chef_url rest (recipe_links ++ [absolute_url])
            else links_loop chef_url rest recipe_links
          else links_loop chef_url rest recipe_links
      end
  end.

(** The matching links of a fetched page, duplicates removed. *)
Definition recipe_links_of (chef_url : string) (anchors : list Anchor)
    : list string :=
  PyStr.fromkeys (links_loop chef_url anchors []).

(** [while page_num <= max_pages]; [left] is
    [max_pages + 1 - page_num], a successor exactly when the loop
    test holds. *)
Fixpoint walk (left : nat) (chef_url : string) (page_num : nat)
    (all_recipe_urls : list string) : M (list string) :=
  match left with
  | O => ret all_recipe_urls
  | S left' =>
      let url := page_url chef_url page_num in
      response <- request requests_get url ;;
      match response with
      | RequestException _ _ => ret all_recipe_urls
      | Response status_code anchors =>
          if raises_for_status status_code then ret all_recipe_urls
          else
            let recipe_links := recipe_links_of chef_url anchors in
            if match recipe_links with [] => false | _ => true end
            then
              let all_recipe_urls := all_recipe_urls ++ recipe_links in
              let next := next_page anchors in
              if negb next && (page_num =? 1) then ret all_recipe_urls
              else if negb next then ret all_recipe_urls
              else
                emit (RateLimit 2) ;;
                walk left' chef_url (S page_num) all_recipe_urls
            else ret all_recipe_urls
      end
  end.

Definition extract_recipe_urls (chef_url : string) (max_pages : nat)
    : M (list string) :=
  all_recipe_urls <- walk (max_pages + 1 - 1) chef_url 1 [] ;;
  ret (PyStr.fromkeys all_recipe_urls).

(** What a reply contributes to the walk: [None] when the fetch
    failed, else the matching links and whether a next page is
    advertised. *)
Definition yield_of (chef_url : string) (r : Reply)
    : option (list string * bool) :=
  match r with
  | RequestException _ _ => None
  | Response status_code anchors =>
      if raises_for_status status_code then None
      else Some (recipe_links_of chef_url anchors, next_page anchors)
  end.

End Network.

(** ** [main] *)

(** [s.replace(a, b)] for single characters. *)
Fixpoint replace_char (a b : ascii) (s : string) : string :=
  match s with
  | EmptyString => EmptyString
  | String c t =>
      String (if Ascii.eqb c a then b else c) (replace_char a b t)
  end.

(** [s.split(sep)[-1]]: what follows the last [sep], all of [s] when
    there is none; [part] is the piece read so far. *)
Fixpoint last_part (sep : ascii) (part s : string) : string :=
  match s with
  | EmptyString => part
  | String c t =>
      if Ascii.eqb c sep then last_part sep "" t
      else last_part sep (part ++ String c "") t
  end.

(** An entry of the JSON file written at the end. *)
Record Entry : Type := mkEntry {
  e_url : string;
  e_slug : string;
  e_author : string;
  e_source : string;
  e_chef_page : string;
  e_extraction_order : nat
}.

(** How [main] ends: with a return value, which becomes the exit
    status, or with the [OSError] of a file that cannot be written. *)
Inductive Exit : Type :=
| Returns (code : Z)
| OSError.

(** What a call of [main] leaves behind: how it ended and the file it
    wrote, if any, with the list dumped into it. *)
Record Run : Type := mkRun {
  exit : Exit;
  written : option (string * list Entry)
}.

Section Main.

Variable requests_get : string -> nat -> Reply.
Variable urljoin : string -> string -> string.

(** [urlparse(url).path] *)
Variable urlparse_path : string -> string.

(** [s.title()] *)
Variable title : string -> string.

(** Whether [output_file] can be created: its directory made and the
    file opened for writing. *)
Variable can_write : string -> bool.

(** [for i, url in enumerate(recipe_urls, 1)] *)
Fixpoint entries_loop (chef_name chef_url : string) (i : nat)
    (recipe_urls : list string) (recipes_data : list Entry) : list Entry :=
  match recipe_urls with
  | [] => recipes_data
  | url :: rest =>
      let slug := last_part "/" "" (urlparse_path url) in
      entries_loop chef_name chef_url (S i) rest
        (recipes_data
         ++ [mkEntry url slug chef_name "Food & Wine" chef_url i])
  end.

Definition main (argv : list string) : M Run :=
  match argv with
  | _ :: chef_url :: output_file :: _ =>
      let chef_name :=
        title (replace_char "-" " "
                 (last_part "/" "" (urlparse_path chef_url))) in
      recipe_urls <- extract_recipe_urls requests_get urljoin chef_url 10 ;;
      match recipe_urls with
      | [] => ret (mkRun (Returns 1) None)
      | _ :: _ =>
          let recipes_data :=
            entries_loop chef_name chef_url 1 recipe_urls [] in
          if can_write output_file
          then ret (mkRun (Returns 0) (Some (output_file, recipes_data)))
          else ret (mkRun OSError None)
      end
  | _ => ret (mkRun (Returns 1) None)
  end.

End Main.

End FoodAndWine.

(** ** Vocabulary of the statements *)

(** The test by which the structured pipeline takes a failure for
    permanent. *)
Definition not_found_message (error_msg : string) : bool :=
  PyStr.contains "404" error_msg || PyStr.contains "Not Found" error_msg.

(** The events of one complete call of [scrape_recipe] for [url] at
    [attempt]: it opens with the call and its request, leaves the
    stack as it found it, stacks one frame per request, and never
    invokes the rate limiter. *)
Definition call_events (url : string) (attempt : nat) (evs : list event) : Prop :=
  (exists rest, evs = Call url attempt :: Get url :: rest)
  /\ (forall d, depth_after d evs = d)
  /\ (forall d, peak_from d evs = d + attempts evs)
  /\ rate_limits evs = 0.

(** A record as [main] persists it: untouched when valid, with the
    issues under ["_validation_issues"] when not. *)
Definition se_persisted (transformed : SeriousEats.Recipe) : SeriousEats.Recipe :=
  let '(is_valid, issues) := SeriousEats.validate_recipe transformed in
  if is_valid then transformed
  else SeriousEats.set_validation_issues transformed issues.

Definition lidia_persisted (transformed : Lidia.Recipe) : Lidia.Recipe :=
  let '(is_valid, issues) := Lidia.validate_recipe transformed in
  if is_valid then transformed
  else Lidia.set_validation_issues transformed issues.

(** The events of a walk over listing pages [first], [first + 1], ...:
    one request per page, each followed by the rate limiter's sleep
    when [sleeps] says so. *)
Fixpoint page_events (chef_url : string) (first : nat) (sleeps : list bool)
    : list event :=
  match sleeps with
  | [] => []
  | s :: rest =>
      Get (FoodAndWine.page_url chef_url first)
      :: (if s then [RateLimit 2%Z] else [])
      ++ page_events chef_url (S first) rest
  end.

(** Agreement of the binary64 test [success_rate >= threshold] with
    the exact one, for every count up to [bound]. *)
Definition exact_upto (threshold bound : nat) : bool :=
  forallb (fun t =>
    forallb (fun s =>
      Bool.eqb (meets threshold (success_rate s t))
               ((0 <? t) && (Z.of_nat threshold * Z.of_nat t
                             <=? 100 * Z.of_nat s)%Z))
      (seq 0 (S t)))
    (seq 0 (S bound)).

(** ** Concrete inputs *)

Definition se_u1 : string := "https://www.seriouseats.com/u1".
Definition se_u2 : string := "https://www.seriouseats.com/u2".
Definition se_u3 : string := "https://www.seriouseats.com/u3".
Definition lidia_u2 : string := "https://lidiasitaly.com/recipes/u2/".
Definition lidia_u3 : string := "https://lidiasitaly.com/recipes/u3/".

Definition no_metadata : SeriousEats.Metadata :=
  SeriousEats.mkMetadata None None None.

Definition pizza_scraper : SeriousEats.Scraper :=
  SeriousEats.mkScraper "Basic Pizza Dough" (Some "Kenji") None (Some 20%Z)
    (Some 15%Z) (Some 35%Z) (Some "Makes 3 pizzas")
    ["500g flour"; "10g salt"; "325g water"]
    "Mix flour, salt and water. Knead until smooth and let the dough rise overnight."
    (Some "https://www.seriouseats.com/pizza.jpg") (Some "Italian")
    (Some "Pizza") None.

(** Two connection failures, then the page. *)
Definition se_flaky (_ : string) (k : nat) : SeriousEats.Outcome :=
  match k with
  | 0 | 1 => SeriousEats.Raises "ConnectionError" "Connection aborted."
  | _ => SeriousEats.Scraped pizza_scraper
  end.

Definition se_gone (_ : string) (_ : nat) : SeriousEats.Outcome :=
  SeriousEats.Raises "HTTPError" "404 Client Error: Not Found for url".

Definition se_server_error (_ : string) (_ : nat) : SeriousEats.Outcome :=
  SeriousEats.Raises "HTTPError" "500 Server Error: Internal Server Error".

(** A transient failure whose message happens to hold the digits 404. *)
Definition se_reset (_ : string) (_ : nat) : SeriousEats.Outcome :=
  SeriousEats.Raises "ConnectionError"
    "Connection reset by peer while reading /recipes/room-404-cake".

Definition bare_soup : Lidia.Soup :=
  Lidia.mkSoup [] None None None None None [].

Definition ragu_soup : Lidia.Soup :=
  Lidia.mkSoup [] (Some " Ragu alla Bolognese ") (Some "Serves 6 to 8")
    (Some (Some ["1 onion"; "2 carrots"; "500g ground beef"]))
    (Some (Some ["Cook the onion and the carrots until they are soft.";
                 "Share on Facebook";
                 "Stir well and serve.";
                 "Add the beef and simmer gently for two hours."]))
    None
    [(Some "https://lidiasitaly.com/wp-content/uploads/ragu.jpg", None)].

Definition lidia_flaky (_ : string) (k : nat) : Lidia.Reply :=
  match k with
  | 0 | 1 => Lidia.Raises "ConnectionError" "Connection aborted."
  | _ => Lidia.Response 200 ragu_soup
  end.

Definition lidia_status (status_code : Z) (_ : string) (_ : nat) : Lidia.Reply :=
  Lidia.Response status_code bare_soup.

Definition lidia_down (_ : string) (_ : nat) : Lidia.Reply :=
  Lidia.Raises "ConnectTimeout" "timed out".



(** How [main] persists the record made from [raw]: the transformed
    record is built at some point of the run, keeps the name and the
    source of [raw], and carries the validator's issues exactly when
    the validator rejects it. *)
Definition se_kept (raw : SeriousEats.RawData) (t : SeriousEats.Recipe) : Prop :=
  exists w0,
    let t0 := fst (SeriousEats.transform_to_schema raw w0) in
    t = se_persisted t0
    /\ SeriousEats.r_name t = SeriousEats.title raw
    /\ SeriousEats.r_source t = SeriousEats.url raw
    /\ SeriousEats.r_validation_issues t
       = if fst (SeriousEats.validate_recipe t0) then None
         else Some (snd (SeriousEats.validate_recipe t0)).

Definition lidia_kept (raw : Lidia.RawData) (t : Lidia.Recipe) : Prop :=
  exists w0,
    let t0 := fst (Lidia.transform_to_schema raw w0) in
    t = lidia_persisted t0
    /\ Lidia.r_name t = Lidia.title raw
    /\ Lidia.r_source t = Lidia.url raw
    /\ Lidia.r_validation_issues t
       = if fst (Lidia.validate_recipe t0) then None
         else Some (snd (Lidia.validate_recipe t0)).

(** The scenario of three items: the first is scraped at once, the
    second is not found, the third fails twice before it is scraped. *)
Definition three_urls : list SeriousEats.RecipeInfo :=
  [ SeriousEats.mkRecipeInfo se_u1 None (Some "Pizza") None;
    SeriousEats.mkRecipeInfo se_u2 None None None;
    SeriousEats.mkRecipeInfo se_u3 None None None ].

Definition three_urls_net (url : string) (k : nat) : SeriousEats.Outcome :=
  if String.eqb url se_u1
  then SeriousEats.Scraped pizza_scraper
  else if String.eqb url se_u2
       then SeriousEats.Raises "HTTPError" "404 Client Error: Not Found for url"
       else if k <? 4
            then SeriousEats.Raises "ConnectionError" "Connection aborted."
            else SeriousEats.Scraped pizza_scraper.

(** A page whose only paragraph is clean and has exactly 20
    characters. *)
Definition twenty_soup : Lidia.Soup :=
  Lidia.mkSoup [] (Some "Crostini") None None
    (Some (Some ["Stir well and serve."])) None [].

(** Whether the walk goes on after a reply: the page was fetched,
    yielded matching links and advertises a next page. *)
Definition advances (urljoin : string -> string -> string) (chef_url : string)
    (r : FoodAndWine.Reply) : bool :=
  match FoodAndWine.yield_of urljoin chef_url r with
  | Some (_ :: _, true) => true
  | _ => false
  end.

(** For each page the walk requests from page [page_num] on, with
    [left] pages to go and [k] requests sent before: whether the walk
    goes on after it. *)
Fixpoint page_flags (requests_get : string -> nat -> FoodAndWine.Reply)
    (urljoin : string -> string -> string) (left : nat) (chef_url : string)
    (page_num k : nat) : list bool :=
  match left with
  | O => []
  | S left' =>
      if advances urljoin chef_url
           (requests_get (FoodAndWine.page_url chef_url page_num) k)
      then true :: page_flags requests_get urljoin left' chef_url (S page_num) (S k)
      else [false]
  end.

(** No sleep comes before the first request. *)
Fixpoint no_sleep_before_request (t : list event) : bool :=
  match t with
  | [] => true
  | Get _ :: _ => true
  | RateLimit _ :: _ => false
  | Backoff _ :: _ => false
  | _ :: rest => no_sleep_before_request rest
  end.

(** A listing of two pages for a chef: the first page has two recipe
    links (one of them twice), a gallery link and a next-page link;
    the second has no recipe link. *)
Definition chef_page_1 : list FoodAndWine.Anchor :=
  [ FoodAndWine.mkAnchor (Some "https://www.foodandwine.com/recipes/focaccia") []
      (Some "Focaccia") [];
    FoodAndWine.mkAnchor (Some "https://www.foodandwine.com/gallery/breads") []
      None [];
    FoodAndWine.mkAnchor (Some "https://www.foodandwine.com/recipes/focaccia") []
      None ["card"];
    FoodAndWine.mkAnchor (Some "https://www.foodandwine.com/recipes/budino") []
      (Some "Budino") [];
    FoodAndWine.mkAnchor (Some "https://www.foodandwine.com/chefs/nancy?page=2")
      ["next"] (Some "Next") ["pagination__next"] ].

Definition chef_page_2 : list FoodAndWine.Anchor :=
  [ FoodAndWine.mkAnchor (Some "https://www.foodandwine.com/about") [] None [] ].

(** The same first page without its next-page link. *)
Definition chef_single_page : list FoodAndWine.Anchor :=
  firstn 4 chef_page_1.

Definition two_pages_net (_ : string) (k : nat) : FoodAndWine.Reply :=
  match k with
  | 0 => FoodAndWine.Response 200 chef_page_1
  | _ => FoodAndWine.Response 200 chef_page_2
  end.

Definition single_page_net (_ : string) (_ : nat) : FoodAndWine.Reply :=
  FoodAndWine.Response 200 chef_single_page.

(** Links on these pages are absolute already. *)
Definition keep_href (_ href : string) : string := href.

Definition nancy : string := "https://www.foodandwine.com/chefs/nancy".

(** The events of the discovery stage of the heuristic source: each
    category page requested is followed by one sleep of the rate
    limiter. *)
Definition category_events (category_urls : list string) : list event :=
  flat_map (fun c => [Get c; RateLimit Lidia.RATE_LIMIT_SECONDS]) category_urls.

(** The matching links of the page requested as page [page_num] when
    [k] requests have been sent before; none when the fetch fails. *)
Definition links_at (requests_get : string -> nat -> FoodAndWine.Reply)
    (urljoin : string -> string -> string) (chef_url : string)
    (page_num k : nat) : list string :=
  match FoodAndWine.yield_of urljoin chef_url
          (requests_get (FoodAndWine.page_url chef_url page_num) k) with
  | Some (links, _) => links
  | None => []
  end.

(** The test a link must pass to count as a recipe link of the
    listing. *)
Definition is_recipe_link (absolute_url : string) : bool :=
  PyStr.contains "/recipes/" absolute_url
  && PyStr.contains "foodandwine.com" absolute_url
  && negb (PyStr.contains "/gallery/" absolute_url)
  && negb (PyStr.contains "/collection/" absolute_url).

(** A listing whose second page answers with a server error. *)
Definition second_page_down (_ : string) (k : nat) : FoodAndWine.Reply :=
  match k with
  | 0 => FoodAndWine.Response 200 chef_page_1
  | _ => FoodAndWine.Response 503 []
  end.

(** What every URL collected from a category page satisfies. *)
Definition is_lidia_recipe_url (u : string) : Prop :=
  PyStr.contains "/recipes/" u = true
  /\ PyStr.endswith "/" u = true
  /\ PyStr.startswith "http" u = true.

(** A category page with one relative recipe link, given twice, one
    absolute recipe link and a link that is no recipe. *)
Definition pasta_category : Lidia.Soup :=
  Lidia.mkSoup
    [ "/recipes/ziti-with-sausage/";
      "https://lidiasitaly.com/recipes/ragu/";
      "/recipes/ziti-with-sausage/";
      "/about/" ]
    None None None None None [].

Definition category_not_found (_ : string) (_ : nat) : Lidia.Reply :=
  Lidia.Response 404 pasta_category.

(** The raw record the structured pipeline builds from what the
    scraper gives, for [url], its [metadata] and clock reading [t]. *)
Definition se_raw_of (url : string) (metadata : SeriousEats.Metadata) (t : nat)
    (s : SeriousEats.Scraper) : SeriousEats.RawData :=
  SeriousEats.mkRawData url metadata t (SeriousEats.sc_title s)
    (SeriousEats.sc_author s) (SeriousEats.sc_description s)
    (SeriousEats.sc_prep_time s) (SeriousEats.sc_cook_time s)
    (SeriousEats.sc_total_time s) (SeriousEats.sc_yields s)
    (SeriousEats.sc_ingredients s) (SeriousEats.sc_instructions s)
    (SeriousEats.sc_image s) (SeriousEats.sc_cuisine s)
    (SeriousEats.sc_category s) (SeriousEats.sc_ratings s).

(** The outcome of a call of the structured pipeline that ends on
    the outcome [o] of its last attempt. *)
Definition se_result_of (url : string) (metadata : SeriousEats.Metadata) (t : nat)
    (o : SeriousEats.Outcome) : option SeriousEats.RawData :=
  match o with
  | SeriousEats.Scraped s => Some (se_raw_of url metadata t s)
  | SeriousEats.Raises _ _ => None
  end.

(** An outcome after which the structured pipeline does not retry. *)
Definition se_decisive (o : SeriousEats.Outcome) : bool :=
  match o with
  | SeriousEats.Scraped _ => true
  | SeriousEats.Raises _ error_msg => not_found_message error_msg
  end.

(** The waits before attempts [2], ..., [n] of a call that starts at
    attempt 1. *)
Definition backoff_schedule (n : nat) : list Z :=
  map (fun k => (2 ^ Z.of_nat (1 + k))%Z) (seq 0 (n - 1)).

(** Three failures in a row, then the page. *)
Definition se_very_flaky (_ : string) (k : nat) : SeriousEats.Outcome :=
  match k with
  | 0 | 1 | 2 => SeriousEats.Raises "ReadTimeout" "Read timed out."
  | _ => SeriousEats.Scraped pizza_scraper
  end.

(** The entry of [validation_failures] for a persisted record, if it
    carries issues. *)
Definition se_failure_of (t : SeriousEats.Recipe)
    : list SeriousEats.ValidationFailure :=
  match SeriousEats.r_validation_issues t with
  | Some issues =>
      [SeriousEats.mkValidationFailure (SeriousEats.r_name t)
         (SeriousEats.r_source t) issues]
  | None => []
  end.

Definition lidia_failure_of (t : Lidia.Recipe) : list Lidia.ValidationFailure :=
  match Lidia.r_validation_issues t with
  | Some issues =>
      [Lidia.mkValidationFailure (Lidia.r_name t) (Lidia.r_source t) issues]
  | None => []
  end.

(** No character of [s] is a digit. *)
Definition digit_free (s : string) : Prop :=
  forall c, In c (list_ascii_of_string s) -> PyStr.isdigit c = false.

(** [s] does not begin with a digit. *)
Definition no_leading_digit (s : string) : Prop :=
  match s with
  | EmptyString => True
  | String c _ => PyStr.isdigit c = false
  end.

(** White space of [s] is tidy: every white-space character is a
    space and no two of them are adjacent; [prev] tells that the
    character before [s] was white space. *)
Fixpoint tidy (prev : bool) (s : string) : bool :=
  match s with
  | EmptyString => true
  | String c t =>
      if PyStr.isspace c
      then Ascii.eqb c " " && negb prev && tidy true t
      else tidy false t
  end.

(** The characters of [s] that are not white space, in order. *)
Definition ink (s : string) : list ascii :=
  filter (fun c => negb (PyStr.isspace c)) (list_ascii_of_string s).

(** [slug] is what follows the last ["/"] of [path]: it holds no
    ["/"], and [path] is [slug] or ends with ["/"] and [slug]. *)
Definition after_last_slash (path slug : string) : Prop :=
  PyStr.contains "/" slug = false
  /\ (path = slug \/ exists pre, path = (pre ++ "/" ++ slug)%string).

(** The URLs requested, in order. *)
Fixpoint requests_of (t : list event) : list string :=
  match t with
  | [] => []
  | Get url :: rest => url :: requests_of rest
  | _ :: rest => requests_of rest
  end.

(** [count] requests for each URL in turn. *)
Definition requests_per_url (urls : list string) (counts : list nat)
    : list string :=
  flat_map (fun p => repeat (fst p) (snd p)) (combine urls counts).

(** * Properties *)

(** ** The state and the trace *)

Ltac run := unfold bind, ret, emit, request, now, uuid4; cbn [fst snd trace sent minted ticks].

Lemma attempts_app (a b : list event) : attempts (a ++ b) = attempts a + attempts b.
Proof. unfold attempts. rewrite filter_app, length_app. reflexivity. Qed.

Lemma rate_limits_app (a b : list event) :
  rate_limits (a ++ b) = rate_limits a + rate_limits b.
Proof. unfold rate_limits. rewrite filter_app, length_app. reflexivity. Qed.

Lemma waits_app (a b : list event) : waits (a ++ b) = waits a ++ waits b.
Proof.
  induction a as [|e a IH]; [reflexivity|].
  destruct e; simpl; rewrite IH; reflexivity.
Qed.

Lemma depth_after_app (a b : list event) (d : nat) :
  depth_after d (a ++ b) = depth_after (depth_after d a) b.
Proof.
  revert d. induction a as [|e a IH]; intros d; [reflexivity|].
  destruct e; simpl; apply IH.
Qed.

Lemma peak_from_app (a b : list event) (d : nat) :
  peak_from d (a ++ b) = Nat.max (peak_from d a) (peak_from (depth_after d a) b).
Proof.
  revert d. induction a as [|e a IH]; intros d.
  - simpl. assert (d <= peak_from d b); [|lia].
    clear. revert d. induction b as [|e b IH]; intros d; simpl; [lia|].
    destruct e; try apply IH; lia.
  - destruct e; simpl; rewrite IH; lia.
Qed.

(** One more frame around a complete inner call. *)
Lemma call_events_nested (url : string) (attempt : nat) (secs : Z)
    (inner : list event) :
  call_events url (S attempt) inner ->
  call_events url attempt
    (Call url attempt :: Get url :: Backoff secs :: inner ++ [Return_]).
Proof.
  intros (_ & Hd & Hp & Hr).
  split; [eexists; reflexivity | split; [|split]].
  - intros d. simpl. rewrite depth_after_app, Hd. reflexivity.
  - intros d. cbn [peak_from]. rewrite peak_from_app, Hd, Hp. cbn [peak_from].
    change (attempts (Call url attempt :: Get url :: Backoff secs :: inner ++ [Return_]))
      with (S (attempts (inner ++ [Return_]))).
    rewrite attempts_app. change (attempts [Return_]) with 0.
    cbn [Init.Nat.pred]. lia.
  - change (rate_limits (Call url attempt :: Get url :: Backoff secs :: inner ++ [Return_]))
      with (rate_limits (inner ++ [Return_])).
    rewrite rate_limits_app, Hr. reflexivity.
Qed.

Lemma call_events_single (url : string) (attempt : nat) :
  call_events url attempt [Call url attempt; Get url; Return_].
Proof.
  split; [eexists; reflexivity | split; [|split]].
  - intros d. reflexivity.
  - intros d. cbn [peak_from Init.Nat.pred].
    change (attempts [Call url attempt; Get url; Return_]) with 1. lia.
  - reflexivity.
Qed.

(** ** The retry logic of the structured pipeline *)

Lemma se_scrape_recipe_unfold scrape_me (max_retries : nat) (url : string)
    (md : SeriousEats.Metadata) (attempt : nat) (w : World) :
  SeriousEats.scrape_recipe_upto scrape_me max_retries url md attempt w =
  (emit (Call url attempt) ;;
   out <- request scrape_me url ;;
   match out with
   | SeriousEats.Scraped s =>
       t <- now ;;
       emit Return_ ;;
       ret (Some (SeriousEats.mkRawData url md t (SeriousEats.sc_title s)
                    (SeriousEats.sc_author s) (SeriousEats.sc_description s)
                    (SeriousEats.sc_prep_time s) (SeriousEats.sc_cook_time s)
                    (SeriousEats.sc_total_time s) (SeriousEats.sc_yields s)
                    (SeriousEats.sc_ingredients s) (SeriousEats.sc_instructions s)
                    (SeriousEats.sc_image s) (SeriousEats.sc_cuisine s)
                    (SeriousEats.sc_category s) (SeriousEats.sc_ratings s)))
   | SeriousEats.Raises error_type error_msg =>
       if PyStr.contains "404" error_msg || PyStr.contains "Not Found" error_msg
       then emit Return_ ;; ret None
       else if attempt <? max_retries
            then
              emit (Backoff (SeriousEats.RETRY_BACKOFF ^ Z.of_nat attempt)%Z) ;;
              r <- SeriousEats.scrape_recipe_upto scrape_me max_retries url md
                     (S attempt) ;;
              emit Return_ ;;
              ret r
            else emit Return_ ;; ret None
   end) w.
Proof.
  unfold SeriousEats.scrape_recipe_upto.
  destruct (Nat.ltb_spec attempt max_retries) as [Hlt|Hge].
  - replace (max_retries - attempt) with (S (max_retries - S attempt)) by lia.
    reflexivity.
  - replace (max_retries - attempt) with 0 by lia. reflexivity.
Qed.

Ltac single_call url attempt :=
  exists [Call url attempt; Get url; Return_];
  rewrite <- !app_assoc;
  split; [reflexivity
         | split; [change (attempts [Call url attempt; Get url; Return_]) with 1; lia
                  | split; [apply call_events_single
                           | change (attempts [Call url attempt; Get url; Return_]) with 1;
                             lia]]].

Ltac nested_call url attempt secs inner Ht Hs Hc Ha :=
  exists (Call url attempt :: Get url :: Backoff secs :: inner ++ [Return_]);
  cbn [trace sent snd] in Ht, Hs |- *;
  rewrite Ht, <- !app_assoc;
  split; [reflexivity
         | change (attempts (Call url attempt :: Get url :: Backoff secs
                               :: inner ++ [Return_]))
             with (S (attempts (inner ++ [Return_])));
           rewrite attempts_app; change (attempts [Return_]) with 0;
           split; [lia | split; [apply call_events_nested; exact Hc | lia]]].

Lemma se_scrape_from_events scrape_me (left : nat) :
  forall (url : string) (md : SeriousEats.Metadata) (attempt : nat) (w : World),
  exists evs,
    trace (snd (SeriousEats.scrape_from scrape_me left url md attempt w))
      = trace w ++ evs
    /\ sent (snd (SeriousEats.scrape_from scrape_me left url md attempt w))
       = sent w + attempts evs
    /\ call_events url attempt evs
    /\ attempts evs <= S left.
Proof.
  induction left as [|left IH]; intros url md attempt w; simpl; run.
  - destruct (scrape_me url (sent w)) as [ty msg|s]; simpl.
    + destruct (_ || _); simpl; single_call url attempt.
    + single_call url attempt.
  - destruct (scrape_me url (sent w)) as [ty msg|s]; simpl.
    + destruct (_ || _); simpl; [single_call url attempt|].
      match goal with
      | |- context [SeriousEats.scrape_from ?f ?l ?u ?m ?a ?W] =>
          destruct (IH u m a W) as (inner & Ht & Hs & Hc & Ha);
          destruct (SeriousEats.scrape_from f l u m a W) as [r w']
      end.
      nested_call url attempt (SeriousEats.RETRY_BACKOFF ^ Z.of_nat attempt)%Z
        inner Ht Hs Hc Ha.
    + single_call url attempt.
Qed.

(** When every attempt fails with a message free of the not-found
    marks, all [left + 1] attempts are made, with growing waits. *)
Lemma se_all_transient scrape_me (left : nat) :
  forall (url : string) (md : SeriousEats.Metadata) (attempt : nat) (w : World),
  (forall k, k <= left ->
     exists ty msg, scrape_me url (sent w + k) = SeriousEats.Raises ty msg
                    /\ not_found_message msg = false) ->
  exists evs,
    fst (SeriousEats.scrape_from scrape_me left url md attempt w) = None
    /\ trace (snd (SeriousEats.scrape_from scrape_me left url md attempt w))
       = trace w ++ evs
    /\ attempts evs = S left
    /\ waits evs = map (fun k => (SeriousEats.RETRY_BACKOFF ^ Z.of_nat (attempt + k))%Z)
                     (seq 0 left).
Proof.
  unfold not_found_message.
  induction left as [|left IH]; intros url md attempt w H; simpl; run.
  - destruct (H 0 (Nat.le_refl 0)) as (ty & msg & Ho & Hm).
    rewrite Nat.add_0_r in Ho. rewrite Ho, Hm. simpl.
    exists [Call url attempt; Get url; Return_]. rewrite <- !app_assoc.
    repeat split.
  - destruct (H 0 (Nat.le_0_l _)) as (ty & msg & Ho & Hm).
    rewrite Nat.add_0_r in Ho. rewrite Ho, Hm.
    match goal with
    | |- context [SeriousEats.scrape_from ?f ?l ?u ?m ?a ?W] =>
        destruct (IH u m a W) as (inner & Hr & Ht & Ha & Hw);
        [|destruct (SeriousEats.scrape_from f l u m a W) as [r w']]
    end.
    + intros k Hk. cbn [sent]. replace (S (sent w) + k) with (sent w + S k) by lia.
      apply H. lia.
    + cbn [fst snd trace] in *.
      exists (Call url attempt :: Get url
              :: Backoff (SeriousEats.RETRY_BACKOFF ^ Z.of_nat attempt)%Z
              :: inner ++ [Return_]).
      rewrite Ht, <- !app_assoc. split; [exact Hr|]. split; [reflexivity|].
      split.
      * change (attempts (Call url attempt :: Get url
                          :: Backoff (SeriousEats.RETRY_BACKOFF ^ Z.of_nat attempt)%Z
                          :: inner ++ [Return_]))
          with (S (attempts (inner ++ [Return_]))).
        rewrite attempts_app, Ha. change (attempts [Return_]) with 0. lia.
      * cbn [waits]. rewrite waits_app, Hw. cbn [waits]. rewrite app_nil_r.
        cbn [seq map]. rewrite Nat.add_0_r. f_equal.
        rewrite <- seq_shift, map_map. apply map_ext. intros k.
        replace (S attempt + k) with (attempt + S k) by lia. reflexivity.
Qed.

(** ** The retry logic of the heuristic pipeline *)

Lemma lidia_scrape_recipe_unfold requests_get (max_retries : nat) (url : string)
    (attempt : nat) (w : World) :
  Lidia.scrape_recipe_upto requests_get max_retries url attempt w =
  (emit (Call url attempt) ;;
   response <- request requests_get url ;;
   match response with
   | Lidia.Response status_code soup =>
       if negb (status_code =? 200)%Z
       then emit Return_ ;; ret None
       else
         let title := match Lidia.h1 soup with
                      | Some text => Some (PyStr.strip text)
                      | None => None
                      end in
         if negb (truthy_opt title)
         then emit Return_ ;; ret None
         else
           t <- now ;;
           emit Return_ ;;
           ret (Some (Lidia.mkRawData url t
                        (match title with Some s => s | None => "" end)
                        "Lidia Bastianich" (Lidia.extract_notes soup)
                        (match Lidia.servings_h3 soup with
                         | Some text => Some (PyStr.strip text)
                         | None => None
                         end)
                        (Lidia.extract_ingredients soup)
                        (Lidia.extract_instructions soup)
                        (Lidia.extract_notes soup)
                        (Lidia.images_loop (Lidia.imgs soup) [])
                        "Italian"))
   | Lidia.Raises error_type error_msg =>
       if attempt <? max_retries
       then
         emit (Backoff (Lidia.RETRY_BACKOFF ^ Z.of_nat attempt)%Z) ;;
         r <- Lidia.scrape_recipe_upto requests_get max_retries url (S attempt) ;;
         emit Return_ ;;
         ret r
       else emit Return_ ;; ret None
   end) w.
Proof.
  unfold Lidia.scrape_recipe_upto.
  destruct (Nat.ltb_spec attempt max_retries) as [Hlt|Hge].
  - replace (max_retries - attempt) with (S (max_retries - S attempt)) by lia.
    reflexivity.
  - replace (max_retries - attempt) with 0 by lia. reflexivity.
Qed.

Lemma lidia_scrape_from_events requests_get (left : nat) :
  forall (url : string) (attempt : nat) (w : World),
  exists evs,
    trace (snd (Lidia.scrape_from requests_get left url attempt w))
      = trace w ++ evs
    /\ sent (snd (Lidia.scrape_from requests_get left url attempt w))
       = sent w + attempts evs
    /\ call_events url attempt evs
    /\ attempts evs <= S left.
Proof.
  induction left as [|left IH]; intros url attempt w; simpl; run.
  - destruct (requests_get url (sent w)) as [ty msg|status soup]; simpl.
    + single_call url attempt.
    + destruct (negb (status =? 200)%Z); simpl; [single_call url attempt|].
      destruct (negb (truthy_opt _)); simpl; single_call url attempt.
  - destruct (requests_get url (sent w)) as [ty msg|status soup]; simpl.
    + match goal with
      | |- context [Lidia.scrape_from ?f ?l ?u ?a ?W] =>
          destruct (IH u a W) as (inner & Ht & Hs & Hc & Ha);
          destruct (Lidia.scrape_from f l u a W) as [r w']
      end.
      nested_call url attempt (Lidia.RETRY_BACKOFF ^ Z.of_nat attempt)%Z
        inner Ht Hs Hc Ha.
    + destruct (negb (status =? 200)%Z); simpl; [single_call url attempt|].
      destruct (negb (truthy_opt _)); simpl; single_call url attempt.
Qed.

(** When every request raises, all [left + 1] attempts are made. *)
Lemma lidia_all_raise requests_get (left : nat) :
  forall (url : string) (attempt : nat) (w : World),
  (forall k, k <= left ->
     exists ty msg, requests_get url (sent w + k) = Lidia.Raises ty msg) ->
  exists evs,
    fst (Lidia.scrape_from requests_get left url attempt w) = None
    /\ trace (snd (Lidia.scrape_from requests_get left url attempt w))
       = trace w ++ evs
    /\ attempts evs = S left
    /\ waits evs = map (fun k => (Lidia.RETRY_BACKOFF ^ Z.of_nat (attempt + k))%Z)
                     (seq 0 left).
Proof.
  induction left as [|left IH]; intros url attempt w H; simpl; run.
  - destruct (H 0 (Nat.le_refl 0)) as (ty & msg & Ho).
    rewrite Nat.add_0_r in Ho. rewrite Ho. simpl.
    exists [Call url attempt; Get url; Return_]. rewrite <- !app_assoc.
    repeat split.
  - destruct (H 0 (Nat.le_0_l _)) as (ty & msg & Ho).
    rewrite Nat.add_0_r in Ho. rewrite Ho.
    match goal with
    | |- context [Lidia.scrape_from ?f ?l ?u ?a ?W] =>
        destruct (IH u a W) as (inner & Hr & Ht & Ha & Hw);
        [|destruct (Lidia.scrape_from f l u a W) as [r w']]
    end.
    + intros k Hk. cbn [sent]. replace (S (sent w) + k) with (sent w + S k) by lia.
      apply H. lia.
    + cbn [fst snd trace] in *.
      exists (Call url attempt :: Get url
              :: Backoff (Lidia.RETRY_BACKOFF ^ Z.of_nat attempt)%Z
              :: inner ++ [Return_]).
      rewrite Ht, <- !app_assoc. split; [exact Hr|]. split; [reflexivity|].
      split.
      * change (attempts (Call url attempt :: Get url
                          :: Backoff (Lidia.RETRY_BACKOFF ^ Z.of_nat attempt)%Z
                          :: inner ++ [Return_]))
          with (S (attempts (inner ++ [Return_]))).
        rewrite attempts_app, Ha. change (attempts [Return_]) with 0. lia.
      * cbn [waits]. rewrite waits_app, Hw. cbn [waits]. rewrite app_nil_r.
        cbn [seq map]. rewrite Nat.add_0_r. f_equal.
        rewrite <- seq_shift, map_map. apply map_ext. intros k.
        replace (S attempt + k) with (attempt + S k) by lia. reflexivity.
Qed.

(** A failure whose message bears a not-found mark ends the call at
    once, whatever the attempt and the budget. *)
Lemma se_not_found_final scrape_me (left : nat) (url : string)
    (md : SeriousEats.Metadata) (attempt : nat) (w : World)
    (error_type error_msg : string) :
  scrape_me url (sent w) = SeriousEats.Raises error_type error_msg ->
  not_found_message error_msg = true ->
  SeriousEats.scrape_from scrape_me left url md attempt w
  = (None, mkWorld (S (sent w)) (minted w) (ticks w)
             (trace w ++ [Call url attempt; Get url; Return_])).
Proof.
  unfold not_found_message. intros Ho Hm.
  destruct left; simpl; run; rewrite Ho, Hm; simpl;
    rewrite <- !app_assoc; reflexivity.
Qed.

(** A response whose status is not 200 ends the call at once. *)
Lemma lidia_non_200_final requests_get (left : nat) (url : string)
    (attempt : nat) (w : World) (status_code : Z) (soup : Lidia.Soup) :
  requests_get url (sent w) = Lidia.Response status_code soup ->
  status_code <> 200%Z ->
  Lidia.scrape_from requests_get left url attempt w
  = (None, mkWorld (S (sent w)) (minted w) (ticks w)
             (trace w ++ [Call url attempt; Get url; Return_])).
Proof.
  intros Ho Hs. apply Z.eqb_neq in Hs.
  destruct left; simpl; run; rewrite Ho, Hs; simpl;
    rewrite <- !app_assoc; reflexivity.
Qed.

(** ** Claims on the retry logic *)

(** C1. Under three attempts with base 2, two transient failures
    followed by a success make three attempts separated by waits of 2
    and then 4; a permanent first outcome (a not-found failure in the
    structured pipeline, HTTP 404 in the heuristic one) makes a single
    attempt and no wait. *)
Theorem C1_backoff_2_then_4 :
  (forall scrape_me url md w ty1 msg1 ty2 msg2 s,
      scrape_me url (sent w) = SeriousEats.Raises ty1 msg1 ->
      not_found_message msg1 = false ->
      scrape_me url (S (sent w)) = SeriousEats.Raises ty2 msg2 ->
      not_found_message msg2 = false ->
      scrape_me url (S (S (sent w))) = SeriousEats.Scraped s ->
      exists raw w' evs,
        SeriousEats.scrape_recipe scrape_me url md 1 w = (Some raw, w')
        /\ trace w' = trace w ++ evs
        /\ evs = [Call url 1; Get url; Backoff 2; Call url 2; Get url; Backoff 4;
                   Call url 3; Get url; Return_; Return_; Return_]
        /\ attempts evs = 3 /\ waits evs = [2; 4]%Z)
  /\ (forall scrape_me url md w ty msg,
      scrape_me url (sent w) = SeriousEats.Raises ty msg ->
      not_found_message msg = true ->
      exists w' evs,
        SeriousEats.scrape_recipe scrape_me url md 1 w = (None, w')
        /\ trace w' = trace w ++ evs
        /\ evs = [Call url 1; Get url; Return_]
        /\ attempts evs = 1 /\ waits evs = [])
  /\ (forall requests_get url w ty1 msg1 ty2 msg2 soup text,
      requests_get url (sent w) = Lidia.Raises ty1 msg1 ->
      requests_get url (S (sent w)) = Lidia.Raises ty2 msg2 ->
      requests_get url (S (S (sent w))) = Lidia.Response 200 soup ->
      Lidia.h1 soup = Some text ->
      truthy (PyStr.strip text) = true ->
      exists raw w' evs,
        Lidia.scrape_recipe requests_get url 1 w = (Some raw, w')
        /\ trace w' = trace w ++ evs
        /\ evs = [Call url 1; Get url; Backoff 2; Call url 2; Get url; Backoff 4;
                   Call url 3; Get url; Return_; Return_; Return_]
        /\ attempts evs = 3 /\ waits evs = [2; 4]%Z)
  /\ (forall requests_get url w soup,
      requests_get url (sent w) = Lidia.Response 404 soup ->
      exists w' evs,
        Lidia.scrape_recipe requests_get url 1 w = (None, w')
        /\ trace w' = trace w ++ evs
        /\ evs = [Call url 1; Get url; Return_]
        /\ attempts evs = 1 /\ waits evs = []).
Proof.
  unfold not_found_message. repeat apply conj.
  - intros scrape_me url md w ty1 msg1 ty2 msg2 s H1 M1 H2 M2 H3.
    unfold SeriousEats.scrape_recipe, SeriousEats.scrape_recipe_upto.
    simpl; run. rewrite H1, M1. simpl. rewrite H2, M2. simpl. rewrite H3.
    do 2 eexists.
    exists [Call url 1; Get url; Backoff 2; Call url 2; Get url; Backoff 4;
            Call url 3; Get url; Return_; Return_; Return_].
    split; [reflexivity|]. cbn [trace]. rewrite <- !app_assoc.
    repeat split.
  - intros scrape_me url md w ty msg Ho Hm.
    unfold SeriousEats.scrape_recipe, SeriousEats.scrape_recipe_upto.
    rewrite (se_not_found_final _ _ _ _ _ _ _ _ Ho Hm).
    do 2 eexists. split; [reflexivity|]. repeat split.
  - intros requests_get url w ty1 msg1 ty2 msg2 soup text H1 H2 H3 Ht Hs.
    unfold Lidia.scrape_recipe, Lidia.scrape_recipe_upto.
    simpl; run. rewrite H1. simpl. rewrite H2. simpl. rewrite H3. simpl.
    rewrite Ht. cbn [truthy_opt]. rewrite Hs. simpl.
    do 2 eexists.
    exists [Call url 1; Get url; Backoff 2; Call url 2; Get url; Backoff 4;
            Call url 3; Get url; Return_; Return_; Return_].
    split; [reflexivity|]. cbn [trace]. rewrite <- !app_assoc.
    repeat split.
  - intros requests_get url w soup Ho.
    unfold Lidia.scrape_recipe, Lidia.scrape_recipe_upto.
    rewrite (lidia_non_200_final _ _ _ _ _ _ _ Ho) by discriminate.
    do 2 eexists. split; [reflexivity|]. repeat split.
Qed.

(** The four cases of C1 on sample sources: two connection failures
    then the page, and a page that is not found. *)
Lemma C1_backoff_2_then_4_witness :
  (exists raw w' evs,
      SeriousEats.scrape_recipe se_flaky se_u3 no_metadata 1 world0 = (Some raw, w')
      /\ trace w' = trace world0 ++ evs
      /\ evs = [Call se_u3 1; Get se_u3; Backoff 2; Call se_u3 2; Get se_u3;
                Backoff 4; Call se_u3 3; Get se_u3; Return_; Return_; Return_]
      /\ attempts evs = 3 /\ waits evs = [2; 4]%Z)
  /\ (exists w' evs,
      SeriousEats.scrape_recipe se_gone se_u2 no_metadata 1 world0 = (None, w')
      /\ trace w' = trace world0 ++ evs
      /\ evs = [Call se_u2 1; Get se_u2; Return_]
      /\ attempts evs = 1 /\ waits evs = [])
  /\ (exists raw w' evs,
      Lidia.scrape_recipe lidia_flaky lidia_u3 1 world0 = (Some raw, w')
      /\ trace w' = trace world0 ++ evs
      /\ evs = [Call lidia_u3 1; Get lidia_u3; Backoff 2; Call lidia_u3 2;
                Get lidia_u3; Backoff 4; Call lidia_u3 3; Get lidia_u3;
                Return_; Return_; Return_]
      /\ attempts evs = 3 /\ waits evs = [2; 4]%Z)
  /\ (exists w' evs,
      Lidia.scrape_recipe (lidia_status 404) lidia_u2 1 world0 = (None, w')
      /\ trace w' = trace world0 ++ evs
      /\ evs = [Call lidia_u2 1; Get lidia_u2; Return_]
      /\ attempts evs = 1 /\ waits evs = []).
Proof.
  destruct C1_backoff_2_then_4 as (A & B & C & D).
  split; [|split; [|split]].
  - eapply A; reflexivity.
  - eapply B; reflexivity.
  - eapply C; reflexivity.
  - eapply D; reflexivity.
Defined.

(** C2 as stated fails in the heuristic pipeline: a response with
    status 500 is not retried. One request is sent and the item
    fails. *)
Lemma C2_status_500_not_retried :
  Lidia.scrape_recipe (lidia_status 500) "https://lidiasitaly.com/recipes/u/" 1 world0
  = (None,
     mkWorld 1 0 0
       [Call "https://lidiasitaly.com/recipes/u/" 1;
        Get "https://lidiasitaly.com/recipes/u/"; Return_])
  /\ attempts (trace (snd (Lidia.scrape_recipe (lidia_status 500)
                             "https://lidiasitaly.com/recipes/u/" 1 world0))) = 1.
Proof. split; reflexivity. Qed.

(** C2, amended. In the structured pipeline every failure whose
    message bears no not-found mark (an HTTP 500 or 503 among them) is
    retried up to the cap of three attempts, and a failure whose
    message bears one fails the item at once. In the heuristic pipeline
    only raised exceptions are retried up to three attempts; a response
    whose status is not 200 (404, 500 and 503 alike) fails the item at
    once, with one attempt and no wait. *)
Theorem C2_what_is_retried :
  (forall scrape_me url md w,
      (forall k, k < 3 ->
         exists ty msg, scrape_me url (sent w + k) = SeriousEats.Raises ty msg
                        /\ not_found_message msg = false) ->
      exists w' evs,
        SeriousEats.scrape_recipe scrape_me url md 1 w = (None, w')
        /\ trace w' = trace w ++ evs
        /\ attempts evs = 3 /\ waits evs = [2; 4]%Z)
  /\ (forall scrape_me url md w ty msg,
      scrape_me url (sent w) = SeriousEats.Raises ty msg ->
      not_found_message msg = true ->
      exists w' evs,
        SeriousEats.scrape_recipe scrape_me url md 1 w = (None, w')
        /\ trace w' = trace w ++ evs
        /\ attempts evs = 1 /\ waits evs = [])
  /\ (forall requests_get url w,
      (forall k, k < 3 ->
         exists ty msg, requests_get url (sent w + k) = Lidia.Raises ty msg) ->
      exists w' evs,
        Lidia.scrape_recipe requests_get url 1 w = (None, w')
        /\ trace w' = trace w ++ evs
        /\ attempts evs = 3 /\ waits evs = [2; 4]%Z)
  /\ (forall requests_get url w status_code soup,
      requests_get url (sent w) = Lidia.Response status_code soup ->
      status_code <> 200%Z ->
      exists w' evs,
        Lidia.scrape_recipe requests_get url 1 w = (None, w')
        /\ trace w' = trace w ++ evs
        /\ attempts evs = 1 /\ waits evs = []).
Proof.
  repeat apply conj.
  - intros scrape_me url md w H.
    destruct (se_all_transient scrape_me 2 url md 1 w) as (evs & Hr & Ht & Ha & Hw).
    { intros k Hk. apply H. lia. }
    unfold SeriousEats.scrape_recipe, SeriousEats.scrape_recipe_upto.
    change (SeriousEats.MAX_RETRIES - 1) with 2.
    destruct (SeriousEats.scrape_from scrape_me 2 url md 1 w) as [r w'].
    cbn [fst snd] in *. subst r. exists w', evs. repeat split; assumption.
  - intros scrape_me url md w ty msg Ho Hm.
    unfold SeriousEats.scrape_recipe, SeriousEats.scrape_recipe_upto.
    rewrite (se_not_found_final _ _ _ _ _ _ _ _ Ho Hm).
    do 2 eexists. split; [reflexivity|]. repeat split.
  - intros requests_get url w H.
    destruct (lidia_all_raise requests_get 2 url 1 w) as (evs & Hr & Ht & Ha & Hw).
    { intros k Hk. apply H. lia. }
    unfold Lidia.scrape_recipe, Lidia.scrape_recipe_upto.
    change (Lidia.MAX_RETRIES - 1) with 2.
    destruct (Lidia.scrape_from requests_get 2 url 1 w) as [r w'].
    cbn [fst snd] in *. subst r. exists w', evs. repeat split; assumption.
  - intros requests_get url w status_code soup Ho Hs.
    unfold Lidia.scrape_recipe, Lidia.scrape_recipe_upto.
    rewrite (lidia_non_200_final _ _ _ _ _ _ _ Ho Hs).
    do 2 eexists. split; [reflexivity|]. repeat split.
Qed.

(** The four cases of amended C2 on sample sources: a server that
    answers 500 or 503, a page that is not found, a host that is down. *)
Lemma C2_what_is_retried_witness :
  (exists w' evs,
      SeriousEats.scrape_recipe se_server_error "https://www.seriouseats.com/u"
        no_metadata 1 world0 = (None, w')
      /\ trace w' = trace world0 ++ evs
      /\ attempts evs = 3 /\ waits evs = [2; 4]%Z)
  /\ (exists w' evs,
      SeriousEats.scrape_recipe se_gone "https://www.seriouseats.com/u"
        no_metadata 1 world0 = (None, w')
      /\ trace w' = trace world0 ++ evs
      /\ attempts evs = 1 /\ waits evs = [])
  /\ (exists w' evs,
      Lidia.scrape_recipe lidia_down "https://lidiasitaly.com/recipes/u/" 1 world0
      = (None, w')
      /\ trace w' = trace world0 ++ evs
      /\ attempts evs = 3 /\ waits evs = [2; 4]%Z)
  /\ (exists w' evs,
      Lidia.scrape_recipe (lidia_status 503) "https://lidiasitaly.com/recipes/u/"
        1 world0 = (None, w')
      /\ trace w' = trace world0 ++ evs
      /\ attempts evs = 1 /\ waits evs = []).
Proof.
  destruct C2_what_is_retried as (A & B & C & D).
  split; [|split; [|split]].
  - apply A. intros k _. do 2 eexists. split; reflexivity.
  - eapply B; reflexivity.
  - apply C. intros k _. do 2 eexists. reflexivity.
  - eapply D; [reflexivity | discriminate].
Defined.

(** C3 as stated fails: on a source that is down, the retry logic of
    either pipeline holds one frame when the cap is 1, three when it
    is 3 and five when it is 5. *)
Lemma C3_depth_grows_with_cap :
  (stack_depth (trace (snd (SeriousEats.scrape_recipe_upto se_server_error 1
                              "u" no_metadata 1 world0))) = 1
   /\ stack_depth (trace (snd (SeriousEats.scrape_recipe_upto se_server_error 3
                                 "u" no_metadata 1 world0))) = 3
   /\ stack_depth (trace (snd (SeriousEats.scrape_recipe_upto se_server_error 5
                                 "u" no_metadata 1 world0))) = 5)
  /\ (stack_depth (trace (snd (Lidia.scrape_recipe_upto lidia_down 1 "u" 1 world0))) = 1
      /\ stack_depth (trace (snd (Lidia.scrape_recipe_upto lidia_down 3 "u" 1 world0))) = 3
      /\ stack_depth (trace (snd (Lidia.scrape_recipe_upto lidia_down 5 "u" 1 world0))) = 5).
Proof. repeat split. Qed.

(** C3, amended. The retry is a call of [scrape_recipe] to itself with
    the attempt counter incremented: every attempt of a call holds a
    frame of its own, so the depth of the stack equals the number of
    attempts made. It never exceeds the cap (one frame at least), and
    it reaches the cap when every attempt fails transiently. *)
Theorem C3_one_frame_per_attempt :
  (forall scrape_me max_retries url md w,
      exists evs,
        trace (snd (SeriousEats.scrape_recipe_upto scrape_me max_retries url md 1 w))
        = trace w ++ evs
        /\ stack_depth evs = attempts evs
        /\ attempts evs <= Nat.max 1 max_retries)
  /\ (forall scrape_me max_retries url md w,
      1 <= max_retries ->
      (forall k, k < max_retries ->
         exists ty msg, scrape_me url (sent w + k) = SeriousEats.Raises ty msg
                        /\ not_found_message msg = false) ->
      exists evs,
        trace (snd (SeriousEats.scrape_recipe_upto scrape_me max_retries url md 1 w))
        = trace w ++ evs
        /\ stack_depth evs = max_retries)
  /\ (forall requests_get max_retries url w,
      exists evs,
        trace (snd (Lidia.scrape_recipe_upto requests_get max_retries url 1 w))
        = trace w ++ evs
        /\ stack_depth evs = attempts evs
        /\ attempts evs <= Nat.max 1 max_retries)
  /\ (forall requests_get max_retries url w,
      1 <= max_retries ->
      (forall k, k < max_retries ->
         exists ty msg, requests_get url (sent w + k) = Lidia.Raises ty msg) ->
      exists evs,
        trace (snd (Lidia.scrape_recipe_upto requests_get max_retries url 1 w))
        = trace w ++ evs
        /\ stack_depth evs = max_retries).
Proof.
  repeat apply conj.
  - intros scrape_me max_retries url md w.
    unfold SeriousEats.scrape_recipe_upto.
    destruct (se_scrape_from_events scrape_me (max_retries - 1) url md 1 w)
      as (evs & Ht & _ & (_ & _ & Hp & _) & Ha).
    exists evs. split; [exact Ht|]. split; [apply (Hp 0) | lia].
  - intros scrape_me max_retries url md w Hm H.
    unfold SeriousEats.scrape_recipe_upto.
    destruct (se_scrape_from_events scrape_me (max_retries - 1) url md 1 w)
      as (evs & Ht & _ & (_ & _ & Hp & _) & _).
    destruct (se_all_transient scrape_me (max_retries - 1) url md 1 w)
      as (evs' & _ & Ht' & Ha' & _).
    { intros k Hk. apply H. lia. }
    rewrite Ht in Ht'. apply app_inv_head in Ht'. subst evs'.
    exists evs. split; [exact Ht|]. unfold stack_depth. rewrite Hp, Ha'. lia.
  - intros requests_get max_retries url w.
    unfold Lidia.scrape_recipe_upto.
    destruct (lidia_scrape_from_events requests_get (max_retries - 1) url 1 w)
      as (evs & Ht & _ & (_ & _ & Hp & _) & Ha).
    exists evs. split; [exact Ht|]. split; [apply (Hp 0) | lia].
  - intros requests_get max_retries url w Hm H.
    unfold Lidia.scrape_recipe_upto.
    destruct (lidia_scrape_from_events requests_get (max_retries - 1) url 1 w)
      as (evs & Ht & _ & (_ & _ & Hp & _) & _).
    destruct (lidia_all_raise requests_get (max_retries - 1) url 1 w)
      as (evs' & _ & Ht' & Ha' & _).
    { intros k Hk. apply H. lia. }
    rewrite Ht in Ht'. apply app_inv_head in Ht'. subst evs'.
    exists evs. split; [exact Ht|]. unfold stack_depth. rewrite Hp, Ha'. lia.
Qed.

(** With a cap of four attempts on a source that is down, four frames. *)
Lemma C3_one_frame_per_attempt_witness :
  (exists evs,
      trace (snd (SeriousEats.scrape_recipe_upto se_server_error 4 "u" no_metadata
                    1 world0)) = trace world0 ++ evs
      /\ stack_depth evs = 4)
  /\ (exists evs,
      trace (snd (Lidia.scrape_recipe_upto lidia_down 4 "u" 1 world0))
      = trace world0 ++ evs
      /\ stack_depth evs = 4).
Proof.
  destruct C3_one_frame_per_attempt as (_ & B & _ & D).
  split.
  - apply B; [lia|]. intros k _. do 2 eexists. split; reflexivity.
  - apply D; [lia|]. intros k _. do 2 eexists. reflexivity.
Defined.

(** C10. In the structured pipeline a failure is taken for permanent
    by looking for ["404"] or ["Not Found"] in the message of the
    exception: whatever the type of the exception, the attempt number
    and the cause, the call returns no record after this one request,
    without retry and without wait. *)
Theorem C10_permanence_by_message :
  forall scrape_me url md attempt w error_type error_msg,
    scrape_me url (sent w) = SeriousEats.Raises error_type error_msg ->
    PyStr.contains "404" error_msg = true
    \/ PyStr.contains "Not Found" error_msg = true ->
    SeriousEats.scrape_recipe scrape_me url md attempt w
    = (None, mkWorld (S (sent w)) (minted w) (ticks w)
               (trace w ++ [Call url attempt; Get url; Return_]))
    /\ attempts [Call url attempt; Get url; Return_] = 1
    /\ waits [Call url attempt; Get url; Return_] = [].
Proof.
  intros scrape_me url md attempt w error_type error_msg Ho Hm.
  split; [|split; reflexivity].
  apply se_not_found_final with (error_type := error_type) (error_msg := error_msg);
    [exact Ho|].
  unfold not_found_message. destruct Hm as [Hm|Hm]; rewrite Hm;
    [reflexivity | apply orb_true_r].
Qed.

(** A connection reset whose message holds the digits 404 is taken
    for permanent. *)
Lemma C10_permanence_by_message_witness :
  SeriousEats.scrape_recipe se_reset "https://www.seriouseats.com/room-404-cake"
    no_metadata 1 world0
  = (None, mkWorld 1 0 0
             [Call "https://www.seriouseats.com/room-404-cake" 1;
              Get "https://www.seriouseats.com/room-404-cake"; Return_])
  /\ attempts [Call "https://www.seriouseats.com/room-404-cake" 1;
               Get "https://www.seriouseats.com/room-404-cake"; Return_] = 1
  /\ waits [Call "https://www.seriouseats.com/room-404-cake" 1;
            Get "https://www.seriouseats.com/room-404-cake"; Return_] = [].
Proof.
  apply (C10_permanence_by_message se_reset
           "https://www.seriouseats.com/room-404-cake" no_metadata 1 world0
           "ConnectionError"
           "Connection reset by peer while reading /recipes/room-404-cake").
  - reflexivity.
  - left. reflexivity.
Defined.

(** ** Claims on validation *)




(** ** Claims on the transformation stage *)

Lemma se_transform_loop_keeps (raws : list SeriousEats.RawData) :
  forall acc fails w,
  exists ts,
    fst (fst (SeriousEats.transform_loop raws acc fails w)) = acc ++ ts
    /\ Forall2 se_kept raws ts
    /\ trace (snd (SeriousEats.transform_loop raws acc fails w)) = trace w
    /\ sent (snd (SeriousEats.transform_loop raws acc fails w)) = sent w.
Proof.
  induction raws as [|raw raws IH]; intros acc fails w.
  - exists []. simpl. rewrite app_nil_r. repeat split. constructor.
  - cbn [SeriousEats.transform_loop]. unfold bind.
    destruct (SeriousEats.transform_to_schema raw w) as [t0 w1] eqn:E.
    assert (Ht0 : t0 = fst (SeriousEats.transform_to_schema raw w))
      by (rewrite E; reflexivity).
    assert (Hw1 : trace w1 = trace w /\ sent w1 = sent w).
    { unfold SeriousEats.transform_to_schema in E. revert E. run.
      intros E. injection E as _ E. subst w1. split; reflexivity. }
    destruct Hw1 as [Hw1 Hs1].
    assert (Hk : se_kept raw (se_persisted t0)).
    { exists w. cbv zeta. rewrite <- Ht0. split; [reflexivity|].
      unfold se_persisted.
      destruct (SeriousEats.validate_recipe t0) as [[|] iss];
        cbn [fst snd]; rewrite Ht0; repeat split. }
    unfold se_persisted in Hk.
    destruct (SeriousEats.validate_recipe t0) as [[|] iss]; cbv iota beta.
    + destruct (IH (acc ++ [t0]) fails w1) as (ts & Hts & Hf & Htr & Hse).
      exists (t0 :: ts). rewrite Hts, <- app_assoc, Htr, Hse.
      repeat split; try assumption. constructor; assumption.
    + match goal with
      | |- context [SeriousEats.transform_loop raws ?a ?f w1] =>
          destruct (IH a f w1) as (ts & Hts & Hf & Htr & Hse)
      end.
      exists (SeriousEats.set_validation_issues t0 iss :: ts).
      rewrite Hts, <- app_assoc, Htr, Hse.
      repeat split; try assumption. constructor; assumption.
Qed.

Lemma lidia_transform_loop_keeps (raws : list Lidia.RawData) :
  forall acc fails w,
  exists ts,
    fst (fst (Lidia.transform_loop raws acc fails w)) = acc ++ ts
    /\ Forall2 lidia_kept raws ts
    /\ trace (snd (Lidia.transform_loop raws acc fails w)) = trace w
    /\ sent (snd (Lidia.transform_loop raws acc fails w)) = sent w.
Proof.
  induction raws as [|raw raws IH]; intros acc fails w.
  - exists []. simpl. rewrite app_nil_r. repeat split. constructor.
  - cbn [Lidia.transform_loop]. unfold bind.
    destruct (Lidia.transform_to_schema raw w) as [t0 w1] eqn:E.
    assert (Ht0 : t0 = fst (Lidia.transform_to_schema raw w))
      by (rewrite E; reflexivity).
    assert (Hw1 : trace w1 = trace w /\ sent w1 = sent w).
    { unfold Lidia.transform_to_schema in E. revert E. run.
      intros E. injection E as _ E. subst w1. split; reflexivity. }
    destruct Hw1 as [Hw1 Hs1].
    assert (Hk : lidia_kept raw (lidia_persisted t0)).
    { exists w. cbv zeta. rewrite <- Ht0. split; [reflexivity|].
      unfold lidia_persisted.
      destruct (Lidia.validate_recipe t0) as [[|] iss];
        cbn [fst snd]; rewrite Ht0; repeat split. }
    unfold lidia_persisted in Hk.
    destruct (Lidia.validate_recipe t0) as [[|] iss]; cbv iota beta.
    + destruct (IH (acc ++ [t0]) fails w1) as (ts & Hts & Hf & Htr & Hse).
      exists (t0 :: ts). rewrite Hts, <- app_assoc, Htr, Hse.
      repeat split; try assumption. constructor; assumption.
    + match goal with
      | |- context [Lidia.transform_loop raws ?a ?f w1] =>
          destruct (IH a f w1) as (ts & Hts & Hf & Htr & Hse)
      end.
      exists (Lidia.set_validation_issues t0 iss :: ts).
      rewrite Hts, <- app_assoc, Htr, Hse.
      repeat split; try assumption. constructor; assumption.
Qed.

(** C6. Validation never drops a record: the transformed snapshot
    holds exactly one record for every raw record that reaches the
    stage, in the same order, and a record the validator rejects is
    persisted with its issues under ["_validation_issues"]. *)
Theorem C6_validation_never_drops :
  (forall scrape_me url_data w,
      exists raws ts,
        SeriousEats.raw_snapshot
          (fst (SeriousEats.main scrape_me (SeriousEats.Loaded url_data) w))
        = Some raws
        /\ SeriousEats.transformed_snapshot
             (fst (SeriousEats.main scrape_me (SeriousEats.Loaded url_data) w))
           = Some ts
        /\ length ts = length raws
        /\ Forall2 se_kept raws ts)
  /\ (forall requests_get w,
      length (Lidia.transformed_snapshot (fst (Lidia.main requests_get w)))
      = length (Lidia.raw_snapshot (fst (Lidia.main requests_get w)))
      /\ Forall2 lidia_kept
           (Lidia.raw_snapshot (fst (Lidia.main requests_get w)))
           (Lidia.transformed_snapshot (fst (Lidia.main requests_get w)))).
Proof.
  split.
  - intros scrape_me url_data w. unfold SeriousEats.main, bind.
    destruct (SeriousEats.scrape_loop scrape_me (length url_data) 1 url_data [] [] w)
      as [[raws failed] w1].
    destruct (se_transform_loop_keeps raws [] [] w1) as (ts & Hts & Hf & _).
    destruct (SeriousEats.transform_loop raws [] [] w1) as [[ts' fails] w2].
    cbn [fst snd app] in *. subst ts'.
    exists raws, ts. repeat split; try assumption.
    symmetry. eapply Forall2_length. eassumption.
  - intros requests_get w. unfold Lidia.main, bind.
    destruct (Lidia.discover_loop requests_get Lidia.CATEGORY_URLS [] w) as [all w0].
    destruct (Lidia.scrape_loop requests_get _ 1 _ [] [] w0) as [[raws failed] w1].
    destruct (lidia_transform_loop_keeps raws [] [] w1) as (ts & Hts & Hf & _).
    destruct (Lidia.transform_loop raws [] [] w1) as [[ts' fails] w2].
    cbn [fst snd app] in *. subst ts'.
    cbn [Lidia.transformed_snapshot Lidia.raw_snapshot].
    split; [|assumption].
    symmetry. eapply Forall2_length. eassumption.
Qed.

(** ** Claims on the verdict of a run *)

Lemma se_scrape_loop_counts scrape_me (items : list SeriousEats.RecipeInfo) :
  forall total i raws failed w,
    length (fst (fst (SeriousEats.scrape_loop scrape_me total i items raws failed w)))
    + length (snd (fst (SeriousEats.scrape_loop scrape_me total i items raws failed w)))
    = length raws + length failed + length items.
Proof.
  induction items as [|info items IH]; intros total i raws failed w.
  - simpl. lia.
  - cbn [SeriousEats.scrape_loop]. unfold bind.
    destruct (SeriousEats.scrape_recipe scrape_me _ _ 1 w) as [[d|] w1];
      destruct (if i <? total then _ else _) as [[] w2];
      rewrite IH, ?length_app; simpl; lia.
Qed.

Lemma lidia_scrape_loop_counts requests_get (urls : list string) :
  forall total i raws failed w,
    length (fst (fst (Lidia.scrape_loop requests_get total i urls raws failed w)))
    + length (snd (fst (Lidia.scrape_loop requests_get total i urls raws failed w)))
    = length raws + length failed + length urls.
Proof.
  induction urls as [|url urls IH]; intros total i raws failed w.
  - simpl. lia.
  - cbn [Lidia.scrape_loop]. unfold bind.
    destruct (Lidia.scrape_recipe requests_get _ 1 w) as [[d|] w1];
      destruct (if i <? total then _ else _) as [[] w2];
      rewrite IH, ?length_app; simpl; lia.
Qed.

(** The binary64 test agrees with exact arithmetic for the counts a
    run can reach. *)
Lemma exact_80_upto_30 : exact_upto 80 30 = true.
Proof. vm_compute. reflexivity. Qed.

Lemma exact_90_upto_100 : exact_upto 90 100 = true.
Proof. vm_compute. reflexivity. Qed.

Lemma exact_upto_spec (threshold bound : nat) :
  exact_upto threshold bound = true ->
  forall s t, s <= t -> t <= bound ->
    meets threshold (success_rate s t) = true
    <-> 0 < t /\ threshold * t <= 100 * s.
Proof.
  unfold exact_upto. intros H s t Hs Ht.
  rewrite forallb_forall in H.
  assert (Hin : In t (seq 0 (S bound))) by (apply in_seq; lia).
  specialize (H t Hin). rewrite forallb_forall in H.
  assert (Hin' : In s (seq 0 (S t))) by (apply in_seq; lia).
  specialize (H s Hin'). apply Bool.eqb_prop in H. rewrite H.
  rewrite andb_true_iff, Nat.ltb_lt, Z.leb_le. split; intros [A B]; split; lia.
Qed.

(** C7. The value returned by [main] is 0 exactly when the success
    rate, successes over attempted URLs, reaches the threshold of the
    source (80 for the heuristic one, 90 for the structured one), and 1
    otherwise; it is 1 when no URL was obtained, the rate being 0, and
    when the URL file is absent or is not JSON. *)
Theorem C7_exit_status :
  (forall scrape_me urls_file w,
      let run := fst (SeriousEats.main scrape_me urls_file w) in
      (SeriousEats.exit_status run = 0%Z \/ SeriousEats.exit_status run = 1%Z)
      /\ (SeriousEats.exit_status run = 0%Z
          <-> exists url_data raws,
                urls_file = SeriousEats.Loaded url_data
                /\ SeriousEats.raw_snapshot run = Some raws
                /\ length raws + length (SeriousEats.failed run) = length url_data
                /\ meets 90 (success_rate (length raws) (length url_data)) = true)
      /\ (forall url_data raws,
             urls_file = SeriousEats.Loaded url_data ->
             SeriousEats.raw_snapshot run = Some raws ->
             length url_data <= 100 ->
             (SeriousEats.exit_status run = 0%Z
              <-> 0 < length url_data
                  /\ 90 * length url_data <= 100 * length raws)))
  /\ (forall scrape_me w,
      SeriousEats.exit_status
        (fst (SeriousEats.main scrape_me SeriousEats.FileNotFoundError w)) = 1%Z
      /\ SeriousEats.exit_status
           (fst (SeriousEats.main scrape_me SeriousEats.JSONDecodeError w)) = 1%Z
      /\ SeriousEats.exit_status
           (fst (SeriousEats.main scrape_me (SeriousEats.Loaded []) w)) = 1%Z)
  /\ (forall requests_get w,
      let run := fst (Lidia.main requests_get w) in
      let successes := length (Lidia.raw_snapshot run) in
      let total := length (Lidia.recipe_urls run) in
      (Lidia.exit_status run = 0%Z \/ Lidia.exit_status run = 1%Z)
      /\ successes + length (Lidia.failed run) = total
      /\ (Lidia.exit_status run = 0%Z
          <-> meets 80 (success_rate successes total) = true)
      /\ (Lidia.exit_status run = 0%Z
          <-> 0 < total /\ 80 * total <= 100 * successes)
      /\ (Lidia.recipe_urls run = [] -> Lidia.exit_status run = 1%Z)).
Proof.
  split; [|split].
  - intros scrape_me urls_file w. cbv zeta.
    destruct urls_file as [| |url_data].
    + cbn. split; [right; reflexivity|]. split.
      * split; [discriminate|]. intros (u & r & H & _). discriminate.
      * intros u r H. discriminate.
    + cbn. split; [right; reflexivity|]. split.
      * split; [discriminate|]. intros (u & r & H & _). discriminate.
      * intros u r H. discriminate.
    + unfold SeriousEats.main, bind, ret.
      pose proof (se_scrape_loop_counts scrape_me url_data (length url_data) 1 [] [] w)
        as Hc.
      destruct (SeriousEats.scrape_loop scrape_me (length url_data) 1 url_data [] [] w)
        as [[raws failed] w1].
      destruct (SeriousEats.transform_loop raws [] [] w1) as [[ts fails] w2].
      cbn [fst snd SeriousEats.exit_status SeriousEats.raw_snapshot
           SeriousEats.failed length] in *.
      rewrite !Nat.add_0_l in Hc.
      destruct (meets 90 (success_rate (length raws) (length url_data))) eqn:Hm.
      * split; [left; reflexivity|]. split.
        -- split; [|reflexivity]. intros _. exists url_data, raws.
           repeat split; assumption.
        -- intros u r Hu Hr Hb. injection Hu as <-. injection Hr as <-.
           rewrite <- (exact_upto_spec 90 100 exact_90_upto_100) by lia.
           split; [intros _; exact Hm | reflexivity].
      * split; [right; reflexivity|]. split.
        -- split; [discriminate|]. intros (u & r & Hu & Hr & _ & Hm').
           injection Hu as <-. injection Hr as <-. congruence.
        -- intros u r Hu Hr Hb. injection Hu as <-. injection Hr as <-.
           rewrite <- (exact_upto_spec 90 100 exact_90_upto_100) by lia.
           split; [discriminate | congruence].
  - intros scrape_me w. repeat split.
  - intros requests_get w. cbv zeta. unfold Lidia.main, bind, ret.
    destruct (Lidia.discover_loop requests_get Lidia.CATEGORY_URLS [] w) as [all w0].
    remember (firstn Lidia.TARGET_RECIPE_COUNT (Lidia.unique_loop all [] [])) as urls
      eqn:Hu.
    assert (Hb : length urls <= 30) by (subst urls; apply firstn_le_length).
    clear Hu.
    pose proof (lidia_scrape_loop_counts requests_get urls (length urls) 1 [] [] w0)
      as Hc.
    destruct (Lidia.scrape_loop requests_get (length urls) 1 urls [] [] w0)
      as [[raws failed] w1].
    destruct (Lidia.transform_loop raws [] [] w1) as [[ts fails] w2].
    cbn [fst snd Lidia.exit_status Lidia.raw_snapshot Lidia.recipe_urls
         Lidia.failed length] in *.
    rewrite !Nat.add_0_l in Hc.
    rewrite <- (exact_upto_spec 80 30 exact_80_upto_30) by lia.
    destruct (meets 80 (success_rate (length raws) (length urls))) eqn:Hm.
    + split; [left; reflexivity|]. split; [exact Hc|].
      split; [tauto|]. split; [tauto|].
      intros He. rewrite He in Hm. discriminate.
    + split; [right; reflexivity|]. split; [exact Hc|].
      split; [split; discriminate|]. split; [split; discriminate|].
      reflexivity.
Qed.

(** The run over three items with one not found: two successes out
    of three, below the threshold, hence 1. *)
Lemma C7_exit_status_witness :
  let run := fst (SeriousEats.main three_urls_net (SeriousEats.Loaded three_urls)
                    world0) in
  let raws := match SeriousEats.raw_snapshot run with Some r => r | None => [] end in
  length raws = 2
  /\ SeriousEats.exit_status run = 1%Z
  /\ (SeriousEats.exit_status run = 0%Z
      <-> 0 < length three_urls /\ 90 * length three_urls <= 100 * length raws).
Proof.
  cbv zeta.
  split; [vm_compute; reflexivity|]. split; [vm_compute; reflexivity|].
  apply (proj2 (proj2 (proj1 C7_exit_status three_urls_net
                         (SeriousEats.Loaded three_urls) world0)) three_urls).
  - reflexivity.
  - vm_compute. reflexivity.
  - unfold three_urls. cbn [length]. lia.
Defined.

(** ** Claims on the heuristic extraction *)

Lemma paragraphs_loop_filter (paragraphs : list string) :
  forall parts,
    Lidia.paragraphs_loop paragraphs parts
    = parts ++ filter Lidia.keeps (map PyStr.strip paragraphs).
Proof.
  induction paragraphs as [|p ps IH]; intros parts; cbn [Lidia.paragraphs_loop map filter].
  - rewrite app_nil_r. reflexivity.
  - destruct (Lidia.keeps (PyStr.strip p)); rewrite IH; [|reflexivity].
    rewrite <- app_assoc. reflexivity.
Qed.

Lemma keeps_spec (text : string) :
  Lidia.keeps text = true
  <-> 20 < String.length text
      /\ forall marker, In marker Lidia.skip_patterns ->
                        PyStr.contains marker (PyStr.lower text) = false.
Proof.
  unfold Lidia.keeps, PyStr.any_in.
  rewrite !andb_true_iff, Nat.ltb_lt, negb_true_iff.
  rewrite <- not_true_iff_false, existsb_exists.
  split.
  - intros [[_ Hn] Hl]. split; [exact Hl|]. intros m Hm.
    apply not_true_iff_false. intros Hc. apply Hn. exists m. split; assumption.
  - intros [Hl Hn]. repeat split; [| |exact Hl].
    + destruct text; [simpl in Hl; lia | reflexivity].
    + intros (m & Hm & Hc). rewrite (Hn m Hm) in Hc. discriminate.
Qed.

(** C8 as stated fails at the boundary: a clean paragraph of exactly
    20 characters is dropped. *)
Lemma C8_exactly_20_is_dropped :
  String.length "Stir well and serve." = 20
  /\ PyStr.any_in Lidia.skip_patterns (PyStr.lower "Stir well and serve.") = false
  /\ Lidia.keeps "Stir well and serve." = false
  /\ Lidia.extract_instructions twenty_soup = ""
  /\ option_map Lidia.instructions
       (fst (Lidia.scrape_recipe (fun _ _ => Lidia.Response 200 twenty_soup)
               "https://lidiasitaly.com/recipes/crostini/" 1 world0))
     = Some "".
Proof. repeat (split; [vm_compute; reflexivity|]). vm_compute. reflexivity. Qed.

(** C8, amended. A paragraph of the container that follows the
    Directions heading is kept, stripped, if and only if its stripped
    text is longer than 20 characters and holds none of the markers
    ([facebook], [twitter], [pinterest], [email], [copyright],
    [excerpted from], [all rights reserved]) once lowered; the kept
    paragraphs are joined by a blank line in their original order, and
    the result is the instructions of the raw record. *)
Theorem C8_paragraphs_kept :
  forall requests_get url w soup paragraphs title,
    requests_get url (sent w) = Lidia.Response 200 soup ->
    Lidia.h1 soup = Some title ->
    truthy (PyStr.strip title) = true ->
    Lidia.directions_h2 soup = Some (Some paragraphs) ->
    let survivors := filter Lidia.keeps (map PyStr.strip paragraphs) in
    option_map Lidia.instructions (fst (Lidia.scrape_recipe requests_get url 1 w))
    = Some (PyStr.join Lidia.blank_line survivors)
    /\ Lidia.extract_instructions soup = PyStr.join Lidia.blank_line survivors
    /\ (forall text,
           In text survivors
           <-> (exists p, In p paragraphs /\ text = PyStr.strip p)
               /\ 20 < String.length text
               /\ forall marker, In marker Lidia.skip_patterns ->
                                 PyStr.contains marker (PyStr.lower text) = false).
Proof.
  intros requests_get url w soup paragraphs title Ho Ht Hs Hd survivors.
  assert (He : Lidia.extract_instructions soup
               = PyStr.join Lidia.blank_line survivors).
  { unfold Lidia.extract_instructions. rewrite Hd, paragraphs_loop_filter.
    reflexivity. }
  split; [|split; [exact He|]].
  - unfold Lidia.scrape_recipe. rewrite lidia_scrape_recipe_unfold.
    run. rewrite Ho. cbn [negb Z.eqb Pos.eqb]. rewrite Ht. cbn [truthy_opt].
    rewrite Hs. cbn [negb fst option_map Lidia.instructions]. rewrite He.
    reflexivity.
  - intros text. unfold survivors. rewrite filter_In, in_map_iff, keeps_spec.
    split.
    + intros [(p & Hp & Hin) Hk]. split; [exists p; split; [exact Hin | symmetry; exact Hp]|].
      exact Hk.
    + intros [(p & Hin & Hp) Hk]. split; [exists p; split; [symmetry; exact Hp | exact Hin]|].
      exact Hk.
Qed.

(** Of the four paragraphs of the sample page the share label and the
    paragraph of 20 characters are dropped, the other two are joined. *)
Lemma C8_paragraphs_kept_witness :
  option_map Lidia.instructions
    (fst (Lidia.scrape_recipe (fun _ _ => Lidia.Response 200 ragu_soup)
            "https://lidiasitaly.com/recipes/ragu/" 1 world0))
  = Some (PyStr.join Lidia.blank_line
            ["Cook the onion and the carrots until they are soft.";
             "Add the beef and simmer gently for two hours."]).
Proof.
  refine (eq_trans
            (proj1 (C8_paragraphs_kept (fun _ _ => Lidia.Response 200 ragu_soup)
                      "https://lidiasitaly.com/recipes/ragu/" world0 ragu_soup
                      ["Cook the onion and the carrots until they are soft.";
                       "Share on Facebook";
                       "Stir well and serve.";
                       "Add the beef and simmer gently for two hours."]
                      " Ragu alla Bolognese " eq_refl eq_refl eq_refl eq_refl)) _).
  vm_compute. reflexivity.
Defined.

(** ** Claims on the walk over listing pages *)

(** One turn of the [while] loop, by what the reply yields. *)
Lemma walk_step requests_get urljoin (left : nat) (chef_url : string)
    (page_num : nat) (all : list string) (w : World) :
  FoodAndWine.walk requests_get urljoin (S left) chef_url page_num all w
  = let w1 := mkWorld (S (sent w)) (minted w) (ticks w)
                (trace w ++ [Get (FoodAndWine.page_url chef_url page_num)]) in
    match FoodAndWine.yield_of urljoin chef_url
            (requests_get (FoodAndWine.page_url chef_url page_num) (sent w)) with
    | None => (all, w1)
    | Some ([], _) => (all, w1)
    | Some (links, false) => (all ++ links, w1)
    | Some (links, true) =>
        FoodAndWine.walk requests_get urljoin left chef_url (S page_num)
          (all ++ links)
          (mkWorld (S (sent w)) (minted w) (ticks w)
             ((trace w ++ [Get (FoodAndWine.page_url chef_url page_num)])
              ++ [RateLimit 2%Z]))
    end.
Proof.
  cbn [FoodAndWine.walk]. run. unfold FoodAndWine.yield_of.
  destruct (requests_get (FoodAndWine.page_url chef_url page_num) (sent w))
    as [ty msg|status anchors]; [reflexivity|].
  destruct (FoodAndWine.raises_for_status status); [reflexivity|].
  destruct (FoodAndWine.recipe_links_of urljoin chef_url anchors) as [|l links];
    [reflexivity|].
  destruct (FoodAndWine.next_page anchors); cbn [negb andb]; [reflexivity|].
  destruct (page_num =? 1); reflexivity.
Qed.

(** The trace of a walk: one request per page, each followed by the
    rate limiter's sleep exactly when the walk goes on. *)
Lemma walk_trace requests_get urljoin (left : nat) :
  forall (chef_url : string) (page_num : nat) (all : list string) (w : World),
    trace (snd (FoodAndWine.walk requests_get urljoin left chef_url page_num all w))
    = trace w
      ++ page_events chef_url page_num
           (page_flags requests_get urljoin left chef_url page_num (sent w)).
Proof.
  induction left as [|left IH]; intros chef_url page_num all w.
  - simpl. rewrite app_nil_r. reflexivity.
  - rewrite walk_step. cbn [page_flags]. unfold advances. cbv zeta.
    destruct (FoodAndWine.yield_of urljoin chef_url
                (requests_get (FoodAndWine.page_url chef_url page_num) (sent w)))
      as [[[|l links] [|]]|]; try reflexivity.
    rewrite IH. cbn [trace sent page_events app]. rewrite <- !app_assoc.
    reflexivity.
Qed.

(** The flags of a walk whose first [n] pages lead on and whose next
    page does not. *)
Lemma page_flags_stop requests_get urljoin (chef_url : string) (n : nat) :
  forall (left page_num k : nat),
    n < left ->
    (forall m, m < n ->
       advances urljoin chef_url
         (requests_get (FoodAndWine.page_url chef_url (page_num + m)) (k + m)) = true) ->
    advances urljoin chef_url
      (requests_get (FoodAndWine.page_url chef_url (page_num + n)) (k + n)) = false ->
    page_flags requests_get urljoin left chef_url page_num k
    = repeat true n ++ [false].
Proof.
  induction n as [|n IH]; intros left page_num k Hl Ha Hs.
  - destruct left as [|left]; [lia|]. cbn [page_flags].
    rewrite !Nat.add_0_r in Hs. rewrite Hs. reflexivity.
  - destruct left as [|left]; [lia|]. cbn [page_flags].
    pose proof (Ha 0 (Nat.lt_0_succ n)) as H0. rewrite !Nat.add_0_r in H0.
    rewrite H0. cbn [repeat app]. f_equal. apply IH.
    + lia.
    + intros m Hm. replace (S page_num + m) with (page_num + S m) by lia.
      replace (S k + m) with (k + S m) by lia. apply Ha. lia.
    + replace (S page_num + n) with (page_num + S n) by lia.
      replace (S k + n) with (k + S n) by lia. exact Hs.
Qed.

Lemma next_page_spec (anchors : list FoodAndWine.Anchor) :
  FoodAndWine.next_page anchors = true
  <-> exists a, In a anchors
                /\ (In "next" (FoodAndWine.rel a)
                    \/ FoodAndWine.text a = Some "Next"
                    \/ exists c, In c (FoodAndWine.classes a) /\ c <> ""
                                 /\ PyStr.contains "next" (PyStr.lower c) = true).
Proof.
  unfold FoodAndWine.next_page. rewrite !orb_true_iff, !existsb_exists. split.
  - intros [[(a & Ha & H)|(a & Ha & H)]|(a & Ha & H)]; exists a; (split; [exact Ha|]).
    + left. apply existsb_exists in H. destruct H as (r & Hr & He).
      apply String.eqb_eq in He. subst r. exact Hr.
    + right. left. destruct (FoodAndWine.text a) as [s|]; [|discriminate].
      apply String.eqb_eq in H. subst s. reflexivity.
    + right. right. apply existsb_exists in H. destruct H as (c & Hc & He).
      apply andb_true_iff in He. destruct He as [Ht He]. exists c.
      repeat split; try assumption. intros ->. discriminate.
  - intros (a & Ha & [H|[H|(c & Hc & Hn & He)]]).
    + left. left. exists a. split; [exact Ha|]. apply existsb_exists.
      exists "next". split; [exact H | reflexivity].
    + left. right. exists a. split; [exact Ha|]. rewrite H. reflexivity.
    + right. exists a. split; [exact Ha|]. apply existsb_exists. exists c.
      split; [exact Hc|]. apply andb_true_iff. split; [|exact He].
      unfold truthy. destruct c; [contradiction|reflexivity].
Qed.

Lemma attempts_page_events (flags : list bool) :
  forall (chef_url : string) (page_num : nat),
    attempts (page_events chef_url page_num flags) = length flags.
Proof.
  induction flags as [|f flags IH]; intros chef_url page_num; [reflexivity|].
  cbn [page_events].
  change (attempts (Get (FoodAndWine.page_url chef_url page_num)
                    :: (if f then [RateLimit 2%Z] else [])
                       ++ page_events chef_url (S page_num) flags))
    with (S (attempts ((if f then [RateLimit 2%Z] else [])
                       ++ page_events chef_url (S page_num) flags))).
  rewrite attempts_app, IH. destruct f; reflexivity.
Qed.

(** C4. The walk over listing pages stops at the first page that
    yields no matching link: when the pages before page [n] all lead
    on and page [n] yields none, pages 1 to [n] are requested and no
    other. When page 1 yields links and advertises no next page (no
    link with [rel] ["next"], with text ["Next"] or with a class
    holding ["next"]), the walk stops after page 1, which is the only
    page requested. *)
Theorem C4_pagination_stops :
  (forall requests_get urljoin chef_url max_pages w n b,
      1 <= n <= max_pages ->
      (forall m, 1 <= m < n ->
         advances urljoin chef_url
           (requests_get (FoodAndWine.page_url chef_url m) (sent w + (m - 1))) = true) ->
      FoodAndWine.yield_of urljoin chef_url
        (requests_get (FoodAndWine.page_url chef_url n) (sent w + (n - 1)))
      = Some ([], b) ->
      trace (snd (FoodAndWine.extract_recipe_urls requests_get urljoin chef_url
                    max_pages w))
      = trace w ++ page_events chef_url 1 (repeat true (n - 1) ++ [false])
      /\ attempts (page_events chef_url 1 (repeat true (n - 1) ++ [false])) = n)
  /\ (forall requests_get urljoin chef_url max_pages w status_code anchors,
      1 <= max_pages ->
      requests_get chef_url (sent w) = FoodAndWine.Response status_code anchors ->
      FoodAndWine.raises_for_status status_code = false ->
      FoodAndWine.recipe_links_of urljoin chef_url anchors <> [] ->
      (forall a, In a anchors ->
         ~ In "next" (FoodAndWine.rel a)
         /\ FoodAndWine.text a <> Some "Next"
         /\ forall c, In c (FoodAndWine.classes a) ->
                      PyStr.contains "next" (PyStr.lower c) = false) ->
      FoodAndWine.extract_recipe_urls requests_get urljoin chef_url max_pages w
      = (PyStr.fromkeys (FoodAndWine.recipe_links_of urljoin chef_url anchors),
         mkWorld (S (sent w)) (minted w) (ticks w) (trace w ++ [Get chef_url]))).
Proof.
  split.
  - intros requests_get urljoin chef_url max_pages w n b Hn Ha Hy.
    unfold FoodAndWine.extract_recipe_urls, bind, ret.
    pose proof (walk_trace requests_get urljoin (max_pages + 1 - 1) chef_url 1 [] w)
      as Ht.
    destruct (FoodAndWine.walk requests_get urljoin (max_pages + 1 - 1) chef_url 1 [] w)
      as [all w'].
    cbn [snd] in *. rewrite Ht.
    rewrite (page_flags_stop requests_get urljoin chef_url (n - 1)).
    + split; [reflexivity|].
      rewrite attempts_page_events, length_app, repeat_length. simpl. lia.
    + lia.
    + intros m Hm. replace (sent w + m) with (sent w + (S m - 1)) by lia.
      apply Ha. lia.
    + unfold advances. replace (1 + (n - 1)) with n by lia. rewrite Hy.
      reflexivity.
  - intros requests_get urljoin chef_url max_pages w status_code anchors
      Hm Ho Hs Hl Hn.
    assert (Hnext : FoodAndWine.next_page anchors = false).
    { apply not_true_iff_false. intros H. apply next_page_spec in H.
      destruct H as (a & Ha & H). destruct (Hn a Ha) as (H1 & H2 & H3).
      destruct H as [H|[H|(c & Hc & _ & He)]]; [tauto|tauto|].
      rewrite (H3 c Hc) in He. discriminate. }
    unfold FoodAndWine.extract_recipe_urls, bind, ret.
    replace (max_pages + 1 - 1) with (S (max_pages - 1)) by lia.
    rewrite walk_step. cbv zeta.
    change (FoodAndWine.page_url chef_url 1) with chef_url.
    rewrite Ho. unfold FoodAndWine.yield_of. rewrite Hs, Hnext.
    destruct (FoodAndWine.recipe_links_of urljoin chef_url anchors) as [|l links];
      [contradiction|].
    reflexivity.
Qed.

(** A listing whose second page has no recipe link is walked for two
    pages; a listing without a next-page link for one. *)
Lemma C4_pagination_stops_witness :
  (trace (snd (FoodAndWine.extract_recipe_urls two_pages_net keep_href nancy 10 world0))
   = trace world0 ++ page_events nancy 1 (repeat true (2 - 1) ++ [false])
   /\ attempts (page_events nancy 1 (repeat true (2 - 1) ++ [false])) = 2)
  /\ FoodAndWine.extract_recipe_urls single_page_net keep_href nancy 10 world0
     = (PyStr.fromkeys (FoodAndWine.recipe_links_of keep_href nancy chef_single_page),
        mkWorld 1 0 0 ([] ++ [Get nancy])).
Proof.
  split.
  - apply (proj1 C4_pagination_stops two_pages_net keep_href nancy 10 world0 2 false).
    + lia.
    + intros m Hm. assert (m = 1) by lia. subst m. vm_compute. reflexivity.
    + vm_compute. reflexivity.
  - apply (proj2 C4_pagination_stops single_page_net keep_href nancy 10 world0 200%Z
             chef_single_page).
    + lia.
    + reflexivity.
    + reflexivity.
    + vm_compute. discriminate.
    + intros a Ha. unfold chef_single_page, chef_page_1 in Ha. cbn [firstn In] in Ha.
      repeat (destruct Ha as [Ha|Ha];
              [subst a;
               cbn [FoodAndWine.rel FoodAndWine.text FoodAndWine.classes In];
               split; [tauto|];
               split; [discriminate|];
               intros c Hc;
               (contradiction
                || (destruct Hc as [Hc|Hc]; [subst c; reflexivity | contradiction]))|]).
      contradiction.
Defined.

(** ** Claims on the rate limiter *)

Lemma separated_cons (sep : event) (s : list event) (segs : list (list event)) :
  segs <> [] -> separated sep (s :: segs) = s ++ sep :: separated sep segs.
Proof. destruct segs; [contradiction | reflexivity]. Qed.

Lemma rate_limits_separated (secs : Z) (segs : list (list event)) :
  Forall (fun s => rate_limits s = 0) segs ->
  rate_limits (separated (RateLimit secs) segs) = length segs - 1.
Proof.
  induction 1 as [|s segs Hs Hf IH]; [reflexivity|].
  destruct segs as [|s' segs].
  - simpl. rewrite Hs. reflexivity.
  - rewrite separated_cons by discriminate.
    rewrite rate_limits_app, Hs.
    change (rate_limits (RateLimit secs :: separated (RateLimit secs) (s' :: segs)))
      with (S (rate_limits (separated (RateLimit secs) (s' :: segs)))).
    rewrite IH. simpl. lia.
Qed.

Lemma no_sleep_before_separated (sep : event) (segs : list (list event))
    (urls : list string) :
  Forall2 (fun u s => call_events u 1 s) urls segs ->
  no_sleep_before_request (separated sep segs) = true.
Proof.
  intros H. destruct H as [|u s urls segs ((rest & ->) & _) H]; [reflexivity|].
  destruct segs; reflexivity.
Qed.

Lemma call_events_quiet (urls : list string) (segs : list (list event)) :
  Forall2 (fun u s => call_events u 1 s) urls segs ->
  Forall (fun s => rate_limits s = 0) segs.
Proof.
  induction 1 as [|u s urls segs (_ & _ & _ & Hr) _ IH]; constructor; assumption.
Qed.

Lemma se_scrape_loop_events scrape_me (items : list SeriousEats.RecipeInfo) :
  forall total i raws failed w,
    i + length items = S total ->
    exists segs,
      Forall2 (fun u s => call_events u 1 s) (map SeriousEats.ri_url items) segs
      /\ trace (snd (SeriousEats.scrape_loop scrape_me total i items raws failed w))
         = trace w ++ separated (RateLimit SeriousEats.RATE_LIMIT_SECONDS) segs.
Proof.
  induction items as [|info items IH]; intros total i raws failed w Hi.
  - exists []. split; [constructor|]. simpl. rewrite app_nil_r. reflexivity.
  - cbn [SeriousEats.scrape_loop]. unfold bind.
    unfold SeriousEats.scrape_recipe, SeriousEats.scrape_recipe_upto.
    destruct (se_scrape_from_events scrape_me (SeriousEats.MAX_RETRIES - 1)
                (SeriousEats.ri_url info)
                (SeriousEats.mkMetadata (SeriousEats.ri_author info)
                   (SeriousEats.ri_category info) (SeriousEats.ri_notes info))
                1 w) as (evs & Ht & _ & Hc & _).
    destruct (SeriousEats.scrape_from scrape_me _ _ _ 1 w) as [r w1].
    cbn [snd] in Ht. cbn [length] in Hi.
    destruct (Nat.ltb_spec i total) as [Hlt|Hge]; destruct r as [d|]; run.
    + edestruct (IH total (S i)) as (segs & Hf & Hs); [lia|].
      assert (Hne : segs <> []).
      { intros ->. inversion Hf as [Hm|]. symmetry in Hm.
        apply map_eq_nil in Hm. subst items. simpl in Hi. lia. }
      exists (evs :: segs). split; [constructor; assumption|].
      rewrite Hs. cbn [trace]. rewrite Ht, separated_cons by exact Hne.
      rewrite <- !app_assoc. reflexivity.
    + edestruct (IH total (S i)) as (segs & Hf & Hs); [lia|].
      assert (Hne : segs <> []).
      { intros ->. inversion Hf as [Hm|]. symmetry in Hm.
        apply map_eq_nil in Hm. subst items. simpl in Hi. lia. }
      exists (evs :: segs). split; [constructor; assumption|].
      rewrite Hs. cbn [trace]. rewrite Ht, separated_cons by exact Hne.
      rewrite <- !app_assoc. reflexivity.
    + assert (items = []) by (destruct items; [reflexivity | simpl in Hi; lia]).
      subst items. exists [evs]. split; [constructor; [exact Hc | constructor]|].
      simpl. exact Ht.
    + assert (items = []) by (destruct items; [reflexivity | simpl in Hi; lia]).
      subst items. exists [evs]. split; [constructor; [exact Hc | constructor]|].
      simpl. exact Ht.
Qed.

Lemma lidia_scrape_loop_events requests_get (urls : list string) :
  forall total i raws failed w,
    i + length urls = S total ->
    exists segs,
      Forall2 (fun u s => call_events u 1 s) urls segs
      /\ trace (snd (Lidia.scrape_loop requests_get total i urls raws failed w))
         = trace w ++ separated (RateLimit Lidia.RATE_LIMIT_SECONDS) segs.
Proof.
  induction urls as [|url urls IH]; intros total i raws failed w Hi.
  - exists []. split; [constructor|]. simpl. rewrite app_nil_r. reflexivity.
  - cbn [Lidia.scrape_loop]. unfold bind.
    unfold Lidia.scrape_recipe, Lidia.scrape_recipe_upto.
    destruct (lidia_scrape_from_events requests_get (Lidia.MAX_RETRIES - 1) url 1 w)
      as (evs & Ht & _ & Hc & _).
    destruct (Lidia.scrape_from requests_get _ _ 1 w) as [r w1].
    cbn [snd] in Ht. cbn [length] in Hi.
    destruct (Nat.ltb_spec i total) as [Hlt|Hge]; destruct r as [d|]; run.
    + edestruct (IH total (S i)) as (segs & Hf & Hs); [lia|].
      assert (Hne : segs <> []).
      { intros ->. inversion Hf. subst urls. simpl in Hi. lia. }
      exists (evs :: segs). split; [constructor; assumption|].
      rewrite Hs. cbn [trace]. rewrite Ht, separated_cons by exact Hne.
      rewrite <- !app_assoc. reflexivity.
    + edestruct (IH total (S i)) as (segs & Hf & Hs); [lia|].
      assert (Hne : segs <> []).
      { intros ->. inversion Hf. subst urls. simpl in Hi. lia. }
      exists (evs :: segs). split; [constructor; assumption|].
      rewrite Hs. cbn [trace]. rewrite Ht, separated_cons by exact Hne.
      rewrite <- !app_assoc. reflexivity.
    + assert (urls = []) by (destruct urls; [reflexivity | simpl in Hi; lia]).
      subst urls. exists [evs]. split; [constructor; [exact Hc | constructor]|].
      simpl. exact Ht.
    + assert (urls = []) by (destruct urls; [reflexivity | simpl in Hi; lia]).
      subst urls. exists [evs]. split; [constructor; [exact Hc | constructor]|].
      simpl. exact Ht.
Qed.

Lemma fetch_recipe_urls_events requests_get (category_url : string)
    (limit : nat) (w : World) :
  snd (Lidia.fetch_recipe_urls requests_get category_url limit w)
  = mkWorld (S (sent w)) (minted w) (ticks w) (trace w ++ [Get category_url]).
Proof.
  unfold Lidia.fetch_recipe_urls. run.
  destruct (requests_get category_url (sent w)) as [ty msg|status soup];
    [reflexivity|].
  destruct (negb (status =? 200)%Z); reflexivity.
Qed.

Lemma lidia_discover_loop_events requests_get (category_urls : list string) :
  forall all w,
  exists k,
    k <= length category_urls
    /\ (category_urls <> [] -> 1 <= k)
    /\ trace (snd (Lidia.discover_loop requests_get category_urls all w))
       = trace w ++ category_events (firstn k category_urls).
Proof.
  induction category_urls as [|c cats IH]; intros all w.
  - exists 0. simpl. rewrite app_nil_r. repeat split; [lia | congruence].
  - cbn [Lidia.discover_loop]. unfold bind.
    pose proof (fetch_recipe_urls_events requests_get c 10 w) as Hw.
    destruct (Lidia.fetch_recipe_urls requests_get c 10 w) as [l w1].
    cbn [snd] in Hw. subst w1. run.
    destruct (Lidia.TARGET_RECIPE_COUNT <=? length (all ++ l)).
    + exists 1. cbn [length]. split; [lia|]. split; [lia|].
      cbn [snd trace firstn category_events flat_map app].
      rewrite <- !app_assoc. reflexivity.
    + match goal with
      | |- context [Lidia.discover_loop requests_get cats ?a ?W] =>
          destruct (IH a W) as (k & Hk & _ & Ht)
      end.
      exists (S k). cbn [length]. split; [lia|]. split; [lia|].
      rewrite Ht. cbn [trace firstn]. unfold category_events.
      cbn [flat_map app]. rewrite <- !app_assoc. reflexivity.
Qed.

Lemma rate_limits_category_events (category_urls : list string) :
  rate_limits (category_events category_urls) = length category_urls.
Proof.
  induction category_urls as [|c cats IH]; [reflexivity|].
  unfold category_events in *. cbn [flat_map app length].
  change (rate_limits (Get c :: RateLimit Lidia.RATE_LIMIT_SECONDS
                       :: flat_map (fun c0 => [Get c0; RateLimit Lidia.RATE_LIMIT_SECONDS])
                            cats))
    with (S (rate_limits (flat_map (fun c0 => [Get c0;
                                               RateLimit Lidia.RATE_LIMIT_SECONDS])
                            cats))).
  rewrite IH. reflexivity.
Qed.

(** C9 as stated fails after the last item and after the last page:
    in the run over three items the rate limiter sleeps twice, and
    nothing follows the return from the third item; in the walk over
    two listing pages it sleeps once, and nothing follows the second
    request. *)
Lemma C9_no_delay_after_the_last :
  trace (snd (SeriousEats.main three_urls_net (SeriousEats.Loaded three_urls) world0))
  = [ Call se_u1 1; Get se_u1; Return_; RateLimit 2;
      Call se_u2 1; Get se_u2; Return_; RateLimit 2;
      Call se_u3 1; Get se_u3; Backoff 2;
      Call se_u3 2; Get se_u3; Backoff 4;
      Call se_u3 3; Get se_u3; Return_; Return_; Return_ ]
  /\ length three_urls = 3
  /\ rate_limits (trace (snd (SeriousEats.main three_urls_net
                                (SeriousEats.Loaded three_urls) world0))) = 2
  /\ trace (snd (FoodAndWine.extract_recipe_urls two_pages_net keep_href nancy 10
                   world0))
     = [ Get "https://www.foodandwine.com/chefs/nancy"; RateLimit 2;
         Get "https://www.foodandwine.com/chefs/nancy?page=2" ].
Proof. repeat (split; [vm_compute; reflexivity|]). vm_compute. reflexivity. Qed.

Lemma page_flags_spec requests_get urljoin (left : nat) :
  forall chef_url page_num k,
    let flags := page_flags requests_get urljoin left chef_url page_num k in
    length flags <= left
    /\ (forall i, i < length flags ->
          nth i flags false
          = advances urljoin chef_url
              (requests_get (FoodAndWine.page_url chef_url (page_num + i))
                 (k + i)))
    /\ (forall i, S i < length flags -> nth i flags false = true)
    /\ (nth (length flags - 1) flags false = true -> length flags = left).
Proof.
  induction left as [|left IH]; intros chef_url page_num k; cbv zeta;
    cbn [page_flags].
  - cbn. repeat split; intros; lia.
  - destruct (advances urljoin chef_url
                (requests_get (FoodAndWine.page_url chef_url page_num) k)) eqn:E.
    + destruct (IH chef_url (S page_num) (S k)) as (H1 & H2 & H3 & H4).
      cbn [length]. split; [lia|]. split; [|split].
      * intros [|i] Hi; cbn [nth]; rewrite ?Nat.add_0_r; [symmetry; exact E|].
        rewrite H2 by lia.
        replace (S page_num + i) with (page_num + S i) by lia.
        replace (S k + i) with (k + S i) by lia. reflexivity.
      * intros [|i] Hi; cbn [nth]; [reflexivity | apply H3; lia].
      * destruct (page_flags requests_get urljoin left chef_url (S page_num) (S k))
          as [|f fl] eqn:Ef.
        -- cbn [length] in *. intros _. destruct left as [|left']; [reflexivity|].
           cbn [page_flags] in Ef.
           destruct (advances _ _ _) in Ef; discriminate Ef.
        -- cbn [length] in *.
           replace (S (S (length fl)) - 1) with (S (length fl)) by lia.
           replace (S (length fl) - 1) with (length fl) in H4 by lia.
           cbn [nth]. intros H. specialize (H4 H). lia.
    + cbn [length nth]. split; [lia|]. split; [|split].
      * intros i Hi. assert (i = 0) by lia. subst i. cbn [nth].
        rewrite !Nat.add_0_r. symmetry. exact E.
      * intros i Hi. lia.
      * discriminate.
Qed.

(** C9, amended. The rate limiter never sleeps before the first
    request of a run. In the discovery of the heuristic source it
    sleeps once after each category page requested. In the walk over
    listing pages it sleeps once after each page that yields recipe
    links and advertises a next page, and after no other page: every
    page but the last requested is such a page, and the last requested
    is one only when the walk ends because [max_pages] pages have been
    requested; the sleep is then made all the same, although no request
    follows it. Between two consecutive items the rate limiter sleeps
    exactly once, and it does not sleep after the last item: a run over
    [n] items makes [n - 1] such sleeps. *)
Theorem C9_rate_limiter_placement :
  (forall scrape_me url_data w,
      exists segs,
        Forall2 (fun u s => call_events u 1 s)
          (map SeriousEats.ri_url url_data) segs
        /\ trace (snd (SeriousEats.main scrape_me (SeriousEats.Loaded url_data) w))
           = trace w ++ separated (RateLimit 2) segs
        /\ rate_limits (separated (RateLimit 2) segs) = length url_data - 1
        /\ no_sleep_before_request (separated (RateLimit 2) segs) = true)
  /\ (forall requests_get w,
      exists k segs,
        1 <= k <= length Lidia.CATEGORY_URLS
        /\ Forall2 (fun u s => call_events u 1 s)
             (Lidia.recipe_urls (fst (Lidia.main requests_get w))) segs
        /\ trace (snd (Lidia.main requests_get w))
           = trace w ++ category_events (firstn k Lidia.CATEGORY_URLS)
                     ++ separated (RateLimit 2) segs
        /\ rate_limits (category_events (firstn k Lidia.CATEGORY_URLS)) = k
        /\ rate_limits (separated (RateLimit 2) segs)
           = length (Lidia.recipe_urls (fst (Lidia.main requests_get w))) - 1
        /\ no_sleep_before_request
             (category_events (firstn k Lidia.CATEGORY_URLS)
              ++ separated (RateLimit 2) segs) = true)
  /\ (forall requests_get urljoin chef_url max_pages w,
      let sleeps :=
        page_flags requests_get urljoin max_pages chef_url 1 (sent w) in
      trace (snd (FoodAndWine.extract_recipe_urls requests_get urljoin chef_url
                    max_pages w))
      = trace w ++ page_events chef_url 1 sleeps
      /\ no_sleep_before_request (page_events chef_url 1 sleeps) = true
      /\ length sleeps <= max_pages
      /\ (forall i, i < length sleeps ->
            nth i sleeps false
            = advances urljoin chef_url
                (requests_get (FoodAndWine.page_url chef_url (1 + i))
                   (sent w + i)))
      /\ (forall i, S i < length sleeps -> nth i sleeps false = true)
      /\ (nth (length sleeps - 1) sleeps false = true ->
          length sleeps = max_pages))
  /\ trace (snd (FoodAndWine.extract_recipe_urls two_pages_net keep_href nancy 1
                   world0))
     = [ Get "https://www.foodandwine.com/chefs/nancy"; RateLimit 2 ].
Proof.
  split; [|split; [|split]].
  - intros scrape_me url_data w. unfold SeriousEats.main, bind, ret.
    destruct (se_scrape_loop_events scrape_me url_data (length url_data) 1 [] [] w)
      as (segs & Hf & Ht); [reflexivity|].
    destruct (SeriousEats.scrape_loop scrape_me (length url_data) 1 url_data [] [] w)
      as [[raws failed] w1].
    destruct (se_transform_loop_keeps raws [] [] w1) as (ts & _ & _ & Htr & _).
    destruct (SeriousEats.transform_loop raws [] [] w1) as [[ts' fails] w2].
    cbn [fst snd] in *. exists segs.
    split; [exact Hf|]. split; [rewrite Htr; exact Ht|]. split.
    + rewrite rate_limits_separated by (eapply call_events_quiet; exact Hf).
      rewrite <- (Forall2_length Hf), length_map. reflexivity.
    + eapply no_sleep_before_separated. exact Hf.
  - intros requests_get w. unfold Lidia.main, bind, ret.
    destruct (lidia_discover_loop_events requests_get Lidia.CATEGORY_URLS [] w)
      as (k & Hk & Hk1 & Hd).
    destruct (Lidia.discover_loop requests_get Lidia.CATEGORY_URLS [] w) as [all w0].
    remember (firstn Lidia.TARGET_RECIPE_COUNT (Lidia.unique_loop all [] [])) as urls
      eqn:Hu.
    clear Hu.
    destruct (lidia_scrape_loop_events requests_get urls (length urls) 1 [] [] w0)
      as (segs & Hf & Ht); [reflexivity|].
    destruct (Lidia.scrape_loop requests_get (length urls) 1 urls [] [] w0)
      as [[raws failed] w1].
    destruct (lidia_transform_loop_keeps raws [] [] w1) as (ts & _ & _ & Htr & _).
    destruct (Lidia.transform_loop raws [] [] w1) as [[ts' fails] w2].
    cbn [fst snd Lidia.recipe_urls] in *.
    assert (Hk1' : 1 <= k) by (apply Hk1; discriminate).
    exists k, segs.
    split; [lia|]. split; [exact Hf|].
    split; [rewrite Htr, Ht, Hd, <- app_assoc; reflexivity|].
    split; [rewrite rate_limits_category_events, length_firstn; lia|].
    split.
    + rewrite rate_limits_separated by (eapply call_events_quiet; exact Hf).
      rewrite <- (Forall2_length Hf). reflexivity.
    + destruct k as [|k]; [lia|]. reflexivity.
  - intros requests_get urljoin chef_url max_pages w. cbv zeta.
    unfold FoodAndWine.extract_recipe_urls, bind, ret.
    pose proof (walk_trace requests_get urljoin (max_pages + 1 - 1) chef_url 1 [] w)
      as Ht.
    destruct (FoodAndWine.walk requests_get urljoin (max_pages + 1 - 1) chef_url 1 [] w)
      as [all w'].
    cbn [snd] in *. replace (max_pages + 1 - 1) with max_pages in Ht by lia.
    split; [exact Ht|].
    destruct (page_flags_spec requests_get urljoin max_pages chef_url 1 (sent w))
      as (H1 & H2 & H3 & H4).
    split; [|split; [exact H1 | split; [exact H2 | split; [exact H3 | exact H4]]]].
    destruct (page_flags requests_get urljoin max_pages chef_url 1 (sent w));
      reflexivity.
  - vm_compute. reflexivity.
Qed.

(** * Further properties of the code *)

(** ** Removal of duplicates *)

Lemma existsb_eqb_In (x : string) (l : list string) :
  existsb (String.eqb x) l = true <-> In x l.
Proof.
  rewrite existsb_exists. split.
  - intros (y & Hy & He). apply String.eqb_eq in He. subst y. exact Hy.
  - intros H. exists x. split; [exact H | apply String.eqb_refl].
Qed.

Lemma fromkeys_from_In (l : list string) :
  forall seen x,
    In x (PyStr.fromkeys_from seen l) <-> In x l /\ ~ In x seen.
Proof.
  induction l as [|y l IH]; intros seen x; cbn [PyStr.fromkeys_from].
  - simpl. tauto.
  - destruct (existsb (String.eqb y) seen) eqn:E.
    + apply existsb_eqb_In in E. rewrite IH. simpl. split.
      * intros [H1 H2]. tauto.
      * intros [[->|H1] H2]; [contradiction | tauto].
    + assert (Hn : ~ In y seen).
      { intros H. apply existsb_eqb_In in H. congruence. }
      simpl. rewrite IH. simpl. split.
      * intros [->|[H1 H2]]; [tauto|]. split; [tauto|]. tauto.
      * intros [[->|H1] H2]; [tauto|].
        destruct (string_dec y x) as [->|Hd]; [tauto|]. right.
        split; [exact H1|]. intros [H|H]; tauto.
Qed.

Lemma fromkeys_from_NoDup (l : list string) :
  forall seen, NoDup (PyStr.fromkeys_from seen l).
Proof.
  induction l as [|y l IH]; intros seen; cbn [PyStr.fromkeys_from].
  - constructor.
  - destruct (existsb (String.eqb y) seen); [apply IH|].
    constructor; [|apply IH].
    rewrite fromkeys_from_In. simpl. tauto.
Qed.

Lemma fromkeys_from_fixed (l : list string) :
  forall seen,
    NoDup l -> (forall x, In x l -> ~ In x seen) ->
    PyStr.fromkeys_from seen l = l.
Proof.
  induction l as [|y l IH]; intros seen Hn Hs; cbn [PyStr.fromkeys_from];
    [reflexivity|].
  inversion Hn as [|? ? Hy Hl]; subst.
  destruct (existsb (String.eqb y) seen) eqn:E.
  - apply existsb_eqb_In in E. exfalso. apply (Hs y); simpl; tauto.
  - f_equal. apply IH; [exact Hl|].
    intros x Hx [<-|H]; [contradiction|]. apply (Hs x); simpl; tauto.
Qed.

(** X1. [list(dict.fromkeys(l))] keeps exactly the members of [l],
    each once, and leaves a list without duplicates as it is; applied
    twice it does nothing more. *)
Theorem X1_fromkeys_removes_duplicates :
  forall l : list string,
    NoDup (PyStr.fromkeys l)
    /\ (forall x, In x (PyStr.fromkeys l) <-> In x l)
    /\ (NoDup l -> PyStr.fromkeys l = l)
    /\ PyStr.fromkeys (PyStr.fromkeys l) = PyStr.fromkeys l.
Proof.
  intros l. unfold PyStr.fromkeys.
  assert (Hn : NoDup (PyStr.fromkeys_from [] l)) by apply fromkeys_from_NoDup.
  split; [exact Hn|]. split.
  - intros x. rewrite fromkeys_from_In. simpl. tauto.
  - split.
    + intros H. apply fromkeys_from_fixed; [exact H | intros x _ []].
    + apply fromkeys_from_fixed; [exact Hn | intros x _ []].
Qed.

(** ** The walk over listing pages, as a whole *)

Lemma page_flags_length requests_get urljoin (left : nat) :
  forall chef_url page_num k,
    length (page_flags requests_get urljoin left chef_url page_num k) <= left.
Proof.
  induction left as [|left IH]; intros chef_url page_num k; cbn [page_flags].
  - simpl. lia.
  - destruct (advances _ _ _); cbn [length]; [|lia].
    specialize (IH chef_url (S page_num) (S k)). lia.
Qed.

Lemma rate_limits_page_events (flags : list bool) :
  forall (chef_url : string) (page_num : nat),
    rate_limits (page_events chef_url page_num flags) <= length flags.
Proof.
  induction flags as [|f flags IH]; intros chef_url page_num;
    [unfold rate_limits; simpl; lia|].
  cbn [page_events length].
  change (rate_limits (Get (FoodAndWine.page_url chef_url page_num)
                       :: (if f then [RateLimit 2%Z] else [])
                          ++ page_events chef_url (S page_num) flags))
    with (rate_limits ((if f then [RateLimit 2%Z] else [])
                       ++ page_events chef_url (S page_num) flags)).
  rewrite rate_limits_app. specialize (IH chef_url (S page_num)).
  destruct f;
    [change (rate_limits [RateLimit 2%Z]) with 1
    |change (rate_limits []) with 0]; lia.
Qed.

Lemma walk_sent requests_get urljoin (left : nat) :
  forall (chef_url : string) (page_num : nat) (all : list string) (w : World),
    sent (snd (FoodAndWine.walk requests_get urljoin left chef_url page_num all w))
    = sent w + length (page_flags requests_get urljoin left chef_url page_num (sent w)).
Proof.
  induction left as [|left IH]; intros chef_url page_num all w.
  - simpl. lia.
  - rewrite walk_step. cbn [page_flags]. unfold advances. cbv zeta.
    destruct (FoodAndWine.yield_of urljoin chef_url
                (requests_get (FoodAndWine.page_url chef_url page_num) (sent w)))
      as [[[|l links] [|]]|]; cbn [snd sent length]; try lia.
    rewrite IH. cbn [sent]. lia.
Qed.

Lemma flat_map_seq_succ {A : Type} (f : nat -> list A) (a n : nat) :
  flat_map f (seq (S a) n) = flat_map (fun i => f (S i)) (seq a n).
Proof.
  rewrite <- seq_shift. induction (seq a n) as [|x l IH]; [reflexivity|].
  simpl. rewrite IH. reflexivity.
Qed.

(** The list a walk returns: what it had, then the matching links of
    every page it requested, in page order. *)
Lemma walk_result requests_get urljoin (left : nat) :
  forall (chef_url : string) (page_num : nat) (all : list string) (w : World),
    fst (FoodAndWine.walk requests_get urljoin left chef_url page_num all w)
    = all ++ flat_map
               (fun i => links_at requests_get urljoin chef_url
                           (page_num + i) (sent w + i))
               (seq 0 (length (page_flags requests_get urljoin left chef_url
                                 page_num (sent w)))).
Proof.
  induction left as [|left IH]; intros chef_url page_num all w.
  - simpl. rewrite app_nil_r. reflexivity.
  - rewrite walk_step. cbn [page_flags]. unfold advances, links_at at 1. cbv zeta.
    destruct (FoodAndWine.yield_of urljoin chef_url
                (requests_get (FoodAndWine.page_url chef_url page_num) (sent w)))
      as [[[|l links] [|]]|] eqn:E; cbn [fst length seq flat_map];
      unfold links_at; rewrite ?Nat.add_0_r, ?E, ?app_nil_r; try reflexivity.
    rewrite IH. cbn [sent]. rewrite <- app_assoc. f_equal. f_equal.
    symmetry. rewrite flat_map_seq_succ. apply flat_map_ext. intros i.
    unfold links_at.
    replace (S page_num + i) with (page_num + S i) by lia.
    replace (S (sent w) + i) with (sent w + S i) by lia. reflexivity.
Qed.

Lemma links_loop_pass urljoin (chef_url : string) (anchors : list FoodAndWine.Anchor) :
  forall acc u,
    In u (FoodAndWine.links_loop urljoin chef_url anchors acc) ->
    In u acc \/ is_recipe_link u = true.
Proof.
  unfold is_recipe_link.
  induction anchors as [|a anchors IH]; intros acc u H;
    cbn [FoodAndWine.links_loop] in H; [left; exact H|].
  destruct (FoodAndWine.href a) as [h|]; [|apply IH; exact H].
  destruct (PyStr.contains "/recipes/" (urljoin chef_url h)
            && PyStr.contains "foodandwine.com" (urljoin chef_url h)) eqn:E1;
    [|apply IH; exact H].
  destruct (negb (PyStr.contains "/gallery/" (urljoin chef_url h))
            && negb (PyStr.contains "/collection/" (urljoin chef_url h))) eqn:E2;
    [|apply IH; exact H].
  apply IH in H. destruct H as [H|H]; [|right; exact H].
  apply in_app_or in H. destruct H as [H|[<-|[]]]; [left; exact H|].
  right. rewrite <- andb_assoc, E1, E2. reflexivity.
Qed.

Lemma links_at_pass requests_get urljoin (chef_url : string) (page_num k : nat)
    (u : string) :
  In u (links_at requests_get urljoin chef_url page_num k) ->
  is_recipe_link u = true.
Proof.
  unfold links_at, FoodAndWine.yield_of.
  destruct (requests_get _ k) as [ty msg|status anchors]; [intros []|].
  destruct (FoodAndWine.raises_for_status status); [intros []|].
  unfold FoodAndWine.recipe_links_of. intros H.
  apply fromkeys_from_In in H. destruct H as [H _].
  apply links_loop_pass in H. destruct H as [[]|H]. exact H.
Qed.

(** X2. [extract_recipe_urls] returns the matching links of the pages
    it requested, in page order, with duplicates across pages removed;
    the pages requested are pages 1, 2, ... in turn, one request each,
    so their number is the number of requests sent. *)
Theorem X2_extract_is_the_pages_links :
  forall requests_get urljoin chef_url max_pages w,
    let run := FoodAndWine.extract_recipe_urls requests_get urljoin chef_url
                 max_pages w in
    let pages := sent (snd run) - sent w in
    fst run
    = PyStr.fromkeys
        (flat_map (fun i => links_at requests_get urljoin chef_url (1 + i) (sent w + i))
                  (seq 0 pages)).
Proof.
  intros requests_get urljoin chef_url max_pages w. cbv zeta.
  unfold FoodAndWine.extract_recipe_urls, bind, ret.
  pose proof (walk_result requests_get urljoin (max_pages + 1 - 1) chef_url 1 [] w)
    as Hr.
  pose proof (walk_sent requests_get urljoin (max_pages + 1 - 1) chef_url 1 [] w)
    as Hs.
  destruct (FoodAndWine.walk requests_get urljoin (max_pages + 1 - 1) chef_url 1 [] w)
    as [all w'].
  replace (max_pages + 1 - 1) with max_pages in * by lia.
  cbn [fst snd app] in *. subst all. rewrite Hs.
  replace (sent w + length (page_flags requests_get urljoin max_pages chef_url 1
                              (sent w)) - sent w)
    with (length (page_flags requests_get urljoin max_pages chef_url 1 (sent w)))
    by lia.
  reflexivity.
Qed.

(** X3. The list returned by [extract_recipe_urls] has no duplicate,
    and each of its URLs contains ["/recipes/"] and
    ["foodandwine.com"] and contains neither ["/gallery/"] nor
    ["/collection/"]. *)
Theorem X3_extract_only_recipe_links :
  forall requests_get urljoin chef_url max_pages w,
    let urls := fst (FoodAndWine.extract_recipe_urls requests_get urljoin chef_url
                       max_pages w) in
    NoDup urls
    /\ forall u, In u urls ->
         PyStr.contains "/recipes/" u = true
         /\ PyStr.contains "foodandwine.com" u = true
         /\ PyStr.contains "/gallery/" u = false
         /\ PyStr.contains "/collection/" u = false.
Proof.
  intros requests_get urljoin chef_url max_pages w. cbv zeta.
  unfold FoodAndWine.extract_recipe_urls, bind, ret.
  pose proof (walk_result requests_get urljoin (max_pages + 1 - 1) chef_url 1 [] w)
    as Hr.
  destruct (FoodAndWine.walk requests_get urljoin (max_pages + 1 - 1) chef_url 1 [] w)
    as [all w'].
  cbn [fst snd app] in *. subst all. split; [apply fromkeys_from_NoDup|].
  intros u Hu. apply fromkeys_from_In in Hu. destruct Hu as [Hu _].
  apply in_flat_map in Hu. destruct Hu as (i & _ & Hu).
  apply links_at_pass in Hu. unfold is_recipe_link in Hu.
  rewrite !andb_true_iff, !negb_true_iff in Hu. tauto.
Qed.

(** X4. [extract_recipe_urls] never requests more than [max_pages]
    pages, sleeps at most once per request, and with [max_pages = 0]
    requests nothing and returns the empty list. *)
Theorem X4_extract_page_budget :
  (forall requests_get urljoin chef_url max_pages w,
      exists evs,
        trace (snd (FoodAndWine.extract_recipe_urls requests_get urljoin chef_url
                      max_pages w)) = trace w ++ evs
        /\ sent (snd (FoodAndWine.extract_recipe_urls requests_get urljoin chef_url
                        max_pages w)) = sent w + attempts evs
        /\ attempts evs <= max_pages
        /\ rate_limits evs <= attempts evs)
  /\ (forall requests_get urljoin chef_url w,
      FoodAndWine.extract_recipe_urls requests_get urljoin chef_url 0 w = ([], w)).
Proof.
  split; [|reflexivity].
  intros requests_get urljoin chef_url max_pages w.
  unfold FoodAndWine.extract_recipe_urls, bind, ret.
  pose proof (walk_trace requests_get urljoin (max_pages + 1 - 1) chef_url 1 [] w)
    as Ht.
  pose proof (walk_sent requests_get urljoin (max_pages + 1 - 1) chef_url 1 [] w)
    as Hs.
  destruct (FoodAndWine.walk requests_get urljoin (max_pages + 1 - 1) chef_url 1 [] w)
    as [all w'].
  replace (max_pages + 1 - 1) with max_pages in * by lia.
  cbn [fst snd] in *. eexists. split; [exact Ht|].
  rewrite attempts_page_events. split; [exact Hs|]. split.
  - apply page_flags_length.
  - apply rate_limits_page_events.
Qed.

(** X5. When the request for page [n] fails (an exception of
    [requests], or a 4xx or 5xx status) after [n - 1] pages that led
    on, the walk ends there without a further request, and the links
    of the pages before are returned all the same. *)
Theorem X5_extract_keeps_links_on_failure :
  forall requests_get urljoin chef_url max_pages w n,
    1 <= n <= max_pages ->
    (forall m, 1 <= m < n ->
       advances urljoin chef_url
         (requests_get (FoodAndWine.page_url chef_url m) (sent w + (m - 1))) = true) ->
    FoodAndWine.yield_of urljoin chef_url
      (requests_get (FoodAndWine.page_url chef_url n) (sent w + (n - 1))) = None ->
    fst (FoodAndWine.extract_recipe_urls requests_get urljoin chef_url max_pages w)
    = PyStr.fromkeys
        (flat_map (fun i => links_at requests_get urljoin chef_url (1 + i) (sent w + i))
                  (seq 0 (n - 1)))
    /\ sent (snd (FoodAndWine.extract_recipe_urls requests_get urljoin chef_url
                    max_pages w)) = sent w + n.
Proof.
  intros requests_get urljoin chef_url max_pages w n Hn Ha Hy.
  assert (Hf : page_flags requests_get urljoin max_pages chef_url 1 (sent w)
               = repeat true (n - 1) ++ [false]).
  { apply page_flags_stop.
    - lia.
    - intros m Hm. replace (sent w + m) with (sent w + (S m - 1)) by lia.
      apply Ha. lia.
    - unfold advances. replace (1 + (n - 1)) with n by lia. rewrite Hy.
      reflexivity. }
  unfold FoodAndWine.extract_recipe_urls, bind, ret.
  pose proof (walk_result requests_get urljoin (max_pages + 1 - 1) chef_url 1 [] w)
    as Hr.
  pose proof (walk_sent requests_get urljoin (max_pages + 1 - 1) chef_url 1 [] w)
    as Hs.
  destruct (FoodAndWine.walk requests_get urljoin (max_pages + 1 - 1) chef_url 1 [] w)
    as [all w'].
  replace (max_pages + 1 - 1) with max_pages in * by lia.
  cbn [fst snd app] in *. subst all. rewrite Hs, Hf, length_app, repeat_length.
  cbn [length]. split; [|lia].
  replace (n - 1 + 1) with (S (n - 1)) by lia.
  rewrite seq_S, flat_map_app. cbn [flat_map]. unfold links_at at 2.
  replace (1 + (0 + (n - 1))) with n by lia.
  replace (sent w + (0 + (n - 1))) with (sent w + (n - 1)) by lia.
  rewrite Hy, !app_nil_r. reflexivity.
Qed.

(** The first page yields two recipes, the second answers 503: both
    recipes are returned after two requests. *)
Lemma X5_extract_keeps_links_on_failure_witness :
  fst (FoodAndWine.extract_recipe_urls second_page_down keep_href nancy 10 world0)
  = PyStr.fromkeys
      (flat_map (fun i => links_at second_page_down keep_href nancy (1 + i)
                            (sent world0 + i))
                (seq 0 (2 - 1)))
  /\ sent (snd (FoodAndWine.extract_recipe_urls second_page_down keep_href nancy 10
                  world0)) = sent world0 + 2.
Proof.
  apply (X5_extract_keeps_links_on_failure second_page_down keep_href nancy 10
           world0 2).
  - lia.
  - intros m Hm. assert (m = 1) by lia. subst m. vm_compute. reflexivity.
  - vm_compute. reflexivity.
Defined.

(** ** Discovery in the heuristic source *)

Lemma contains_skip (sub pre s : string) :
  PyStr.contains sub s = true -> PyStr.contains sub (pre ++ s) = true.
Proof.
  intros H. induction pre as [|c pre IH]; [exact H|].
  cbn [append PyStr.contains]. rewrite IH. apply orb_true_r.
Qed.

Lemma startswith_app (p a b : string) :
  PyStr.startswith p a = true -> PyStr.startswith p (a ++ b) = true.
Proof.
  revert a. induction p as [|c p IH]; intros a H; [reflexivity|].
  destruct a as [|d a]; [discriminate|]. cbn [append PyStr.startswith] in *.
  apply andb_true_iff in H. destruct H as [H1 H2].
  rewrite H1, (IH a H2). reflexivity.
Qed.

Lemma list_ascii_of_string_app (a b : string) :
  list_ascii_of_string (a ++ b) = list_ascii_of_string a ++ list_ascii_of_string b.
Proof. induction a as [|c a IH]; [reflexivity|]. simpl. rewrite IH. reflexivity. Qed.

Lemma string_of_list_ascii_app (a b : list ascii) :
  string_of_list_ascii (a ++ b)
  = (string_of_list_ascii a ++ string_of_list_ascii b)%string.
Proof. induction a as [|c a IH]; [reflexivity|]. simpl. rewrite IH. reflexivity. Qed.

Lemma reverse_app (a b : string) :
  PyStr.reverse (a ++ b) = (PyStr.reverse b ++ PyStr.reverse a)%string.
Proof.
  unfold PyStr.reverse.
  rewrite list_ascii_of_string_app, rev_app_distr, string_of_list_ascii_app.
  reflexivity.
Qed.

Lemma endswith_skip (p pre s : string) :
  PyStr.endswith p s = true -> PyStr.endswith p (pre ++ s) = true.
Proof.
  unfold PyStr.endswith. intros H. rewrite reverse_app.
  apply startswith_app. exact H.
Qed.

Lemma lidia_links_loop_spec (hrefs : list string) :
  forall acc,
    NoDup acc ->
    NoDup (Lidia.links_loop hrefs acc)
    /\ forall u, In u (Lidia.links_loop hrefs acc) ->
                 In u acc \/ is_lidia_recipe_url u.
Proof.
  induction hrefs as [|h hrefs IH]; intros acc Hn; cbn [Lidia.links_loop].
  - split; [exact Hn | intros u H; left; exact H].
  - destruct (PyStr.contains "/recipes/" h && PyStr.endswith "/" h
              && (4 <=? PyStr.count_char "/" h)) eqn:E; [|apply IH; exact Hn].
    apply andb_true_iff in E. destruct E as [E _].
    apply andb_true_iff in E. destruct E as [E1 E2].
    set (u0 := if negb (PyStr.startswith "http" h)
               then ("https://lidiasitaly.com" ++ h)%string else h).
    assert (Hu0 : is_lidia_recipe_url u0).
    { subst u0. destruct (PyStr.startswith "http" h) eqn:E3; cbn [negb].
      - repeat split; assumption.
      - repeat split.
        + apply contains_skip. exact E1.
        + apply endswith_skip. exact E2. }
    destruct (existsb (String.eqb u0) acc) eqn:E4; [apply IH; exact Hn|].
    assert (Hnew : ~ In u0 acc).
    { intros H. apply existsb_eqb_In in H. congruence. }
    destruct (IH (acc ++ [u0])) as [Hd Hp].
    { apply NoDup_app; [exact Hn | repeat constructor; intros [] |].
      intros x Hx [<-|[]]. contradiction. }
    split; [exact Hd|]. intros u Hu. apply Hp in Hu.
    destruct Hu as [Hu|Hu]; [|right; exact Hu].
    apply in_app_or in Hu. destruct Hu as [Hu|[<-|[]]]; [left; exact Hu|].
    right. exact Hu0.
Qed.

Lemma NoDup_firstn {A : Type} (n : nat) (l : list A) :
  NoDup l -> NoDup (firstn n l).
Proof.
  intros H. rewrite <- (firstn_skipn n l) in H.
  apply NoDup_app_remove_r in H. exact H.
Qed.

Lemma In_firstn {A : Type} (n : nat) (l : list A) (x : A) :
  In x (firstn n l) -> In x l.
Proof.
  intros H. rewrite <- (firstn_skipn n l). apply in_or_app. left. exact H.
Qed.

Lemma fetch_recipe_urls_urls requests_get (category_url : string) (limit : nat)
    (w : World) :
  length (fst (Lidia.fetch_recipe_urls requests_get category_url limit w)) <= limit
  /\ NoDup (fst (Lidia.fetch_recipe_urls requests_get category_url limit w))
  /\ forall u, In u (fst (Lidia.fetch_recipe_urls requests_get category_url limit w)) ->
               is_lidia_recipe_url u.
Proof.
  unfold Lidia.fetch_recipe_urls. run.
  destruct (requests_get category_url (sent w)) as [ty msg|status soup];
    cbn [fst length].
  - split; [lia|]. split; [constructor | intros u []].
  - destruct (negb (status =? 200)%Z); cbn [fst length].
    + split; [lia|]. split; [constructor | intros u []].
    + destruct (lidia_links_loop_spec (Lidia.a_hrefs soup) [] (NoDup_nil _))
        as [Hd Hp].
      split; [apply firstn_le_length|]. split; [apply NoDup_firstn; exact Hd|].
      intros u Hu. apply In_firstn in Hu. apply Hp in Hu.
      destruct Hu as [[]|Hu]. exact Hu.
Qed.

(** X6. [fetch_recipe_urls] sends exactly one request and never
    sleeps. It returns at most [limit] URLs without duplicate, each
    containing ["/recipes/"], ending with ["/"] and starting with
    ["http"]; whenever the request raises or the status is not 200 it
    returns the empty list. *)
Theorem X6_fetch_recipe_urls :
  forall requests_get category_url limit w,
    let urls := fst (Lidia.fetch_recipe_urls requests_get category_url limit w) in
    snd (Lidia.fetch_recipe_urls requests_get category_url limit w)
    = mkWorld (S (sent w)) (minted w) (ticks w) (trace w ++ [Get category_url])
    /\ length urls <= limit
    /\ NoDup urls
    /\ (forall u, In u urls -> is_lidia_recipe_url u)
    /\ ((forall soup, requests_get category_url (sent w) <> Lidia.Response 200 soup) ->
        urls = []).
Proof.
  intros requests_get category_url limit w. cbv zeta.
  split; [apply fetch_recipe_urls_events|].
  destruct (fetch_recipe_urls_urls requests_get category_url limit w)
    as (Hl & Hd & Hp).
  split; [exact Hl|]. split; [exact Hd|]. split; [exact Hp|].
  unfold Lidia.fetch_recipe_urls. run. intros H.
  destruct (requests_get category_url (sent w)) as [ty msg|status soup];
    [reflexivity|].
  destruct (Z.eqb_spec status 200) as [->|Hs]; [|reflexivity].
  exfalso. apply (H soup). reflexivity.
Qed.

(** A category page answered with 404 yields no URL. *)
Lemma X6_fetch_recipe_urls_witness :
  fst (Lidia.fetch_recipe_urls category_not_found
         "https://lidiasitaly.com/recipes-categories/soups/" 10 world0) = [].
Proof.
  apply (X6_fetch_recipe_urls category_not_found
           "https://lidiasitaly.com/recipes-categories/soups/" 10 world0).
  intros soup H. discriminate H.
Defined.

Lemma unique_loop_fromkeys (all : list string) :
  forall seen unique,
    Lidia.unique_loop all seen unique = unique ++ PyStr.fromkeys_from seen all.
Proof.
  induction all as [|u all IH]; intros seen unique;
    cbn [Lidia.unique_loop PyStr.fromkeys_from].
  - rewrite app_nil_r. reflexivity.
  - destruct (existsb (String.eqb u) seen); cbn [negb]; rewrite IH; [reflexivity|].
    rewrite <- app_assoc. reflexivity.
Qed.

(** What the discovery loop gathers: it requests the first [k]
    category pages, takes at most ten URLs from each, and stops before
    the last page only once the target count is reached. *)
Lemma lidia_discover_loop_spec requests_get (category_urls : list string) :
  forall all w,
  exists k,
    k <= length category_urls
    /\ sent (snd (Lidia.discover_loop requests_get category_urls all w)) = sent w + k
    /\ length (fst (Lidia.discover_loop requests_get category_urls all w))
       <= length all + 10 * k
    /\ (k < length category_urls ->
        Lidia.TARGET_RECIPE_COUNT
        <= length (fst (Lidia.discover_loop requests_get category_urls all w)))
    /\ (forall u, In u (fst (Lidia.discover_loop requests_get category_urls all w)) ->
                  In u all \/ is_lidia_recipe_url u).
Proof.
  induction category_urls as [|c cats IH]; intros all w.
  - exists 0. cbn. repeat split; try lia. intros u H. left. exact H.
  - cbn [Lidia.discover_loop]. unfold bind.
    pose proof (fetch_recipe_urls_events requests_get c 10 w) as Hw.
    destruct (fetch_recipe_urls_urls requests_get c 10 w) as (Hl & _ & Hp).
    destruct (Lidia.fetch_recipe_urls requests_get c 10 w) as [l w1].
    cbn [fst snd] in *. subst w1. run.
    destruct (Nat.leb_spec Lidia.TARGET_RECIPE_COUNT (length (all ++ l)))
      as [Hge|Hlt].
    + exists 1. cbn [fst snd sent length]. rewrite length_app in *.
      split; [lia|]. split; [lia|]. split; [lia|]. split; [intros _; exact Hge|].
      intros u Hu. apply in_app_or in Hu. destruct Hu as [Hu|Hu]; [left; exact Hu|].
      right. apply Hp. exact Hu.
    + match goal with
      | |- context [Lidia.discover_loop requests_get cats ?a ?W] =>
          destruct (IH a W) as (k & Hk & Hs & Hlen & Htar & Hin)
      end.
      exists (S k). cbn [length sent] in *. rewrite length_app in Hlen.
      split; [lia|]. split; [lia|]. split; [lia|].
      split; [intros H; apply Htar; lia|].
      intros u Hu. apply Hin in Hu. destruct Hu as [Hu|Hu]; [|right; exact Hu].
      apply in_app_or in Hu. destruct Hu as [Hu|Hu]; [left; exact Hu|].
      right. apply Hp. exact Hu.
Qed.

(** X7. The list of recipe URLs a run of the heuristic pipeline goes
    on to scrape has no duplicate and at most 30 entries, and each
    entry contains ["/recipes/"], ends with ["/"] and starts with
    ["http"]. *)
Theorem X7_lidia_recipe_urls :
  forall requests_get w,
    let urls := Lidia.recipe_urls (fst (Lidia.main requests_get w)) in
    NoDup urls
    /\ length urls <= 30
    /\ forall u, In u urls -> is_lidia_recipe_url u.
Proof.
  intros requests_get w. cbv zeta. unfold Lidia.main, bind, ret.
  destruct (lidia_discover_loop_spec requests_get Lidia.CATEGORY_URLS [] w)
    as (k & _ & _ & _ & _ & Hin).
  destruct (Lidia.discover_loop requests_get Lidia.CATEGORY_URLS [] w) as [all w0].
  destruct (Lidia.scrape_loop requests_get _ 1 _ [] [] w0) as [[raws failed] w1].
  destruct (Lidia.transform_loop raws [] [] w1) as [[ts fails] w2].
  cbn [fst snd Lidia.recipe_urls] in *. rewrite unique_loop_fromkeys. cbn [app].
  split; [apply NoDup_firstn, fromkeys_from_NoDup|].
  split; [apply firstn_le_length|].
  intros u Hu. apply In_firstn in Hu. apply fromkeys_from_In in Hu.
  destruct Hu as [Hu _]. apply Hin in Hu. destruct Hu as [[]|Hu]. exact Hu.
Qed.

(** ** The number of requests of a run *)

Lemma call_events_attempts (url : string) (attempt : nat) (evs : list event) :
  call_events url attempt evs -> 1 <= attempts evs.
Proof.
  intros ((rest & ->) & _).
  change (attempts (Call url attempt :: Get url :: rest)) with (S (attempts rest)).
  lia.
Qed.

Lemma se_scrape_loop_sent scrape_me (items : list SeriousEats.RecipeInfo) :
  forall total i raws failed w,
  exists r,
    sent (snd (SeriousEats.scrape_loop scrape_me total i items raws failed w))
    = sent w + r
    /\ length items <= r <= 3 * length items.
Proof.
  induction items as [|info items IH]; intros total i raws failed w.
  - exists 0. simpl. lia.
  - cbn [SeriousEats.scrape_loop]. unfold bind.
    unfold SeriousEats.scrape_recipe, SeriousEats.scrape_recipe_upto.
    destruct (se_scrape_from_events scrape_me (SeriousEats.MAX_RETRIES - 1)
                (SeriousEats.ri_url info)
                (SeriousEats.mkMetadata (SeriousEats.ri_author info)
                   (SeriousEats.ri_category info) (SeriousEats.ri_notes info))
                1 w) as (evs & _ & Hs & Hc & Ha).
    apply call_events_attempts in Hc.
    destruct (SeriousEats.scrape_from scrape_me _ _ _ 1 w) as [r0 w1].
    cbn [snd] in Hs. change (S (SeriousEats.MAX_RETRIES - 1)) with 3 in Ha.
    destruct (i <? total); destruct r0 as [d|]; run;
      (edestruct IH as (r & Hr & Hb); rewrite Hr; cbn [sent length];
       exists (attempts evs + r); lia).
Qed.

Lemma requests_of_app (a b : list event) :
  requests_of (a ++ b) = requests_of a ++ requests_of b.
Proof.
  induction a as [|e a IH]; [reflexivity|].
  destruct e; cbn [app requests_of]; rewrite IH; reflexivity.
Qed.

Lemma requests_of_length (t : list event) :
  length (requests_of t) = attempts t.
Proof.
  unfold attempts. induction t as [|e t IH]; [reflexivity|].
  destruct e; cbn [requests_of filter is_get length]; rewrite ?IH; reflexivity.
Qed.

Lemma requests_of_category_events (category_urls : list string) :
  requests_of (category_events category_urls) = category_urls.
Proof.
  unfold category_events.
  induction category_urls as [|c cats IH]; [reflexivity|].
  cbn [flat_map app requests_of]. rewrite IH. reflexivity.
Qed.

Lemma lidia_scrape_from_requests requests_get (left : nat) :
  forall (url : string) (attempt : nat) (w : World),
  exists evs,
    trace (snd (Lidia.scrape_from requests_get left url attempt w))
      = trace w ++ evs
    /\ sent (snd (Lidia.scrape_from requests_get left url attempt w))
       = sent w + attempts evs
    /\ 1 <= attempts evs <= S left
    /\ requests_of evs = repeat url (attempts evs).
Proof.
  induction left as [|left IH]; intros url attempt w; simpl; run.
  - exists [Call url attempt; Get url; Return_].
    destruct (requests_get url (sent w)) as [ty msg|status soup]; simpl;
      [|destruct (negb (status =? 200)%Z); simpl;
        [|destruct (negb (truthy_opt _)); simpl]];
      rewrite <- !app_assoc;
      (split; [reflexivity
              | split; [unfold attempts; simpl; lia
                       | split; [unfold attempts; simpl; lia | reflexivity]]]).
  - destruct (requests_get url (sent w)) as [ty msg|status soup]; simpl;
      [|exists [Call url attempt; Get url; Return_];
        destruct (negb (status =? 200)%Z); simpl;
        [|destruct (negb (truthy_opt _)); simpl];
        rewrite <- !app_assoc;
        (split; [reflexivity
                | split; [unfold attempts; simpl; lia
                         | split; [unfold attempts; simpl; lia | reflexivity]]])].
    match goal with
    | |- context [Lidia.scrape_from ?f ?l ?u ?a ?W] =>
        destruct (IH u a W) as (inner & Ht & Hs & Ha & Hq);
        destruct (Lidia.scrape_from f l u a W) as [r w']
    end.
    cbn [snd trace sent] in *.
    exists (Call url attempt :: Get url
            :: Backoff (Lidia.RETRY_BACKOFF ^ Z.of_nat attempt)%Z
            :: inner ++ [Return_]).
    rewrite Ht, <- !app_assoc. split; [reflexivity|].
    change (attempts (Call url attempt :: Get url
                      :: Backoff (Lidia.RETRY_BACKOFF ^ Z.of_nat attempt)%Z
                      :: inner ++ [Return_]))
      with (S (attempts (inner ++ [Return_]))).
    rewrite attempts_app. change (attempts [Return_]) with 0.
    rewrite Nat.add_0_r. split; [lia|]. split; [lia|].
    cbn [requests_of repeat]. rewrite requests_of_app, Hq.
    cbn [requests_of]. rewrite List.app_nil_r. reflexivity.
Qed.

Lemma requests_per_url_length (urls : list string) :
  forall counts,
    length counts = length urls ->
    Forall (fun a => 1 <= a <= 3) counts ->
    length urls <= length (requests_per_url urls counts) <= 3 * length urls.
Proof.
  unfold requests_per_url.
  induction urls as [|u urls IH]; intros [|a counts] Hl Hf;
    try discriminate; [cbn; lia|].
  inversion Hf as [|? ? Ha Hf']; subst.
  cbn [combine flat_map fst snd length]. rewrite length_app, repeat_length.
  cbn [length] in Hl. specialize (IH counts ltac:(lia) Hf'). lia.
Qed.

Lemma lidia_scrape_loop_requests requests_get (urls : list string) :
  forall total i raws failed w,
  exists evs counts,
    trace (snd (Lidia.scrape_loop requests_get total i urls raws failed w))
      = trace w ++ evs
    /\ sent (snd (Lidia.scrape_loop requests_get total i urls raws failed w))
       = sent w + length (requests_of evs)
    /\ requests_of evs = requests_per_url urls counts
    /\ length counts = length urls
    /\ Forall (fun a => 1 <= a <= 3) counts.
Proof.
  induction urls as [|url urls IH]; intros total i raws failed w.
  - exists [], []. cbn. rewrite List.app_nil_r.
    repeat split; try lia. constructor.
  - cbn [Lidia.scrape_loop]. unfold bind.
    unfold Lidia.scrape_recipe, Lidia.scrape_recipe_upto.
    destruct (lidia_scrape_from_requests requests_get (Lidia.MAX_RETRIES - 1)
                url 1 w) as (evs & Ht & Hs & Ha & Hq).
    destruct (Lidia.scrape_from requests_get _ _ 1 w) as [r0 w1].
    cbn [snd] in Ht, Hs. change (S (Lidia.MAX_RETRIES - 1)) with 3 in Ha.
    destruct (i <? total); destruct r0 as [d|]; run;
      match goal with
      | |- context [Lidia.scrape_loop requests_get total (S i) urls ?r ?f ?W] =>
          destruct (IH total (S i) r f W) as (evs' & counts & Ht' & Hs' & Hq' & Hl & Hf);
          destruct (Lidia.scrape_loop requests_get total (S i) urls r f W)
            as [res w2]
      end;
      cbn [snd trace sent] in Ht', Hs' |- *;
      first [ exists (evs ++ RateLimit Lidia.RATE_LIMIT_SECONDS :: evs'),
                     (attempts evs :: counts);
              split; [rewrite Ht', Ht, <- !app_assoc; reflexivity|]
            | exists (evs ++ evs'), (attempts evs :: counts);
              split; [rewrite Ht', Ht, <- !app_assoc; reflexivity|] ];
      rewrite requests_of_app; cbn [requests_of];
      rewrite length_app, Hq', Hq, repeat_length;
      (split; [rewrite Hs', Hs, Hq'; lia|]);
      (split; [reflexivity|]);
      (split; [cbn [length]; lia | constructor; [lia | exact Hf]]).
Qed.

Lemma lidia_discover_loop_requests requests_get (category_urls : list string) :
  forall all w,
  exists k,
    k <= length category_urls
    /\ trace (snd (Lidia.discover_loop requests_get category_urls all w))
       = trace w ++ category_events (firstn k category_urls)
    /\ sent (snd (Lidia.discover_loop requests_get category_urls all w))
       = sent w + k
    /\ length (fst (Lidia.discover_loop requests_get category_urls all w))
       <= length all + 10 * k
    /\ (k < length category_urls ->
        Lidia.TARGET_RECIPE_COUNT
        <= length (fst (Lidia.discover_loop requests_get category_urls all w))).
Proof.
  induction category_urls as [|c cats IH]; intros all w.
  - exists 0. cbn. rewrite List.app_nil_r. repeat split; lia.
  - cbn [Lidia.discover_loop]. unfold bind.
    pose proof (fetch_recipe_urls_events requests_get c 10 w) as Hw.
    destruct (fetch_recipe_urls_urls requests_get c 10 w) as (Hl & _ & _).
    destruct (Lidia.fetch_recipe_urls requests_get c 10 w) as [l w1].
    cbn [fst snd] in *. subst w1. run.
    destruct (Nat.leb_spec Lidia.TARGET_RECIPE_COUNT (length (all ++ l)))
      as [Hge|Hlt].
    + exists 1. cbn [fst snd sent trace length firstn]. rewrite length_app in *.
      split; [lia|]. split.
      { unfold category_events. cbn [flat_map app].
        rewrite <- !app_assoc. reflexivity. }
      split; [lia|]. split; [lia|]. intros _; exact Hge.
    + match goal with
      | |- context [Lidia.discover_loop requests_get cats ?a ?W] =>
          destruct (IH a W) as (k & Hk & Ht & Hs & Hlen & Htar)
      end.
      exists (S k). cbn [length sent trace firstn] in *.
      rewrite length_app in Hlen.
      split; [lia|]. split.
      { rewrite Ht. unfold category_events. cbn [flat_map app].
        rewrite <- !app_assoc. reflexivity. }
      split; [lia|]. split; [lia|]. intros H; apply Htar; lia.
Qed.

(** X8. A run of the structured pipeline over [n] entries sends at
    least [n] and at most [3 n] requests. A run of the heuristic
    pipeline requests the first [k] category pages, [k] between three
    and six, and then, for each URL it scrapes in turn, sends between
    one and three requests for that URL; these are all the requests of
    the run, never more than 96 in all. *)
Theorem X8_request_budget :
  (forall scrape_me url_data w,
      exists r,
        sent (snd (SeriousEats.main scrape_me (SeriousEats.Loaded url_data) w))
        = sent w + r
        /\ length url_data <= r <= 3 * length url_data)
  /\ (forall requests_get w,
      exists k counts evs,
        trace (snd (Lidia.main requests_get w)) = trace w ++ evs
        /\ sent (snd (Lidia.main requests_get w))
           = sent w + length (requests_of evs)
        /\ requests_of evs
           = firstn k Lidia.CATEGORY_URLS
             ++ requests_per_url
                  (Lidia.recipe_urls (fst (Lidia.main requests_get w))) counts
        /\ 3 <= k <= 6
        /\ length counts
           = length (Lidia.recipe_urls (fst (Lidia.main requests_get w)))
        /\ Forall (fun a => 1 <= a <= 3) counts
        /\ length (requests_of evs) <= 96).
Proof.
  split.
  - intros scrape_me url_data w. unfold SeriousEats.main, bind, ret.
    destruct (se_scrape_loop_sent scrape_me url_data (length url_data) 1 [] [] w)
      as (r & Hr & Hb).
    destruct (SeriousEats.scrape_loop scrape_me (length url_data) 1 url_data [] [] w)
      as [[raws failed] w1].
    destruct (se_transform_loop_keeps raws [] [] w1) as (ts & _ & _ & _ & Hs).
    destruct (SeriousEats.transform_loop raws [] [] w1) as [[ts' fails] w2].
    cbn [fst snd] in *. exists r. split; [congruence | exact Hb].
  - intros requests_get w. unfold Lidia.main, bind, ret.
    destruct (lidia_discover_loop_requests requests_get Lidia.CATEGORY_URLS [] w)
      as (k & Hk & Hd & Hsk & Hlen & Htar).
    destruct (Lidia.discover_loop requests_get Lidia.CATEGORY_URLS [] w) as [all w0].
    remember (firstn Lidia.TARGET_RECIPE_COUNT (Lidia.unique_loop all [] [])) as urls
      eqn:Hu.
    assert (Hb30 : length urls <= 30) by (subst urls; apply firstn_le_length).
    clear Hu.
    destruct (lidia_scrape_loop_requests requests_get urls (length urls) 1 [] [] w0)
      as (evs & counts & Ht & Hr & Hq & Hl & Hf).
    destruct (Lidia.scrape_loop requests_get (length urls) 1 urls [] [] w0)
      as [[raws failed] w1].
    destruct (lidia_transform_loop_keeps raws [] [] w1) as (ts & _ & _ & Htr & Hs).
    destruct (Lidia.transform_loop raws [] [] w1) as [[ts' fails] w2].
    cbn [fst snd Lidia.recipe_urls length] in *.
    change (length Lidia.CATEGORY_URLS) with 6 in *.
    change Lidia.TARGET_RECIPE_COUNT with 30 in *.
    pose proof (requests_per_url_length urls counts Hl Hf) as Hb.
    assert (Hk3 : 3 <= k).
    { destruct (Nat.lt_ge_cases k 6) as [Hlt|Hge]; [|lia].
      specialize (Htar Hlt). lia. }
    assert (Hkl : length (firstn k Lidia.CATEGORY_URLS) = k).
    { rewrite length_firstn. change (length Lidia.CATEGORY_URLS) with 6. lia. }
    exists k, counts, (category_events (firstn k Lidia.CATEGORY_URLS) ++ evs).
    rewrite requests_of_app, requests_of_category_events, length_app, Hkl, Hq.
    split; [rewrite Htr, Ht, Hd, <- app_assoc; reflexivity|].
    split; [rewrite Hs, Hr, Hsk, Hq; lia|].
    split; [reflexivity|]. split; [lia|]. split; [exact Hl|].
    split; [exact Hf | lia].
Qed.

(** ** The retry logic in general *)

Lemma se_scrape_from_schedule scrape_me (left : nat) :
  forall (url : string) (md : SeriousEats.Metadata) (attempt : nat) (w : World),
  exists evs,
    trace (snd (SeriousEats.scrape_from scrape_me left url md attempt w))
      = trace w ++ evs
    /\ 1 <= attempts evs <= S left
    /\ waits evs
       = map (fun k => (SeriousEats.RETRY_BACKOFF ^ Z.of_nat (attempt + k))%Z)
           (seq 0 (attempts evs - 1)).
Proof.
  induction left as [|left IH]; intros url md attempt w; simpl; run.
  - exists [Call url attempt; Get url; Return_].
    destruct (scrape_me url (sent w)) as [ty msg|s]; simpl;
      [destruct (_ || _); simpl|]; rewrite <- !app_assoc;
      (split; [reflexivity | split; [unfold attempts; simpl; lia | reflexivity]]).
  - destruct (scrape_me url (sent w)) as [ty msg|s]; simpl;
      [destruct (_ || _); simpl|].
    1,3: exists [Call url attempt; Get url; Return_]; rewrite <- !app_assoc;
      (split; [reflexivity | split; [unfold attempts; simpl; lia | reflexivity]]).
    match goal with
    | |- context [SeriousEats.scrape_from ?f ?l ?u ?m ?a ?W] =>
        destruct (IH u m a W) as (inner & Ht & Ha & Hw);
        destruct (SeriousEats.scrape_from f l u m a W) as [r w']
    end.
    cbn [snd trace] in *.
    exists (Call url attempt :: Get url
            :: Backoff (SeriousEats.RETRY_BACKOFF ^ Z.of_nat attempt)%Z
            :: inner ++ [Return_]).
    rewrite Ht, <- !app_assoc. split; [reflexivity|].
    change (attempts (Call url attempt :: Get url
                      :: Backoff (SeriousEats.RETRY_BACKOFF ^ Z.of_nat attempt)%Z
                      :: inner ++ [Return_]))
      with (S (attempts (inner ++ [Return_]))).
    rewrite attempts_app. change (attempts [Return_]) with 0.
    rewrite Nat.add_0_r. split; [lia|].
    cbn [waits]. rewrite waits_app, Hw. cbn [waits]. rewrite app_nil_r.
    replace (S (attempts inner) - 1) with (S (attempts inner - 1)) by lia.
    cbn [seq map]. rewrite Nat.add_0_r. f_equal.
    rewrite <- seq_shift, map_map. apply map_ext. intros k.
    replace (S attempt + k) with (attempt + S k) by lia. reflexivity.
Qed.

Lemma lidia_scrape_from_schedule requests_get (left : nat) :
  forall (url : string) (attempt : nat) (w : World),
  exists evs,
    trace (snd (Lidia.scrape_from requests_get left url attempt w))
      = trace w ++ evs
    /\ 1 <= attempts evs <= S left
    /\ waits evs
       = map (fun k => (Lidia.RETRY_BACKOFF ^ Z.of_nat (attempt + k))%Z)
           (seq 0 (attempts evs - 1)).
Proof.
  induction left as [|left IH]; intros url attempt w; simpl; run.
  - exists [Call url attempt; Get url; Return_].
    destruct (requests_get url (sent w)) as [ty msg|status soup]; simpl;
      [|destruct (negb (status =? 200)%Z); simpl;
        [|destruct (negb (truthy_opt _)); simpl]];
      rewrite <- !app_assoc;
      (split; [reflexivity | split; [unfold attempts; simpl; lia | reflexivity]]).
  - destruct (requests_get url (sent w)) as [ty msg|status soup]; simpl;
      [|exists [Call url attempt; Get url; Return_];
        destruct (negb (status =? 200)%Z); simpl;
        [|destruct (negb (truthy_opt _)); simpl];
        rewrite <- !app_assoc;
        (split; [reflexivity | split; [unfold attempts; simpl; lia | reflexivity]])].
    match goal with
    | |- context [Lidia.scrape_from ?f ?l ?u ?a ?W] =>
        destruct (IH u a W) as (inner & Ht & Ha & Hw);
        destruct (Lidia.scrape_from f l u a W) as [r w']
    end.
    cbn [snd trace] in *.
    exists (Call url attempt :: Get url
            :: Backoff (Lidia.RETRY_BACKOFF ^ Z.of_nat attempt)%Z
            :: inner ++ [Return_]).
    rewrite Ht, <- !app_assoc. split; [reflexivity|].
    change (attempts (Call url attempt :: Get url
                      :: Backoff (Lidia.RETRY_BACKOFF ^ Z.of_nat attempt)%Z
                      :: inner ++ [Return_]))
      with (S (attempts (inner ++ [Return_]))).
    rewrite attempts_app. change (attempts [Return_]) with 0.
    rewrite Nat.add_0_r. split; [lia|].
    cbn [waits]. rewrite waits_app, Hw. cbn [waits]. rewrite app_nil_r.
    replace (S (attempts inner) - 1) with (S (attempts inner - 1)) by lia.
    cbn [seq map]. rewrite Nat.add_0_r. f_equal.
    rewrite <- seq_shift, map_map. apply map_ext. intros k.
    replace (S attempt + k) with (attempt + S k) by lia. reflexivity.
Qed.

(** X9. Whatever the network does, one call of [scrape_recipe] of
    either pipeline sends between one and three requests, and the
    waits between them are 2 and then 4 seconds: no wait after one
    request, 2 after two, 2 and 4 after three. *)
Theorem X9_backoff_schedule :
  (forall scrape_me url md w,
      exists evs,
        trace (snd (SeriousEats.scrape_recipe scrape_me url md 1 w)) = trace w ++ evs
        /\ 1 <= attempts evs <= 3
        /\ waits evs = firstn (attempts evs - 1) [2; 4]%Z)
  /\ (forall requests_get url w,
      exists evs,
        trace (snd (Lidia.scrape_recipe requests_get url 1 w)) = trace w ++ evs
        /\ 1 <= attempts evs <= 3
        /\ waits evs = firstn (attempts evs - 1) [2; 4]%Z).
Proof.
  split.
  - intros scrape_me url md w.
    unfold SeriousEats.scrape_recipe, SeriousEats.scrape_recipe_upto.
    destruct (se_scrape_from_schedule scrape_me (SeriousEats.MAX_RETRIES - 1)
                url md 1 w) as (evs & Ht & Ha & Hw).
    change (S (SeriousEats.MAX_RETRIES - 1)) with 3 in Ha.
    exists evs. split; [exact Ht|]. split; [exact Ha|]. rewrite Hw.
    assert (Hc : attempts evs = 1 \/ attempts evs = 2 \/ attempts evs = 3) by lia.
    destruct Hc as [Hc | [Hc | Hc]]; rewrite Hc; reflexivity.
  - intros requests_get url w.
    unfold Lidia.scrape_recipe, Lidia.scrape_recipe_upto.
    destruct (lidia_scrape_from_schedule requests_get (Lidia.MAX_RETRIES - 1)
                url 1 w) as (evs & Ht & Ha & Hw).
    change (S (Lidia.MAX_RETRIES - 1)) with 3 in Ha.
    exists evs. split; [exact Ht|]. split; [exact Ha|]. rewrite Hw.
    assert (Hc : attempts evs = 1 \/ attempts evs = 2 \/ attempts evs = 3) by lia.
    destruct Hc as [Hc | [Hc | Hc]]; rewrite Hc; reflexivity.
Qed.

(** The call ends on the first attempt whose outcome is decisive. *)
Lemma se_first_decisive scrape_me (j : nat) :
  forall (left : nat) (url : string) (md : SeriousEats.Metadata) (attempt : nat)
         (w : World) (o : SeriousEats.Outcome),
    j <= left ->
    (forall k, k < j ->
       exists ty msg, scrape_me url (sent w + k) = SeriousEats.Raises ty msg
                      /\ not_found_message msg = false) ->
    scrape_me url (sent w + j) = o ->
    se_decisive o = true ->
    exists evs,
      fst (SeriousEats.scrape_from scrape_me left url md attempt w)
      = se_result_of url md (ticks w) o
      /\ trace (snd (SeriousEats.scrape_from scrape_me left url md attempt w))
         = trace w ++ evs
      /\ attempts evs = S j
      /\ waits evs
         = map (fun k => (SeriousEats.RETRY_BACKOFF ^ Z.of_nat (attempt + k))%Z)
             (seq 0 j).
Proof.
  unfold not_found_message, se_decisive.
  induction j as [|j IH]; intros left url md attempt w o Hj Ht Ho Hd.
  - rewrite Nat.add_0_r in Ho.
    exists [Call url attempt; Get url; Return_].
    destruct left; simpl; run; rewrite Ho; destruct o as [ty msg|s];
      try (unfold not_found_message in Hd; rewrite Hd); simpl;
      rewrite <- !app_assoc; repeat split.
  - destruct left as [|left]; [lia|]. simpl; run.
    destruct (Ht 0 (Nat.lt_0_succ j)) as (ty & msg & H0 & Hm).
    rewrite Nat.add_0_r in H0. rewrite H0, Hm.
    match goal with
    | |- context [SeriousEats.scrape_from ?f ?l ?u ?m ?a ?W] =>
        destruct (IH l u m a W o) as (inner & Hr & Htr & Ha & Hw);
        [lia | | | exact Hd
         | destruct (SeriousEats.scrape_from f l u m a W) as [r w']]
    end.
    + intros k Hk. cbn [sent]. replace (S (sent w) + k) with (sent w + S k) by lia.
      apply Ht. lia.
    + cbn [sent]. replace (S (sent w) + j) with (sent w + S j) by lia. exact Ho.
    + cbn [fst snd trace ticks] in *.
      exists (Call url attempt :: Get url
              :: Backoff (SeriousEats.RETRY_BACKOFF ^ Z.of_nat attempt)%Z
              :: inner ++ [Return_]).
      rewrite Htr, <- !app_assoc. split; [exact Hr|]. split; [reflexivity|].
      split.
      * change (attempts (Call url attempt :: Get url
                          :: Backoff (SeriousEats.RETRY_BACKOFF ^ Z.of_nat attempt)%Z
                          :: inner ++ [Return_]))
          with (S (attempts (inner ++ [Return_]))).
        rewrite attempts_app, Ha. change (attempts [Return_]) with 0. lia.
      * cbn [waits]. rewrite waits_app, Hw. cbn [waits]. rewrite app_nil_r.
        cbn [seq map]. rewrite Nat.add_0_r. f_equal.
        rewrite <- seq_shift, map_map. apply map_ext. intros k.
        replace (S attempt + k) with (attempt + S k) by lia. reflexivity.
Qed.

(** X10. For every cap, a call of [scrape_recipe] of the structured
    pipeline ends on the first attempt that is scraped or fails with a
    not-found message: after [j] transient failures, [j] below the cap,
    it has sent [j + 1] requests and slept 2, 4, ..., [2 ^ j] seconds,
    and it returns the record scraped on that attempt, or nothing when
    that attempt was not found. *)
Theorem X10_stops_at_first_decisive_attempt :
  forall scrape_me max_retries url md w j o,
    j < max_retries ->
    (forall k, k < j ->
       exists ty msg, scrape_me url (sent w + k) = SeriousEats.Raises ty msg
                      /\ not_found_message msg = false) ->
    scrape_me url (sent w + j) = o ->
    se_decisive o = true ->
    exists evs,
      fst (SeriousEats.scrape_recipe_upto scrape_me max_retries url md 1 w)
      = se_result_of url md (ticks w) o
      /\ trace (snd (SeriousEats.scrape_recipe_upto scrape_me max_retries url md 1 w))
         = trace w ++ evs
      /\ attempts evs = j + 1
      /\ waits evs = backoff_schedule (j + 1).
Proof.
  intros scrape_me max_retries url md w j o Hj Ht Ho Hd.
  unfold SeriousEats.scrape_recipe_upto.
  destruct (se_first_decisive scrape_me j (max_retries - 1) url md 1 w o)
    as (evs & Hr & Htr & Ha & Hw); try assumption; [lia|].
  exists evs. split; [exact Hr|]. split; [exact Htr|]. split; [lia|].
  rewrite Hw. unfold backoff_schedule. replace (j + 1 - 1) with j by lia.
  reflexivity.
Qed.

(** With a cap of five, three time-outs and then the page: four
    requests, waits of 2, 4 and 8 seconds. *)
Lemma X10_stops_at_first_decisive_attempt_witness :
  exists evs,
    fst (SeriousEats.scrape_recipe_upto se_very_flaky 5 se_u1 no_metadata 1 world0)
    = se_result_of se_u1 no_metadata (ticks world0)
        (SeriousEats.Scraped pizza_scraper)
    /\ trace (snd (SeriousEats.scrape_recipe_upto se_very_flaky 5 se_u1 no_metadata
                     1 world0)) = trace world0 ++ evs
    /\ attempts evs = 3 + 1
    /\ waits evs = backoff_schedule (3 + 1).
Proof.
  apply (X10_stops_at_first_decisive_attempt se_very_flaky 5 se_u1 no_metadata
           world0 3 (SeriousEats.Scraped pizza_scraper)).
  - lia.
  - intros k Hk. exists "ReadTimeout", "Read timed out.".
    destruct k as [|[|[|k]]]; [split; reflexivity ..|lia].
  - reflexivity.
  - reflexivity.
Defined.

(** ** What a run keeps of its items *)

Lemma se_scrape_from_url scrape_me (left : nat) :
  forall url md attempt w raw,
    fst (SeriousEats.scrape_from scrape_me left url md attempt w) = Some raw ->
    SeriousEats.url raw = url /\ SeriousEats.metadata raw = md.
Proof.
  induction left as [|left IH]; intros url md attempt w raw; simpl; run;
    destruct (scrape_me url (sent w)) as [ty msg|s]; simpl;
    try (destruct (_ || _); simpl); try discriminate;
    try (intros H; injection H as <-; split; reflexivity).
  match goal with
  | |- context [SeriousEats.scrape_from ?f ?l ?u ?m ?a ?W] =>
      specialize (IH u m a W raw);
      destruct (SeriousEats.scrape_from f l u m a W) as [r w']
  end.
  exact IH.
Qed.

Lemma lidia_scrape_from_url requests_get (left : nat) :
  forall url attempt w raw,
    fst (Lidia.scrape_from requests_get left url attempt w) = Some raw ->
    Lidia.url raw = url.
Proof.
  induction left as [|left IH]; intros url attempt w raw; simpl; run;
    destruct (requests_get url (sent w)) as [ty msg|status soup]; simpl;
    try (destruct (negb (status =? 200)%Z); simpl;
         [|destruct (negb (truthy_opt _)); simpl]);
    try discriminate;
    try (intros H; injection H as <-; reflexivity).
  match goal with
  | |- context [Lidia.scrape_from ?f ?l ?u ?a ?W] =>
      specialize (IH u a W raw);
      destruct (Lidia.scrape_from f l u a W) as [r w']
  end.
  exact IH.
Qed.

Lemma se_scrape_loop_partition scrape_me (items : list SeriousEats.RecipeInfo) :
  forall total i raws failed w,
  exists new_raws new_failed,
    fst (SeriousEats.scrape_loop scrape_me total i items raws failed w)
    = (raws ++ new_raws, failed ++ new_failed)
    /\ Permutation (map SeriousEats.url new_raws ++ new_failed)
         (map SeriousEats.ri_url items).
Proof.
  induction items as [|info items IH]; intros total i raws failed w.
  - exists [], []. simpl. rewrite !app_nil_r. split; [reflexivity | constructor].
  - cbn [SeriousEats.scrape_loop]. unfold bind.
    unfold SeriousEats.scrape_recipe, SeriousEats.scrape_recipe_upto.
    pose proof (se_scrape_from_url scrape_me (SeriousEats.MAX_RETRIES - 1)
                  (SeriousEats.ri_url info)
                  (SeriousEats.mkMetadata (SeriousEats.ri_author info)
                     (SeriousEats.ri_category info) (SeriousEats.ri_notes info))
                  1 w) as Hu.
    destruct (SeriousEats.scrape_from scrape_me _ _ _ 1 w) as [[d|] w1];
      cbn [fst] in Hu;
      destruct (if i <? total then _ else _) as [[] w2].
    + edestruct IH as (nr & nf & Hr & Hp). rewrite Hr.
      exists (d :: nr), nf. rewrite <- app_assoc.
      split; [reflexivity|]. cbn [map app].
      destruct (Hu d eq_refl) as [-> _]. constructor. exact Hp.
    + edestruct IH as (nr & nf & Hr & Hp). rewrite Hr.
      exists nr, (SeriousEats.ri_url info :: nf). rewrite <- app_assoc.
      split; [reflexivity|]. cbn [map].
      apply Permutation_sym, Permutation_cons_app, Permutation_sym. exact Hp.
Qed.

Lemma lidia_scrape_loop_partition requests_get (urls : list string) :
  forall total i raws failed w,
  exists new_raws new_failed,
    fst (Lidia.scrape_loop requests_get total i urls raws failed w)
    = (raws ++ new_raws, failed ++ new_failed)
    /\ Permutation (map Lidia.url new_raws ++ new_failed) urls.
Proof.
  induction urls as [|url urls IH]; intros total i raws failed w.
  - exists [], []. simpl. rewrite !app_nil_r. split; [reflexivity | constructor].
  - cbn [Lidia.scrape_loop]. unfold bind.
    unfold Lidia.scrape_recipe, Lidia.scrape_recipe_upto.
    pose proof (lidia_scrape_from_url requests_get (Lidia.MAX_RETRIES - 1) url 1 w)
      as Hu.
    destruct (Lidia.scrape_from requests_get _ _ 1 w) as [[d|] w1];
      cbn [fst] in Hu;
      destruct (if i <? total then _ else _) as [[] w2].
    + edestruct IH as (nr & nf & Hr & Hp). rewrite Hr.
      exists (d :: nr), nf. rewrite <- app_assoc.
      split; [reflexivity|]. cbn [map app].
      rewrite (Hu d eq_refl). constructor. exact Hp.
    + edestruct IH as (nr & nf & Hr & Hp). rewrite Hr.
      exists nr, (url :: nf). rewrite <- app_assoc.
      split; [reflexivity|].
      apply Permutation_sym, Permutation_cons_app, Permutation_sym. exact Hp.
Qed.

(** X11. Every URL a run goes through ends in exactly one of two
    places: as the URL of a record of the raw snapshot, or in the list
    of failed URLs. Taken together, the URLs of the raw records and the
    failed URLs are the URLs of the run, each as many times as it was
    given. *)
Theorem X11_scraped_or_failed :
  (forall scrape_me url_data w,
      exists raws,
        SeriousEats.raw_snapshot
          (fst (SeriousEats.main scrape_me (SeriousEats.Loaded url_data) w))
        = Some raws
        /\ Permutation
             (map SeriousEats.url raws
              ++ SeriousEats.failed
                   (fst (SeriousEats.main scrape_me (SeriousEats.Loaded url_data) w)))
             (map SeriousEats.ri_url url_data))
  /\ (forall requests_get w,
      Permutation
        (map Lidia.url (Lidia.raw_snapshot (fst (Lidia.main requests_get w)))
         ++ Lidia.failed (fst (Lidia.main requests_get w)))
        (Lidia.recipe_urls (fst (Lidia.main requests_get w)))).
Proof.
  split.
  - intros scrape_me url_data w. unfold SeriousEats.main, bind, ret.
    destruct (se_scrape_loop_partition scrape_me url_data (length url_data) 1 [] [] w)
      as (nr & nf & Hr & Hp).
    destruct (SeriousEats.scrape_loop scrape_me (length url_data) 1 url_data [] [] w)
      as [[raws failed] w1].
    destruct (SeriousEats.transform_loop raws [] [] w1) as [[ts fails] w2].
    cbn [fst snd app] in *. injection Hr as -> ->.
    exists nr. split; [reflexivity | exact Hp].
  - intros requests_get w. unfold Lidia.main, bind, ret.
    destruct (Lidia.discover_loop requests_get Lidia.CATEGORY_URLS [] w) as [all w0].
    remember (firstn Lidia.TARGET_RECIPE_COUNT (Lidia.unique_loop all [] [])) as urls
      eqn:Hu.
    clear Hu.
    destruct (lidia_scrape_loop_partition requests_get urls (length urls) 1 [] [] w0)
      as (nr & nf & Hr & Hp).
    destruct (Lidia.scrape_loop requests_get (length urls) 1 urls [] [] w0)
      as [[raws failed] w1].
    destruct (Lidia.transform_loop raws [] [] w1) as [[ts fails] w2].
    cbn [fst snd app] in *. injection Hr as -> ->. exact Hp.
Qed.

Lemma se_transform_loop_failures (raws : list SeriousEats.RawData) :
  forall acc fails w,
  exists ts,
    fst (SeriousEats.transform_loop raws acc fails w)
    = (acc ++ ts, fails ++ flat_map se_failure_of ts)
    /\ Forall (fun t =>
                 SeriousEats.r_validation_issues t
                 = if fst (SeriousEats.validate_recipe t) then None
                   else Some (snd (SeriousEats.validate_recipe t))) ts.
Proof.
  induction raws as [|raw raws IH]; intros acc fails w.
  - exists []. simpl. rewrite !app_nil_r. split; [reflexivity | constructor].
  - cbn [SeriousEats.transform_loop]. unfold bind.
    destruct (SeriousEats.transform_to_schema raw w) as [t0 w1] eqn:E.
    assert (Hn : SeriousEats.r_validation_issues t0 = None).
    { unfold SeriousEats.transform_to_schema in E. revert E. run.
      intros E. injection E as <- _. reflexivity. }
    destruct (SeriousEats.validate_recipe t0) as [[|] iss] eqn:V; cbv iota beta.
    + destruct (IH (acc ++ [t0]) fails w1) as (ts & Hr & Hf).
      exists (t0 :: ts). rewrite Hr, <- app_assoc. cbn [flat_map].
      unfold se_failure_of at 2. rewrite Hn. split; [reflexivity|].
      constructor; [rewrite V; exact Hn | exact Hf].
    + edestruct IH as (ts & Hr & Hf). rewrite Hr.
      exists (SeriousEats.set_validation_issues t0 iss :: ts).
      rewrite <- !app_assoc. split; [reflexivity|].
      constructor; [|exact Hf].
      change (SeriousEats.validate_recipe (SeriousEats.set_validation_issues t0 iss))
        with (SeriousEats.validate_recipe t0).
      rewrite V. reflexivity.
Qed.

Lemma lidia_transform_loop_failures (raws : list Lidia.RawData) :
  forall acc fails w,
  exists ts,
    fst (Lidia.transform_loop raws acc fails w)
    = (acc ++ ts, fails ++ flat_map lidia_failure_of ts)
    /\ Forall (fun t =>
                 Lidia.r_validation_issues t
                 = if fst (Lidia.validate_recipe t) then None
                   else Some (snd (Lidia.validate_recipe t))) ts.
Proof.
  induction raws as [|raw raws IH]; intros acc fails w.
  - exists []. simpl. rewrite !app_nil_r. split; [reflexivity | constructor].
  - cbn [Lidia.transform_loop]. unfold bind.
    destruct (Lidia.transform_to_schema raw w) as [t0 w1] eqn:E.
    assert (Hn : Lidia.r_validation_issues t0 = None).
    { unfold Lidia.transform_to_schema in E. revert E. run.
      intros E. injection E as <- _. reflexivity. }
    destruct (Lidia.validate_recipe t0) as [[|] iss] eqn:V; cbv iota beta.
    + destruct (IH (acc ++ [t0]) fails w1) as (ts & Hr & Hf).
      exists (t0 :: ts). rewrite Hr, <- app_assoc. cbn [flat_map].
      unfold lidia_failure_of at 2. rewrite Hn. split; [reflexivity|].
      constructor; [rewrite V; exact Hn | exact Hf].
    + edestruct IH as (ts & Hr & Hf). rewrite Hr.
      exists (Lidia.set_validation_issues t0 iss :: ts).
      rewrite <- !app_assoc. split; [reflexivity|].
      constructor; [|exact Hf].
      change (Lidia.validate_recipe (Lidia.set_validation_issues t0 iss))
        with (Lidia.validate_recipe t0).
      rewrite V. reflexivity.
Qed.

(** X12. In the transformed snapshot the issues stored in a record
    are what [validate_recipe] reports for that very record: a record
    without stored issues is valid, a record with stored issues is not,
    and the stored list is the reported one. The list
    [validation_failures] holds, in order, one entry (name, source,
    issues) for each record that stores issues, and nothing else. *)
Theorem X12_stored_issues_are_the_reported_ones :
  (forall scrape_me url_data w,
      exists ts,
        SeriousEats.transformed_snapshot
          (fst (SeriousEats.main scrape_me (SeriousEats.Loaded url_data) w)) = Some ts
        /\ SeriousEats.validation_failures
             (fst (SeriousEats.main scrape_me (SeriousEats.Loaded url_data) w))
           = flat_map se_failure_of ts
        /\ Forall (fun t =>
                     SeriousEats.r_validation_issues t
                     = if fst (SeriousEats.validate_recipe t) then None
                       else Some (snd (SeriousEats.validate_recipe t))) ts)
  /\ (forall requests_get w,
      let run := fst (Lidia.main requests_get w) in
      Lidia.validation_failures run
      = flat_map lidia_failure_of (Lidia.transformed_snapshot run)
      /\ Forall (fun t =>
                   Lidia.r_validation_issues t
                   = if fst (Lidia.validate_recipe t) then None
                     else Some (snd (Lidia.validate_recipe t)))
           (Lidia.transformed_snapshot run)).
Proof.
  split.
  - intros scrape_me url_data w. unfold SeriousEats.main, bind, ret.
    destruct (SeriousEats.scrape_loop scrape_me (length url_data) 1 url_data [] [] w)
      as [[raws failed] w1].
    destruct (se_transform_loop_failures raws [] [] w1) as (ts & Hr & Hf).
    destruct (SeriousEats.transform_loop raws [] [] w1) as [[ts' fails] w2].
    cbn [fst snd app] in *. injection Hr as -> ->.
    exists ts. repeat split. exact Hf.
  - intros requests_get w. cbv zeta. unfold Lidia.main, bind, ret.
    destruct (Lidia.discover_loop requests_get Lidia.CATEGORY_URLS [] w) as [all w0].
    destruct (Lidia.scrape_loop requests_get _ 1 _ [] [] w0) as [[raws failed] w1].
    destruct (lidia_transform_loop_failures raws [] [] w1) as (ts & Hr & Hf).
    destruct (Lidia.transform_loop raws [] [] w1) as [[ts' fails] w2].
    cbn [fst snd app Lidia.validation_failures Lidia.transformed_snapshot] in *.
    injection Hr as -> ->. split; [reflexivity | exact Hf].
Qed.

(** X13. Transformation followed by validation accepts a raw record
    exactly when: in the heuristic source, its title and URL are not
    empty, it has at least three ingredients and its instructions have
    at least 50 characters; in the structured source, its title and URL
    are not empty, it has an ingredient and an image, and its
    instructions, once white space is squeezed and stripped, have at
    least 50 characters. *)
Theorem X13_which_raw_records_are_valid :
  (forall (raw : Lidia.RawData) w,
      fst (Lidia.validate_recipe (fst (Lidia.transform_to_schema raw w))) = true
      <-> Lidia.title raw <> ""
          /\ 3 <= length (Lidia.ingredients raw)
          /\ 50 <= String.length (Lidia.instructions raw)
          /\ Lidia.url raw <> "")
  /\ (forall (raw : SeriousEats.RawData) w,
      fst (SeriousEats.validate_recipe (fst (SeriousEats.transform_to_schema raw w)))
      = true
      <-> SeriousEats.title raw <> ""
          /\ SeriousEats.ingredients raw <> []
          /\ 50 <= String.length
                     (SeriousEats.parse_instructions (SeriousEats.instructions raw))
          /\ truthy_opt (SeriousEats.image raw) = true
          /\ SeriousEats.url raw <> "").
Proof.
  split.
  - intros [url t title author descr st ingr instr notes imgs cuisine] w.
    unfold Lidia.transform_to_schema. run.
    unfold Lidia.validate_recipe, truthy, json_loads.
    cbn [fst Lidia.r_name Lidia.r_ingredients Lidia.r_instructions Lidia.r_source
         Lidia.title Lidia.ingredients Lidia.instructions Lidia.url].
    destruct title as [|a1 title]; cbn [String.eqb negb];
      (destruct ingr as [|i1 ingr]; cbn [orb length Nat.eqb];
       [ | destruct (Nat.ltb_spec (S (length ingr)) 3) ]);
      (destruct instr as [|a2 instr]; cbn [String.eqb negb];
       [ | destruct (Nat.ltb_spec (String.length (String a2 instr)) 50) ]);
      destruct url as [|a3 url]; cbn [String.eqb negb app length Nat.eqb];
      cbn [String.length] in *;
      intuition (try discriminate; try congruence; try lia).
  - intros [url md t title author descr prep cook total yields ingr instr image
              cuisine category ratings] w.
    unfold SeriousEats.transform_to_schema. run.
    unfold SeriousEats.validate_recipe, truthy, json_loads.
    cbn [fst SeriousEats.r_name SeriousEats.r_ingredients SeriousEats.r_instructions
         SeriousEats.r_images SeriousEats.r_source
         SeriousEats.title SeriousEats.ingredients SeriousEats.instructions
         SeriousEats.image SeriousEats.url].
    generalize (SeriousEats.parse_instructions instr). intros pinstr.
    destruct title as [|a1 title]; cbn [String.eqb negb];
      destruct ingr as [|i1 ingr]; cbn [orb length Nat.eqb];
      (destruct pinstr as [|a2 pinstr]; cbn [String.eqb negb];
       [ | destruct (Nat.ltb_spec (String.length (String a2 pinstr)) 50) ]);
      (destruct image as [[|a4 image]|];
       cbn [truthy_opt truthy String.eqb negb app orb length Nat.eqb]);
      destruct url as [|a3 url]; cbn [String.eqb negb app length Nat.eqb];
      cbn [String.length] in *;
      intuition (try discriminate; try congruence; try lia).
Qed.

(** ** What a scraped record of the heuristic source always holds *)

Lemma length_append (a b : string) :
  String.length (a ++ b) = String.length a + String.length b.
Proof. induction a as [|c a IH]; [reflexivity|]. simpl. rewrite IH. reflexivity. Qed.

Lemma join_length_head (sep p : string) (rest : list string) :
  String.length p <= String.length (PyStr.join sep (p :: rest)).
Proof.
  destruct rest as [|q rest]; cbn [PyStr.join]; [lia|].
  rewrite length_append. lia.
Qed.

Lemma contains_of_startswith (b s : string) :
  PyStr.startswith b s = true -> PyStr.contains b s = true.
Proof. intros H. destruct s; cbn [PyStr.contains]; rewrite H; reflexivity. Qed.

Lemma startswith_needle_prefix (a b : string) :
  forall s, PyStr.startswith (a ++ b) s = true -> PyStr.startswith a s = true.
Proof.
  induction a as [|c a IH]; intros s H; [reflexivity|].
  destruct s as [|d s]; [discriminate|]. cbn [append PyStr.startswith] in *.
  apply andb_true_iff in H. destruct H as [H1 H2].
  rewrite H1, (IH s H2). reflexivity.
Qed.

Lemma startswith_needle_suffix (a b : string) :
  forall s, PyStr.startswith (a ++ b) s = true -> PyStr.contains b s = true.
Proof.
  induction a as [|c a IH]; intros s H; [apply contains_of_startswith; exact H|].
  destruct s as [|d s]; [discriminate|]. cbn [append PyStr.startswith] in H.
  apply andb_true_iff in H. destruct H as [_ H].
  cbn [PyStr.contains]. rewrite (IH s H). apply orb_true_r.
Qed.

(** A text that contains a needle contains every part of it. *)
Lemma contains_needle_part (a b c s : string) :
  PyStr.contains (a ++ b ++ c) s = true -> PyStr.contains b s = true.
Proof.
  induction s as [|d s IH]; cbn [PyStr.contains]; intros H.
  - rewrite orb_false_r in H. apply startswith_needle_suffix in H.
    cbn [PyStr.contains] in H. rewrite orb_false_r in H.
    rewrite (startswith_needle_prefix b c _ H). reflexivity.
  - apply orb_true_iff in H. destruct H as [H|H].
    + apply startswith_needle_suffix in H.
      cbn [PyStr.contains] in H. apply orb_true_iff in H.
      destruct H as [H|H].
      * rewrite (startswith_needle_prefix b c _ H). reflexivity.
      * assert (Hb : PyStr.contains b s = true).
        { clear -H. induction s as [|e s IHs]; cbn [PyStr.contains] in *.
          - rewrite orb_false_r in *.
            exact (startswith_needle_prefix b c _ H).
          - apply orb_true_iff in H. destruct H as [H|H].
            + rewrite (startswith_needle_prefix b c _ H). reflexivity.
            + rewrite (IHs H). apply orb_true_r. }
        rewrite Hb. apply orb_true_r.
    + rewrite (IH H). apply orb_true_r.
Qed.

Lemma images_loop_spec (images : list (option string * option string)) :
  forall acc,
    NoDup acc ->
    NoDup (Lidia.images_loop images acc)
    /\ forall u, In u (Lidia.images_loop images acc) ->
         In u acc
         \/ (PyStr.contains "upload" (PyStr.lower u) = true
             /\ PyStr.any_in ["logo"; "icon"; "button"] (PyStr.lower u) = false).
Proof.
  induction images as [|[src_attr data_src] images IH]; intros acc Hn;
    cbn [Lidia.images_loop].
  - split; [exact Hn | intros u H; left; exact H].
  - set (src := if truthy_opt src_attr
                then match src_attr with Some s => s | None => "" end
                else match data_src with Some s => s | None => "" end).
    destruct (truthy src
              && PyStr.any_in ["upload"; "wp-content/uploads"] (PyStr.lower src)
              && negb (PyStr.any_in ["logo"; "icon"; "button"] (PyStr.lower src)))
      eqn:E; [|apply IH; exact Hn].
    apply andb_true_iff in E. destruct E as [E E3].
    apply andb_true_iff in E. destruct E as [_ E2].
    apply negb_true_iff in E3.
    assert (Hup : PyStr.contains "upload" (PyStr.lower src) = true).
    { unfold PyStr.any_in in E2. cbn [existsb] in E2.
      rewrite orb_false_r in E2. apply orb_true_iff in E2.
      destruct E2 as [E2|E2]; [exact E2|].
      apply (contains_needle_part "wp-content/" "upload" "s"). exact E2. }
    destruct (existsb (String.eqb src) acc) eqn:E4; [apply IH; exact Hn|].
    assert (Hnew : ~ In src acc).
    { intros H. apply existsb_eqb_In in H. congruence. }
    destruct (IH (acc ++ [src])) as [Hd Hp].
    { apply NoDup_app; [exact Hn | repeat constructor; intros [] |].
      intros x Hx [<-|[]]. contradiction. }
    split; [exact Hd|]. intros u Hu. apply Hp in Hu.
    destruct Hu as [Hu|Hu]; [|right; exact Hu].
    apply in_app_or in Hu. destruct Hu as [Hu|[<-|[]]]; [left; exact Hu|].
    right. split; assumption.
Qed.

Lemma lidia_scrape_from_some requests_get (left : nat) :
  forall url attempt w raw,
    fst (Lidia.scrape_from requests_get left url attempt w) = Some raw ->
    exists soup text t,
      Lidia.h1 soup = Some text
      /\ truthy (PyStr.strip text) = true
      /\ raw = Lidia.mkRawData url t (PyStr.strip text) "Lidia Bastianich"
                 (Lidia.extract_notes soup)
                 (match Lidia.servings_h3 soup with
                  | Some s => Some (PyStr.strip s)
                  | None => None
                  end)
                 (Lidia.extract_ingredients soup)
                 (Lidia.extract_instructions soup)
                 (Lidia.extract_notes soup)
                 (Lidia.images_loop (Lidia.imgs soup) [])
                 "Italian".
Proof.
  induction left as [|left IH]; intros url attempt w raw; simpl; run;
    destruct (requests_get url (sent w)) as [ty msg|status soup]; simpl;
    try discriminate.
  - destruct (negb (status =? 200)%Z); simpl; [discriminate|].
    destruct (Lidia.h1 soup) as [text|] eqn:Eh; cbn [truthy_opt negb];
      [|discriminate].
    destruct (truthy (PyStr.strip text)) eqn:Et; cbn [negb fst]; [|discriminate].
    intros H. injection H as <-. exists soup, text, (ticks w).
    repeat split; assumption.
  - match goal with
    | |- context [Lidia.scrape_from ?f ?l ?u ?a ?W] =>
        specialize (IH u a W raw);
        destruct (Lidia.scrape_from f l u a W) as [r w']
    end.
    exact IH.
  - destruct (negb (status =? 200)%Z); simpl; [discriminate|].
    destruct (Lidia.h1 soup) as [text|] eqn:Eh; cbn [truthy_opt negb];
      [|discriminate].
    destruct (truthy (PyStr.strip text)) eqn:Et; cbn [negb fst]; [|discriminate].
    intros H. injection H as <-. exists soup, text, (ticks w).
    repeat split; assumption.
Qed.

(** X14. Whatever the page, a record returned by [scrape_recipe] of
    the heuristic pipeline carries the URL it was asked for and a
    non-empty title; its author is Lidia Bastianich, its cuisine
    Italian and its description its notes; none of its ingredients is
    empty; its instructions are empty or longer than 20 characters; its
    images have no duplicate, and each of them mentions [upload] and
    none of [logo], [icon], [button], whatever the case of the
    letters. *)
Theorem X14_scraped_record_invariants :
  forall requests_get url attempt w raw,
    fst (Lidia.scrape_recipe requests_get url attempt w) = Some raw ->
    Lidia.url raw = url
    /\ Lidia.title raw <> ""
    /\ Lidia.author raw = "Lidia Bastianich"
    /\ Lidia.cuisine raw = "Italian"
    /\ Lidia.description raw = Lidia.notes raw
    /\ Forall (fun i => i <> "") (Lidia.ingredients raw)
    /\ (Lidia.instructions raw = "" \/ 20 < String.length (Lidia.instructions raw))
    /\ NoDup (Lidia.images raw)
    /\ (forall img, In img (Lidia.images raw) ->
          PyStr.contains "upload" (PyStr.lower img) = true
          /\ PyStr.contains "logo" (PyStr.lower img) = false
          /\ PyStr.contains "icon" (PyStr.lower img) = false
          /\ PyStr.contains "button" (PyStr.lower img) = false).
Proof.
  intros requests_get url attempt w raw H.
  unfold Lidia.scrape_recipe, Lidia.scrape_recipe_upto in H.
  apply lidia_scrape_from_some in H.
  destruct H as (soup & text & t & Hh & Ht & ->).
  cbn [Lidia.url Lidia.title Lidia.author Lidia.cuisine Lidia.description
       Lidia.notes Lidia.ingredients Lidia.instructions Lidia.images].
  split; [reflexivity|]. split.
  { intros E. rewrite E in Ht. discriminate. }
  split; [reflexivity|]. split; [reflexivity|]. split; [reflexivity|]. split.
  { unfold Lidia.extract_ingredients.
    destruct (Lidia.ingredients_h2 soup) as [[items|]|]; try constructor.
    apply Forall_forall. intros i Hi. apply filter_In in Hi.
    destruct Hi as [_ Hi]. intros ->. discriminate. }
  split.
  { unfold Lidia.extract_instructions.
    destruct (Lidia.directions_h2 soup) as [[ps|]|]; try (left; reflexivity).
    rewrite paragraphs_loop_filter. cbn [app].
    destruct (filter Lidia.keeps (map PyStr.strip ps)) as [|p rest] eqn:Ef;
      [left; reflexivity|].
    right. assert (Hp : In p (filter Lidia.keeps (map PyStr.strip ps)))
      by (rewrite Ef; left; reflexivity).
    apply filter_In in Hp. destruct Hp as [_ Hp]. apply keeps_spec in Hp.
    pose proof (join_length_head Lidia.blank_line p rest). lia. }
  destruct (images_loop_spec (Lidia.imgs soup) [] (NoDup_nil _)) as [Hd Hp].
  split; [exact Hd|]. intros img Hi. apply Hp in Hi.
  destruct Hi as [[]|[Hu Hn]]. split; [exact Hu|].
  unfold PyStr.any_in in Hn. cbn [existsb] in Hn.
  rewrite orb_false_r in Hn. apply orb_false_iff in Hn. destruct Hn as [H1 Hn].
  apply orb_false_iff in Hn. tauto.
Qed.

(** The sample page, reached after two connection failures. *)
Lemma X14_scraped_record_invariants_witness :
  exists raw,
    fst (Lidia.scrape_recipe lidia_flaky lidia_u3 1 world0) = Some raw
    /\ Lidia.url raw = lidia_u3
    /\ Lidia.title raw <> ""
    /\ Lidia.author raw = "Lidia Bastianich"
    /\ Lidia.cuisine raw = "Italian"
    /\ Lidia.description raw = Lidia.notes raw
    /\ Forall (fun i => i <> "") (Lidia.ingredients raw)
    /\ (Lidia.instructions raw = "" \/ 20 < String.length (Lidia.instructions raw))
    /\ NoDup (Lidia.images raw)
    /\ (forall img, In img (Lidia.images raw) ->
          PyStr.contains "upload" (PyStr.lower img) = true
          /\ PyStr.contains "logo" (PyStr.lower img) = false
          /\ PyStr.contains "icon" (PyStr.lower img) = false
          /\ PyStr.contains "button" (PyStr.lower img) = false).
Proof.
  eexists. split; [vm_compute; reflexivity|].
  apply (X14_scraped_record_invariants lidia_flaky lidia_u3 1 world0).
  vm_compute. reflexivity.
Defined.

(** ** Reading the servings *)

Lemma digit_run_nonneg (s : string) :
  forall acc, (0 <= acc)%Z -> (0 <= PyStr.digit_run acc s)%Z.
Proof.
  induction s as [|c s IH]; intros acc Ha; cbn [PyStr.digit_run]; [exact Ha|].
  destruct (PyStr.isdigit c); [|exact Ha]. apply IH. lia.
Qed.

Lemma search_int_spec (s : string) :
  (PyStr.search_int s = None <-> digit_free s)
  /\ (forall n, PyStr.search_int s = Some n -> (0 <= n)%Z).
Proof.
  unfold digit_free. induction s as [|c s [IH1 IH2]]; cbn [PyStr.search_int].
  - split; [|discriminate]. split; [intros _ c [] | reflexivity].
  - destruct (PyStr.isdigit c) eqn:E.
    + split.
      * split; [discriminate|]. intros H. specialize (H c (or_introl eq_refl)).
        congruence.
      * intros n H. injection H as <-. rewrite ?E.
        apply digit_run_nonneg. lia.
    + split; [|exact IH2]. rewrite IH1. cbn [list_ascii_of_string In]. split.
      * intros H d [<-|Hd]; [exact E | apply H; exact Hd].
      * intros H d Hd. apply H. right. exact Hd.
Qed.

(** X15. [parse_servings] of either pipeline returns nothing exactly
    when the text is absent or holds no digit (the empty text
    included), and a number it returns is never negative. *)
Theorem X15_parse_servings_none :
  forall text : option string,
    (SeriousEats.parse_servings text = None
     <-> match text with None => True | Some s => digit_free s end)
    /\ (forall n, SeriousEats.parse_servings text = Some n -> (0 <= n)%Z)
    /\ Lidia.parse_servings text = SeriousEats.parse_servings text.
Proof.
  intros [s|]; cbn [SeriousEats.parse_servings Lidia.parse_servings].
  - destruct (search_int_spec s) as [H1 H2].
    destruct s as [|c s]; cbn [truthy String.eqb negb].
    + split; [|split; [discriminate | reflexivity]].
      split; [intros _ c [] | reflexivity].
    + split; [exact H1|]. split; [exact H2 | reflexivity].
  - split; [tauto|]. split; [discriminate | reflexivity].
Qed.

Lemma digit_run_decimal (post : string) (d : Decimal.uint) :
  no_leading_digit post ->
  forall acc,
    PyStr.digit_run (Z.of_nat acc) (NilEmpty.string_of_uint d ++ post)
    = Z.of_nat (Nat.of_uint_acc d acc).
Proof.
  intros Hp. induction d as [|d IH|d IH|d IH|d IH|d IH|d IH|d IH|d IH|d IH|d IH];
    intros acc;
    cbn [NilEmpty.string_of_uint append Nat.of_uint_acc];
    try (cbn [PyStr.digit_run]; change (PyStr.isdigit _) with true; cbv iota;
         rewrite <- IH, Nat.tail_mul_spec; f_equal;
         cbn [N_of_ascii N_of_digits]; lia).
  destruct post as [|c post]; cbn [PyStr.digit_run]; [reflexivity|].
  cbn [no_leading_digit] in Hp. rewrite Hp. reflexivity.
Qed.

Lemma to_uint_not_nil (n : nat) : Nat.to_uint n <> Decimal.Nil.
Proof.
  rewrite DecimalNat.Unsigned.to_uint_alt. intros H. apply DecimalFacts.rev_nil_inv in H.
  destruct n as [|n]; [discriminate|].
  rewrite DecimalNat.Unsigned.to_lu_succ in H.
  destruct (DecimalNat.Unsigned.to_lu n); discriminate.
Qed.

Lemma search_int_skip (pre s : string) :
  digit_free pre -> PyStr.search_int (pre ++ s) = PyStr.search_int s.
Proof.
  unfold digit_free. induction pre as [|c pre IH]; intros H; [reflexivity|].
  cbn [append PyStr.search_int]. rewrite (H c (or_introl eq_refl)).
  apply IH. intros d Hd. apply H. right. exact Hd.
Qed.

(** X16. [parse_servings] reads back a number written in decimal: for
    a text made of a part without digit, then [str(n)], then a part
    that does not begin with a digit, it returns [n], whatever follows. *)
Theorem X16_parse_servings_reads_decimal :
  forall (pre post : string) (n : nat),
    digit_free pre ->
    no_leading_digit post ->
    SeriousEats.parse_servings (Some (pre ++ Lidia.str_of_nat n ++ post)%string)
    = Some (Z.of_nat n)
    /\ Lidia.parse_servings (Some (pre ++ Lidia.str_of_nat n ++ post)%string)
       = Some (Z.of_nat n).
Proof.
  intros pre post n Hpre Hpost.
  assert (H : PyStr.search_int (pre ++ Lidia.str_of_nat n ++ post)%string
              = Some (Z.of_nat n)).
  { rewrite search_int_skip by exact Hpre. unfold Lidia.str_of_nat.
    pose proof (to_uint_not_nil n) as Hn.
    pose proof (digit_run_decimal post (Nat.to_uint n) Hpost 0) as Hd.
    change (Z.of_nat 0) with 0%Z in Hd.
    fold (Nat.of_uint (Nat.to_uint n)) in Hd. rewrite DecimalNat.Unsigned.of_to in Hd.
    destruct (Nat.to_uint n) as [|d|d|d|d|d|d|d|d|d|d]; [contradiction|..];
      cbn [NilEmpty.string_of_uint append PyStr.search_int] in *;
      change (PyStr.isdigit _) with true; cbv iota; rewrite Hd; reflexivity. }
  assert (Ht : truthy (pre ++ Lidia.str_of_nat n ++ post)%string = true).
  { unfold truthy. destruct (pre ++ Lidia.str_of_nat n ++ post)%string eqn:E;
      [|reflexivity].
    cbn in H. discriminate H. }
  cbn [SeriousEats.parse_servings Lidia.parse_servings]. rewrite Ht, H.
  split; reflexivity.
Qed.

(** ["Serves 6 to 8"] is read as 6, and ["Makes 12 cookies"] as 12. *)
Lemma X16_parse_servings_reads_decimal_witness :
  (SeriousEats.parse_servings (Some ("Serves " ++ Lidia.str_of_nat 6 ++ " to 8")%string)
   = Some (Z.of_nat 6)
   /\ Lidia.parse_servings (Some ("Serves " ++ Lidia.str_of_nat 6 ++ " to 8")%string)
      = Some (Z.of_nat 6))
  /\ ("Serves " ++ Lidia.str_of_nat 6 ++ " to 8")%string = "Serves 6 to 8".
Proof.
  split; [|reflexivity].
  apply (X16_parse_servings_reads_decimal "Serves " " to 8" 6).
  - intros c Hc. cbn in Hc.
    repeat (destruct Hc as [<-|Hc]; [reflexivity|]). contradiction.
  - reflexivity.
Defined.

(** ** Cleaning the instructions *)

Lemma squeeze_tidy (s : string) :
  forall b, tidy b (PyStr.squeeze b s) = true.
Proof.
  induction s as [|c s IH]; intros b; cbn [PyStr.squeeze]; [reflexivity|].
  destruct (PyStr.isspace c) eqn:E.
  - destruct b; [apply IH|]. cbn [tidy].
    change (PyStr.isspace " ") with true. cbv iota. rewrite IH. reflexivity.
  - cbn [tidy]. rewrite E. apply IH.
Qed.

Lemma tidy_fixed (s : string) :
  forall b, tidy b s = true -> PyStr.squeeze b s = s.
Proof.
  induction s as [|c s IH]; intros b H; cbn [PyStr.squeeze tidy] in *;
    [reflexivity|].
  destruct (PyStr.isspace c).
  - apply andb_true_iff in H. destruct H as [H H2].
    apply andb_true_iff in H. destruct H as [H0 H1].
    apply negb_true_iff in H1. subst b. apply Ascii.eqb_eq in H0. subst c.
    rewrite (IH true H2). reflexivity.
  - rewrite (IH false H). reflexivity.
Qed.

Lemma tidy_weaken (s : string) : tidy true s = true -> tidy false s = true.
Proof.
  destruct s as [|c s]; cbn [tidy]; [reflexivity|].
  destruct (PyStr.isspace c); [|exact (fun H => H)].
  rewrite andb_false_r. discriminate.
Qed.

Lemma tidy_suffix (a s : string) :
  forall b, tidy b (a ++ s) = true -> tidy false s = true.
Proof.
  induction a as [|c a IH]; intros b H; cbn [append tidy] in H.
  - destruct b; [apply tidy_weaken|]; exact H.
  - destruct (PyStr.isspace c).
    + apply andb_true_iff in H. destruct H as [_ H]. exact (IH true H).
    + exact (IH false H).
Qed.

Lemma tidy_prefix (a s : string) :
  forall b, tidy b (a ++ s) = true -> tidy b a = true.
Proof.
  induction a as [|c a IH]; intros b H; cbn [append tidy] in *; [reflexivity|].
  destruct (PyStr.isspace c).
  - apply andb_true_iff in H. destruct H as [H H2]. rewrite H, (IH true H2).
    reflexivity.
  - exact (IH false H).
Qed.

Lemma tidy_spaces (s : string) :
  forall b, tidy b s = true ->
    (forall c, In c (list_ascii_of_string s) -> PyStr.isspace c = true ->
               c = " "%char)
    /\ PyStr.contains "  " s = false.
Proof.
  induction s as [|c s IH]; intros b H.
  - split; [intros c [] | reflexivity].
  - cbn [tidy] in H. destruct (PyStr.isspace c) eqn:E.
    + apply andb_true_iff in H. destruct H as [H H2].
      apply andb_true_iff in H. destruct H as [H0 _].
      apply Ascii.eqb_eq in H0. subst c.
      destruct (IH true H2) as [I1 I2]. split.
      * intros d [<-|Hd] Hs; [reflexivity | apply I1; assumption].
      * cbn [PyStr.contains]. rewrite I2, orb_false_r.
        destruct s as [|d s]; [reflexivity|]. cbn [PyStr.startswith].
        cbn [tidy] in H2. destruct (PyStr.isspace d) eqn:Ed.
        -- rewrite andb_false_r in H2. discriminate.
        -- destruct (Ascii.eqb_spec " " d) as [<-|Hn]; [discriminate|].
           reflexivity.
    + destruct (IH false H) as [I1 I2]. split.
      * intros d [<-|Hd] Hs; [congruence | apply I1; assumption].
      * cbn [PyStr.contains]. rewrite I2, orb_false_r. cbn [PyStr.startswith].
        destruct (Ascii.eqb_spec " " c) as [<-|Hn]; [discriminate|].
        reflexivity.
Qed.

(** [lstrip] cuts a run of white space off the front. *)
Lemma lstrip_split (s : string) :
  exists pre,
    s = (pre ++ PyStr.lstrip s)%string
    /\ ink pre = []
    /\ PyStr.lstrip (PyStr.lstrip s) = PyStr.lstrip s.
Proof.
  induction s as [|c s (pre & Hs & Hp & Hl)]; cbn [PyStr.lstrip].
  - exists "". repeat split.
  - destruct (PyStr.isspace c) eqn:E.
    + exists (String c pre). cbn [append]. rewrite <- Hs.
      split; [reflexivity|]. split; [|exact Hl].
      unfold ink. cbn [list_ascii_of_string filter]. rewrite E. exact Hp.
    + exists "". split; [reflexivity|]. split; [reflexivity|].
      cbn [PyStr.lstrip]. rewrite E. reflexivity.
Qed.

Lemma reverse_involutive (s : string) : PyStr.reverse (PyStr.reverse s) = s.
Proof.
  unfold PyStr.reverse.
  rewrite list_ascii_of_string_of_list_ascii, rev_involutive.
  apply string_of_list_ascii_of_string.
Qed.

Lemma ink_app (a b : string) : ink (a ++ b) = ink a ++ ink b.
Proof. unfold ink. rewrite list_ascii_of_string_app, filter_app. reflexivity. Qed.

Lemma ink_reverse (s : string) : ink (PyStr.reverse s) = rev (ink s).
Proof.
  unfold ink, PyStr.reverse. rewrite list_ascii_of_string_of_list_ascii.
  induction (list_ascii_of_string s) as [|c l IH]; [reflexivity|].
  cbn [rev filter]. rewrite filter_app, IH. cbn [filter].
  destruct (negb (PyStr.isspace c)); cbn [rev]; [reflexivity|].
  rewrite List.app_nil_r. reflexivity.
Qed.

(** [rstrip] cuts a run of white space off the back. *)
Lemma rstrip_split (s : string) :
  exists post,
    s = (PyStr.rstrip s ++ post)%string
    /\ ink post = []
    /\ PyStr.rstrip (PyStr.rstrip s) = PyStr.rstrip s.
Proof.
  unfold PyStr.rstrip.
  destruct (lstrip_split (PyStr.reverse s)) as (pre & Hs & Hp & Hl).
  exists (PyStr.reverse pre). split; [|split].
  - rewrite <- reverse_app, <- Hs, reverse_involutive. reflexivity.
  - rewrite ink_reverse, Hp. reflexivity.
  - rewrite reverse_involutive, Hl. reflexivity.
Qed.

Lemma lstrip_fixed (s : string) :
  PyStr.startswith " " s = false ->
  (forall c, In c (list_ascii_of_string s) -> PyStr.isspace c = true ->
             c = " "%char) ->
  PyStr.lstrip s = s.
Proof.
  destruct s as [|c s]; [reflexivity|]. cbn [PyStr.startswith PyStr.lstrip].
  intros H1 H2. destruct (PyStr.isspace c) eqn:E; [|reflexivity].
  rewrite (H2 c (or_introl eq_refl) E) in H1. discriminate.
Qed.

Lemma lstrip_no_space (s : string) :
  PyStr.startswith " " (PyStr.lstrip s) = false.
Proof.
  induction s as [|c s IH]; [reflexivity|]. cbn [PyStr.lstrip].
  destruct (PyStr.isspace c) eqn:E; [exact IH|]. cbn [PyStr.startswith].
  destruct (Ascii.eqb_spec " " c) as [<-|Hn]; [discriminate | reflexivity].
Qed.

Lemma startswith_prefix_of (p a b : string) :
  PyStr.startswith p (a ++ b) = false ->
  PyStr.startswith p a = false.
Proof.
  intros H. destruct (PyStr.startswith p a) eqn:E; [|reflexivity].
  rewrite (startswith_app p a b E) in H. discriminate.
Qed.

(** X17. The instructions [parse_instructions] returns are in normal
    form: their only white-space characters are single spaces, no two
    of them adjacent, and none at either end. Cleaning instructions
    that are already clean changes nothing. *)
Theorem X17_parse_instructions_normal_form :
  forall s : string,
    let r := SeriousEats.parse_instructions s in
    (forall c, In c (list_ascii_of_string r) -> PyStr.isspace c = true ->
               c = " "%char)
    /\ PyStr.contains "  " r = false
    /\ PyStr.startswith " " r = false
    /\ PyStr.endswith " " r = false
    /\ SeriousEats.parse_instructions r = r.
Proof.
  intros s. cbv zeta. unfold SeriousEats.parse_instructions.
  destruct (truthy s); [|repeat split; intros c []].
  set (q := PyStr.squeeze false s).
  assert (Hq : tidy false q = true) by apply squeeze_tidy.
  unfold PyStr.strip.
  destruct (lstrip_split q) as (pre & Hs & _ & _).
  destruct (rstrip_split (PyStr.lstrip q)) as (post & Hr & _ & Hrr).
  set (r := PyStr.rstrip (PyStr.lstrip q)) in *.
  assert (Ht : tidy false r = true).
  { rewrite Hs in Hq. apply tidy_suffix in Hq. rewrite Hr in Hq.
    apply tidy_prefix in Hq. exact Hq. }
  destruct (tidy_spaces r false Ht) as [H1 H2].
  assert (H3 : PyStr.startswith " " r = false).
  { apply (startswith_prefix_of " " r post). rewrite <- Hr.
    apply lstrip_no_space. }
  assert (H4 : PyStr.endswith " " r = false).
  { unfold PyStr.endswith. change (PyStr.reverse " ") with " ".
    subst r. unfold PyStr.rstrip. rewrite reverse_involutive.
    apply lstrip_no_space. }
  split; [exact H1|]. split; [exact H2|]. split; [exact H3|]. split; [exact H4|].
  destruct r as [|c r']; [reflexivity|]. cbn [truthy String.eqb negb].
  rewrite (tidy_fixed _ false Ht), (lstrip_fixed _ H3 H1). exact Hrr.
Qed.

Lemma ink_squeeze (s : string) :
  forall b, ink (PyStr.squeeze b s) = ink s.
Proof.
  unfold ink. induction s as [|c s IH]; intros b; cbn [PyStr.squeeze];
    [reflexivity|].
  cbn [list_ascii_of_string filter]. destruct (PyStr.isspace c) eqn:E.
  - cbn [negb]. destruct b; [apply IH|].
    cbn [list_ascii_of_string filter].
    change (PyStr.isspace " ") with true. cbn [negb]. apply IH.
  - cbn [list_ascii_of_string filter]. rewrite E. cbn [negb]. f_equal.
    apply IH.
Qed.

Lemma ink_strip (s : string) : ink (PyStr.strip s) = ink s.
Proof.
  unfold PyStr.strip.
  destruct (lstrip_split s) as (pre & Hs & Hp & _).
  destruct (rstrip_split (PyStr.lstrip s)) as (post & Hr & Hq & _).
  rewrite Hs at 2. rewrite ink_app, Hp. cbn [app].
  rewrite Hr at 2. rewrite ink_app, Hq, List.app_nil_r. reflexivity.
Qed.

Lemma squeeze_length (s : string) :
  forall b, String.length (PyStr.squeeze b s) <= String.length s.
Proof.
  induction s as [|c s IH]; intros b; cbn [PyStr.squeeze String.length];
    [lia|].
  destruct (PyStr.isspace c); [destruct b|]; cbn [String.length];
    [pose proof (IH true) | pose proof (IH true) | pose proof (IH false)]; lia.
Qed.

Lemma strip_length (s : string) :
  String.length (PyStr.strip s) <= String.length s.
Proof.
  unfold PyStr.strip.
  destruct (lstrip_split s) as (pre & Hs & _ & _).
  destruct (rstrip_split (PyStr.lstrip s)) as (post & Hr & _ & _).
  rewrite Hs at 2. rewrite length_append. rewrite Hr at 2.
  rewrite length_append. lia.
Qed.

(** X18. [parse_instructions] touches white space only: the characters
    that are not white space come out unchanged and in order, the text never
    grows, and the result is empty exactly when the input holds nothing but
    white space. *)
Theorem X18_parse_instructions_keeps_the_text :
  forall s : string,
    let r := SeriousEats.parse_instructions s in
    ink r = ink s
    /\ String.length r <= String.length s
    /\ (r = "" <-> ink s = []).
Proof.
  intros s. cbv zeta.
  assert (Hi : ink (SeriousEats.parse_instructions s) = ink s).
  { unfold SeriousEats.parse_instructions. destruct s as [|c s]; [reflexivity|].
    cbn [truthy String.eqb negb]. rewrite ink_strip. apply ink_squeeze. }
  split; [exact Hi|]. split.
  - unfold SeriousEats.parse_instructions. destruct (truthy s); [|cbn; lia].
    etransitivity; [apply strip_length | apply squeeze_length].
  - rewrite <- Hi. split; [intros ->; reflexivity|].
    unfold SeriousEats.parse_instructions.
    destruct (truthy s); [|reflexivity].
    set (q := PyStr.squeeze false s).
    assert (Hq : tidy false q = true) by apply squeeze_tidy.
    unfold PyStr.strip.
    destruct (lstrip_split q) as (pre & Hs & _ & _).
    destruct (rstrip_split (PyStr.lstrip q)) as (post & Hr & _ & _).
    set (r := PyStr.rstrip (PyStr.lstrip q)) in *.
    assert (Ht : tidy false r = true).
    { rewrite Hs in Hq. apply tidy_suffix in Hq. rewrite Hr in Hq.
      apply tidy_prefix in Hq. exact Hq. }
    assert (H3 : PyStr.startswith " " r = false).
    { apply (startswith_prefix_of " " r post). rewrite <- Hr.
      apply lstrip_no_space. }
    destruct r as [|c r']; [reflexivity|]. intros H. exfalso.
    unfold ink in H. cbn [list_ascii_of_string filter] in H.
    cbn [tidy] in Ht. destruct (PyStr.isspace c); [|discriminate H].
    apply andb_true_iff in Ht. destruct Ht as [Ht _].
    apply andb_true_iff in Ht. destruct Ht as [Ht _].
    apply Ascii.eqb_eq in Ht. subst c. discriminate H3.
Qed.

(** ** Writing the list of a chef's recipes *)

Lemma string_app_assoc (a b c : string) :
  ((a ++ b) ++ c = a ++ (b ++ c))%string.
Proof. induction a as [|x a IH]; cbn [append]; [|rewrite IH]; reflexivity. Qed.

Lemma string_app_nil_r (a : string) : (a ++ "")%string = a.
Proof. induction a as [|x a IH]; cbn [append]; [|rewrite IH]; reflexivity. Qed.

Lemma contains_char_app (c : ascii) (a b : string) :
  PyStr.contains (String c "") (a ++ b)
  = PyStr.contains (String c "") a || PyStr.contains (String c "") b.
Proof.
  induction a as [|x a IH]; cbn [append].
  - reflexivity.
  - cbn [PyStr.contains PyStr.startswith]. rewrite IH.
    destruct (Ascii.eqb c x); cbn [andb orb]; [reflexivity|].
    destruct a; reflexivity.
Qed.

Lemma last_part_spec (s : string) :
  forall part,
    PyStr.contains "/" part = false ->
    after_last_slash (part ++ s) (FoodAndWine.last_part "/" part s).
Proof.
  unfold after_last_slash.
  induction s as [|c s IH]; intros part Hp; cbn [FoodAndWine.last_part].
  - rewrite string_app_nil_r. split; [exact Hp | left; reflexivity].
  - destruct (Ascii.eqb_spec c "/") as [->|Hc].
    + destruct (IH "" eq_refl) as [H1 H2]. split; [exact H1|]. right.
      cbn [append] in H2. destruct H2 as [H2 | [pre H2]].
      * exists part. rewrite <- H2. reflexivity.
      * exists (part ++ "/" ++ pre)%string. rewrite H2 at 1.
        rewrite !string_app_assoc. reflexivity.
    + assert (Hp' : PyStr.contains "/" (part ++ String c "") = false).
      { rewrite contains_char_app, Hp.
        cbn [PyStr.contains PyStr.startswith orb].
        destruct (Ascii.eqb_spec "/" c) as [<-|_]; [contradiction|reflexivity]. }
      destruct (IH _ Hp') as [H1 H2]. split; [exact H1|].
      rewrite string_app_assoc in H2. exact H2.
Qed.

Lemma entries_loop_spec urlparse_path chef_name chef_url (urls : list string) :
  forall i acc,
    FoodAndWine.entries_loop urlparse_path chef_name chef_url i urls acc
    = acc ++ map (fun p =>
                    FoodAndWine.mkEntry (snd p)
                      (FoodAndWine.last_part "/" "" (urlparse_path (snd p)))
                      chef_name "Food & Wine" chef_url (fst p))
               (combine (seq i (length urls)) urls).
Proof.
  induction urls as [|u urls IH]; intros i acc; cbn [FoodAndWine.entries_loop].
  - cbn. rewrite List.app_nil_r. reflexivity.
  - rewrite IH, <- app_assoc. reflexivity.
Qed.

Lemma map_combine_fst {A B} (l : list A) (l' : list B) :
  length l = length l' -> map fst (combine l l') = l.
Proof.
  revert l'. induction l as [|a l IH]; intros [|b l'] H; try discriminate;
    [reflexivity|]. cbn. f_equal. apply IH. cbn in H. lia.
Qed.

Lemma map_combine_snd {A B} (l : list A) (l' : list B) :
  length l = length l' -> map snd (combine l l') = l'.
Proof.
  revert l'. induction l as [|a l IH]; intros [|b l'] H; try discriminate;
    [reflexivity|]. cbn. f_equal. apply IH. cbn in H. lia.
Qed.

Lemma extract_sent requests_get urljoin chef_url max_pages w :
  sent w
  <= sent (snd (FoodAndWine.extract_recipe_urls requests_get urljoin chef_url
                  max_pages w))
  <= sent w + max_pages.
Proof.
  unfold FoodAndWine.extract_recipe_urls, bind, ret.
  pose proof (walk_sent requests_get urljoin (max_pages + 1 - 1) chef_url 1 [] w)
    as Hs.
  pose proof (page_flags_length requests_get urljoin (max_pages + 1 - 1)
                chef_url 1 (sent w)) as Hl.
  destruct (FoodAndWine.walk requests_get urljoin (max_pages + 1 - 1) chef_url 1 [] w)
    as [all w'].
  cbn [fst snd] in *. lia.
Qed.

(** X19. [main] of the chef-page script writes a file exactly when it
    returns 0, and that is when it was given a chef URL and an output
    file, the extraction found a recipe and the file could be created.
    The file then lists the extracted URLs in order, one entry each,
    numbered from 1, every entry with the chef's page and the same
    author, and a slug that is what follows the last ["/"] of the
    URL's path. *)
Theorem X19_chef_file_lists_the_extracted_urls :
  forall requests_get urljoin urlparse_path title can_write argv w,
    let run := fst (FoodAndWine.main requests_get urljoin urlparse_path title
                      can_write argv w) in
    (FoodAndWine.exit run = FoodAndWine.Returns 0
     <-> FoodAndWine.written run <> None)
    /\ match FoodAndWine.written run with
       | None => True
       | Some (file, data) =>
           exists chef_url,
             nth_error argv 1 = Some chef_url
             /\ nth_error argv 2 = Some file
             /\ can_write file = true
             /\ data <> []
             /\ map FoodAndWine.e_url data
                = fst (FoodAndWine.extract_recipe_urls requests_get urljoin
                         chef_url 10 w)
             /\ map FoodAndWine.e_extraction_order data
                = seq 1 (length data)
             /\ forall e, In e data ->
                  after_last_slash (urlparse_path (FoodAndWine.e_url e))
                    (FoodAndWine.e_slug e)
                  /\ FoodAndWine.e_chef_page e = chef_url
                  /\ FoodAndWine.e_source e = "Food & Wine"
                  /\ FoodAndWine.e_author e
                     = title (FoodAndWine.replace_char "-" " "
                                (FoodAndWine.last_part "/" ""
                                   (urlparse_path chef_url)))
       end.
Proof.
  intros requests_get urljoin urlparse_path title can_write argv w. cbv zeta.
  destruct argv as [|a0 [|chef_url [|file rest]]];
    try (cbn; split; [split; [discriminate | intros H; contradiction H; reflexivity] | exact I]).
  unfold FoodAndWine.main, bind, ret.
  destruct (FoodAndWine.extract_recipe_urls requests_get urljoin chef_url 10 w)
    as [urls w'] eqn:E.
  destruct urls as [|u urls].
  { cbn. split; [split; [discriminate | intros H; contradiction H; reflexivity] | exact I]. }
  destruct (can_write file) eqn:Ec.
  2:{ cbn. split; [split; [discriminate | intros H; contradiction H; reflexivity] | exact I]. }
  cbn [fst FoodAndWine.exit FoodAndWine.written].
  split; [split; [discriminate | reflexivity]|].
  exists chef_url. rewrite entries_loop_spec, E. cbn [app fst].
  set (us := u :: urls).
  split; [reflexivity|]. split; [reflexivity|]. split; [exact Ec|].
  split; [discriminate|].
  assert (Hlen : length (seq 1 (length us)) = length us) by apply length_seq.
  split.
  { rewrite map_map. cbn [FoodAndWine.e_url].
    change (fun x : nat * string => snd x) with (@snd nat string).
    apply map_combine_snd. exact Hlen. }
  split.
  { rewrite map_map, length_map. cbn [FoodAndWine.e_extraction_order].
    change (fun x : nat * string => fst x) with (@fst nat string).
    rewrite map_combine_fst by exact Hlen.
    rewrite length_combine, Hlen, Nat.min_id. reflexivity. }
  intros e He. apply in_map_iff in He. destruct He as (p & <- & _).
  cbn [FoodAndWine.e_url FoodAndWine.e_slug FoodAndWine.e_chef_page
       FoodAndWine.e_source FoodAndWine.e_author].
  split; [|repeat split].
  apply (last_part_spec (urlparse_path (snd p)) "" eq_refl).
Qed.

(** X20. [main] of the chef-page script returns 1, and writes
    nothing, exactly when an argument is missing or the extraction
    found no recipe; with an argument missing it sends no request at
    all, and in no case does it send more than ten. *)
Theorem X20_chef_main_failure_and_budget :
  forall requests_get urljoin urlparse_path title can_write argv w,
    let run := fst (FoodAndWine.main requests_get urljoin urlparse_path title
                      can_write argv w) in
    let w' := snd (FoodAndWine.main requests_get urljoin urlparse_path title
                     can_write argv w) in
    sent w <= sent w' <= sent w + 10
    /\ (length argv < 3 -> w' = w)
    /\ (FoodAndWine.exit run = FoodAndWine.Returns 1
        <-> length argv < 3
            \/ fst (FoodAndWine.extract_recipe_urls requests_get urljoin
                      (nth 1 argv "") 10 w) = [])
    /\ (FoodAndWine.exit run = FoodAndWine.Returns 1 ->
        FoodAndWine.written run = None).
Proof.
  intros requests_get urljoin urlparse_path title can_write argv w. cbv zeta.
  destruct argv as [|a0 [|chef_url [|file rest]]];
    try (cbn [FoodAndWine.main ret fst snd length FoodAndWine.exit
              FoodAndWine.written];
         split; [lia|]; split; [reflexivity|];
         split; [split; [intros _; left; lia | reflexivity] | reflexivity]).
  unfold FoodAndWine.main, bind, ret. cbn [nth length].
  pose proof (extract_sent requests_get urljoin chef_url 10 w) as Hs.
  destruct (FoodAndWine.extract_recipe_urls requests_get urljoin chef_url 10 w)
    as [urls w'].
  cbn [fst snd] in Hs |- *.
  destruct urls as [|u urls]; [|destruct (can_write file)];
    cbn [fst snd FoodAndWine.exit FoodAndWine.written];
    (split; [exact Hs|]); (split; [lia|]); split;
    try (split; [discriminate | intros [H | H]; [lia | discriminate H]]);
    try discriminate; try reflexivity.
  split; [intros _; right; reflexivity | reflexivity].
Qed.
